(** * MyCodeBuddy: the workspace sandbox and the step-execution controller

    A shallow embedding of [Agent/tools.py], [Agent/states.py] and
    [Agent/graph.py].  Python code that touches the file system, the event
    emitter or the language model is written in a state-and-exception monad
    over an explicit [World]; the answers of the language model are supplied
    by an oracle, so that every theorem quantifies over everything the model
    may answer.

    Conventions of the model:
    - a character of a string is a code point below 256;
    - a function decorated with [@tool] is a tool object: the agent runs
      its body with the arguments by name, and [graph.py] calls it as a
      function, which runs the body when it is given one argument and
      raises when it is given two (see [called_with_two]);
    - [print] is not modelled;
    - paths are POSIX paths without symbolic links, and the file system
      fails only where a file stands for a directory or a directory for a
      file (no permissions, no full disk);
    - files are opened in text mode: what is written is stored as it is,
      and what is read has its line endings translated to line feeds;
    - the event emitter is a sink that records what it receives and does not
      raise;
    - a dictionary that a pydantic model validates is written as the record
      of that model; a key that may be missing is an [option];
    - [run_cmd] is left out: nothing here calls it. *)

From Stdlib Require Import ZArith Ascii String List Lia Bool.
From stdpp Require Import base option list gmap strings.
Import ListNotations.
Open Scope string_scope.
Open Scope list_scope.
Open Scope Z_scope.

(** ** Python strings *)

Module PyStr.

(** [str.isspace] on one character, which is what [strip] and [rstrip]
    remove.  Below 256 the white space is: tab, line feed, vertical tab,
    form feed, carriage return, the four separators 0x1c-0x1f, the space,
    next line (0x85) and the no-break space (0xa0). *)
Definition isspace (c : ascii) : bool :=
  let n := nat_of_ascii c in
  ((9 <=? n) && (n <=? 13) || (28 <=? n) && (n <=? 32)
   || (n =? 133) || (n =? 160))%nat.

Fixpoint lstrip (s : string) : string :=
  match s with
  | String c s' => if isspace c then lstrip s' else s
  | EmptyString => EmptyString
  end.

(** [rstrip] keeps a character when something that is not white space
    follows it, or when it is not white space itself. *)
Fixpoint rstrip (s : string) : string :=
  match s with
  | EmptyString => EmptyString
  | String c s' =>
      match rstrip s' with
      | EmptyString => if isspace c then EmptyString else String c EmptyString
      | r => String c r
      end
  end.

Definition strip (s : string) : string := rstrip (lstrip s).

Definition startswith (s pre : string) : bool := String.prefix pre s.

(** [s.split(sep)] for a one-character separator: never the empty list. *)
Fixpoint split (sep : ascii) (s : string) : list string :=
  match s with
  | EmptyString => [EmptyString]
  | String c s' =>
      if Ascii.eqb c sep then EmptyString :: split sep s'
      else match split sep s' with
           | w :: ws => String c w :: ws
           | [] => [String c EmptyString]
           end
  end.

Definition join (sep : string) (l : list string) : string := String.concat sep l.

(** Truth value of a string: the empty string is false. *)
Definition truthy (s : string) : bool :=
  match s with EmptyString => false | _ => true end.

Definition len (s : string) : Z := Z.of_nat (String.length s).

End PyStr.

(** ** Exceptions and results *)

Inductive exn : Type :=
| ValueError (msg : string)
| IndexError
| KeyError (key : string)
| ValidationError
| AttributeError
| FileExistsError
| FileNotFoundError
| IsADirectoryError
| NotADirectoryError
| ModelError.

Inductive res (A : Type) : Type :=
| Returned (a : A)
| Raised (e : exn).
Arguments Returned {A} a.
Arguments Raised {A} e.

(** ** Paths (pathlib, without symbolic links) *)

Module Path.

(** An absolute path is the list of its components below [/]. *)
Definition t := list string.

Definition slash : ascii := "/"%char.

(** Components of a path string: pathlib drops empty components and [.]
    and keeps [..]. *)
Definition parts (s : string) : list string :=
  List.filter (fun c => negb (String.eqb c "" || String.eqb c "."))
              (PyStr.split slash s).

Definition is_absolute (s : string) : bool := PyStr.startswith s "/".

(** [base / s]: an absolute right operand replaces the left one. *)
Definition joinpath (base : t) (s : string) : t :=
  if is_absolute s then parts s else base ++ parts s.

(** [Path.resolve()]: [..] removes the component before it and is dropped
    at the root.  The accumulator holds the resolved prefix reversed. *)
Fixpoint resolve_aux (acc : list string) (p : t) : list string :=
  match p with
  | [] => rev acc
  | c :: p' =>
      if String.eqb c ".." then resolve_aux (tl acc) p'
      else resolve_aux (c :: acc) p'
  end.

Definition resolve (p : t) : t := resolve_aux [] p.

(** [p.parent]: the root is its own parent. *)
Definition parent (p : t) : t := removelast p.

(** [p.parents]: the proper ancestors, nearest first. *)
Fixpoint parents_aux (n : nat) (p : t) : list t :=
  match n with
  | O => []
  | S n' => parent p :: parents_aux n' (parent p)
  end.

Definition parents (p : t) : list t := parents_aux (length p) p.

Definition eqb (p q : t) : bool := bool_decide (p = q).

Definition mem (p : t) (l : list t) : bool := existsb (eqb p) l.

(** [str(p)] *)
Definition to_str (p : t) : string :=
  match p with
  | [] => "/"
  | _ => String.concat "" (List.map (fun c => "/" +:+ c) p)
  end.

(** [f.relative_to(base)]: a purely lexical prefix test. *)
Fixpoint relative_to (f base : t) : res t :=
  match base, f with
  | [], _ => Returned f
  | b :: base', c :: f' =>
      if String.eqb b c then relative_to f' base'
      else Raised (ValueError "not in the subpath")
  | _ :: _, [] => Raised (ValueError "not in the subpath")
  end.

(** [str] of a relative path; the empty one prints as a dot. *)
Definition rel_to_str (p : t) : string :=
  match p with
  | [] => "."
  | _ => String.concat "/" p
  end.

End Path.

(** ** The world: working directory, module globals, files, events, trace *)

Inductive node : Type :=
| File (content : string)
| Dir.

Inductive pyval : Type :=
| VStr (s : string)
| VInt (z : Z).

(** What the emitter receives: the session identifier and the event record. *)
Record event : Type := Event {
  ev_session : string;
  ev_record : list (string * pyval)
}.

Inductive tool_call : Type :=
| CallRead (path : string)
| CallWrite (path content : string)
| CallList (directory : string)
| CallCwd.

(** Everything the code does outside its own memory, in order. *)
Inductive action : Type :=
| FsMkdir (p : Path.t)
| FsOpenWrite (p : Path.t) (content : string)
| FsExists (p : Path.t)
| FsOpenRead (p : Path.t)
| FsIsDir (p : Path.t)
| FsGlob (p : Path.t)
| ReactInvoke (system user : string)
| FallbackInvoke (system user : string)
| StructuredInvoke (schema prompt : string).

Record World : Type := mkWorld {
  cwd : Path.t;
  _event_emitter : bool;
  _session_id : option string;
  fsmap : gmap (list string) node;
  events : list event;
  trace : list action
}.

Definition with_files (w : World) (f : gmap (list string) node) : World :=
  mkWorld (cwd w) (_event_emitter w) (_session_id w) f (events w) (trace w).

Definition with_event (w : World) (e : event) : World :=
  mkWorld (cwd w) (_event_emitter w) (_session_id w) (fsmap w)
          (events w ++ [e]) (trace w).

Definition with_action (w : World) (a : action) : World :=
  mkWorld (cwd w) (_event_emitter w) (_session_id w) (fsmap w)
          (events w) (trace w ++ [a]).

(** [set_event_emitter] *)
Definition set_event_emitter (session_id : string) (w : World) : World :=
  mkWorld (cwd w) true (Some session_id) (fsmap w) (events w) (trace w).

(** ** The monad of effectful code *)

Definition M (A : Type) : Type := World -> res A * World.

Definition ret {A} (a : A) : M A := fun w => (Returned a, w).
Definition raise {A} (e : exn) : M A := fun w => (Raised e, w).

Definition bind {A B} (m : M A) (k : A -> M B) : M B :=
  fun w => match m w with
           | (Returned a, w') => k a w'
           | (Raised e, w') => (Raised e, w')
           end.

(** [try: m except Exception as e: h e] *)
Definition catch {A} (m : M A) (h : exn -> M A) : M A :=
  fun w => match m w with
           | (Returned a, w') => (Returned a, w')
           | (Raised e, w') => h e w'
           end.

Definition get : M World := fun w => (Returned w, w).
Definition log (a : action) : M unit := fun w => (Returned tt, with_action w a).
Definition lift {A} (r : res A) : M A := fun w => (r, w).

Declare Scope py_scope.
Delimit Scope py_scope with py.
Notation "'let!' x ':=' m 'in' k" := (bind m (fun x => k))
  (at level 10, x name, m at level 100, k at level 200) : py_scope.
Notation "'run!' m 'in' k" := (bind m (fun _ => k))
  (at level 10, m at level 100, k at level 200) : py_scope.
Open Scope py_scope.

(** ** File-system primitives *)

Module Fs.

(** A node seen through [stat]: the root always is a directory. *)
Definition stat (w : World) (p : Path.t) : option node :=
  match p with
  | [] => Some Dir
  | _ => fsmap w !! p
  end.

Definition is_file_node (o : option node) : bool :=
  match o with Some (File _) => true | _ => false end.

Definition is_dir_node (o : option node) : bool :=
  match o with Some Dir => true | _ => false end.

(** [p.exists()] *)
Definition exists_ (p : Path.t) : M bool :=
  run! log (FsExists p) in let! w := get in ret (bool_decide (is_Some (stat w p))).

(** [p.is_dir()] *)
Definition is_dir (p : Path.t) : M bool :=
  run! log (FsIsDir p) in let! w := get in ret (is_dir_node (stat w p)).

(** The non-empty prefixes of [p], shortest first; the last one is [p]. *)
Fixpoint prefixes_from (acc : Path.t) (p : Path.t) : list Path.t :=
  match p with
  | [] => []
  | c :: p' => (acc ++ [c]) :: prefixes_from (acc ++ [c]) p'
  end.

Definition prefixes (p : Path.t) : list Path.t := prefixes_from [] p.

(** The map after the directories [p] and above have been created. *)
Definition mkdirs (p : Path.t) (f : gmap (list string) node) : gmap (list string) node :=
  fold_left (fun f q => <[q := Dir]> f) (prefixes p) f.

(** [p.mkdir(parents=True, exist_ok=True)]: fails when [p] or one of its
    ancestors is a regular file, and then creates nothing. *)
Definition mkdir_parents (p : Path.t) : M unit :=
  run! log (FsMkdir p) in
  let! w := get in
  if existsb (fun q => is_file_node (stat w q)) (Path.parents p) then
    raise NotADirectoryError
  else if is_file_node (stat w p) then raise FileExistsError
  else fun w => (Returned tt, with_files w (mkdirs p (fsmap w))).

(** [with open(p, "w") as f: f.write(content)] *)
Definition open_write (p : Path.t) (content : string) : M unit :=
  run! log (FsOpenWrite p content) in
  let! w := get in
  if is_dir_node (stat w p) then raise IsADirectoryError
  else if is_file_node (stat w (Path.parent p)) then raise NotADirectoryError
  else if negb (is_dir_node (stat w (Path.parent p))) then raise FileNotFoundError
  else fun w => (Returned tt, with_files w (<[p := File content]> (fsmap w))).

(** Reading in text mode with the default [newline=None]: a carriage
    return followed by a line feed, and a carriage return alone, are read as
    one line feed. *)
Fixpoint universal_newlines (s : string) : string :=
  match s with
  | EmptyString => EmptyString
  | String c s' =>
      if Ascii.eqb c (ascii_of_nat 13) then
        match s' with
        | String c' s'' =>
            if Ascii.eqb c' (ascii_of_nat 10)
            then String (ascii_of_nat 10) (universal_newlines s'')
            else String (ascii_of_nat 10) (universal_newlines s')
        | EmptyString => String (ascii_of_nat 10) EmptyString
        end
      else String c (universal_newlines s')
  end.

(** [with open(p, "r", encoding="utf-8") as f: return f.read()] *)
Definition open_read (p : Path.t) : M string :=
  run! log (FsOpenRead p) in
  let! w := get in
  match stat w p with
  | Some (File c) => ret (universal_newlines c)
  | Some Dir => raise IsADirectoryError
  | None => raise FileNotFoundError
  end.

(** [p.glob("**/*")] filtered by [is_file]: the regular files strictly
    below [p].  The order of a directory scan is not specified; the model
    lists in the order of the map. *)
Definition glob_files (p : Path.t) : M (list Path.t) :=
  run! log (FsGlob p) in
  let! w := get in
  ret (List.filter
         (fun f => bool_decide (p `prefix_of` f) && negb (Path.eqb p f)
                   && is_file_node (fsmap w !! f))
         (List.map fst (map_to_list (fsmap w)))).

End Fs.

(** ** [tools.py] *)

(** [get_project_root]: [Path.cwd() / "generated_project" / session_id]. *)
Definition get_project_root (session_id : string) : M Path.t :=
  let! w := get in
  ret (Path.joinpath (Path.joinpath (cwd w) "generated_project") session_id).

Definition outside_msg : string := "Attempt to write outside project root".
Definition unbound_msg : string := "Session ID not set. Call set_event_emitter first.".

(** [safe_path_for_project] *)
Definition safe_path_for_project (path session_id : string) : M Path.t :=
  let! project_root := get_project_root session_id in
  let p := Path.resolve (Path.joinpath project_root path) in
  if negb (Path.mem (Path.resolve project_root) (Path.parents p))
     && negb (Path.eqb (Path.resolve project_root) (Path.parent p))
     && negb (Path.eqb (Path.resolve project_root) p)
  then raise (ValueError outside_msg)
  else ret p.

(** [emit_event]: silent unless both globals are set and true. *)
Definition emit_event (event_type : string) (data : list (string * pyval)) : M unit :=
  fun w =>
    match _event_emitter w, _session_id w with
    | true, Some sid =>
        if PyStr.truthy sid
        then (Returned tt, with_event w (Event sid (("type", VStr event_type) :: data)))
        else (Returned tt, w)
    | _, _ => (Returned tt, w)
    end.

(** [if not _session_id: raise ValueError(...)] *)
Definition require_session : M string :=
  let! w := get in
  match _session_id w with
  | Some sid => if PyStr.truthy sid then ret sid else raise (ValueError unbound_msg)
  | None => raise (ValueError unbound_msg)
  end.

Definition write_file (path content : string) : M string :=
  let! sid := require_session in
  let! p := safe_path_for_project path sid in
  run! Fs.mkdir_parents (Path.parent p) in
  run! Fs.open_write p content in
  run! emit_event "file" [("path", VStr path); ("action", VStr "write");
                          ("size", VInt (PyStr.len content))] in
  ret ("WROTE:" +:+ Path.to_str p).

Definition read_file (path : string) : M string :=
  let! sid := require_session in
  let! p := safe_path_for_project path sid in
  let! present := Fs.exists_ p in
  if negb present then ret "" else Fs.open_read p.

Definition get_current_directory : M string :=
  let! sid := require_session in
  let! root := get_project_root sid in
  ret (Path.to_str root).

Definition newline : string := String (ascii_of_nat 10) EmptyString.

(** The relative names of [fs], in order, stopping at the first failure. *)
Fixpoint relative_names (root : Path.t) (fs : list Path.t) : res (list string) :=
  match fs with
  | [] => Returned []
  | f :: fs' =>
      match Path.relative_to f root with
      | Raised e => Raised e
      | Returned r =>
          match relative_names root fs' with
          | Raised e => Raised e
          | Returned rs => Returned (Path.rel_to_str r :: rs)
          end
      end
  end.

Definition list_files (directory : string) : M string :=
  let! sid := require_session in
  let! p := safe_path_for_project directory sid in
  let! isd := Fs.is_dir p in
  if negb isd then ret ("ERROR: " +:+ Path.to_str p +:+ " is not a directory")
  else
    let! fs := Fs.glob_files p in
    let! root := get_project_root sid in
    let! names := lift (relative_names root fs) in
    match names with
    | [] => ret "No files found."
    | _ => ret (PyStr.join newline names)
    end.

(** [init_project_root] *)
Definition init_project_root (session_id : string) : M string :=
  let! project_root := get_project_root session_id in
  run! Fs.mkdir_parents project_root in
  ret (Path.to_str project_root).

(** *** The tools as objects

    [@tool] wraps each of these functions in a tool object.  The agent runs
    a tool with the arguments by name, and the body runs on them. *)
Definition run_tool (c : tool_call) : M string :=
  match c with
  | CallRead path => read_file path
  | CallWrite path content => write_file path content
  | CallList directory => list_files directory
  | CallCwd => get_current_directory
  end.

(** [graph.py] calls the objects as functions, which goes through
    [__call__(tool_input, callbacks=None)] of the tool class.  Given one
    argument, a tool of one parameter runs its body on it: such a call is
    written as the body.  Given two, the first alone is the input and the
    second is taken for the callbacks: a text there has none of the
    attributes of a callback manager, and when it is empty the input still
    lacks the second field of the tool.  Either way the call raises before
    the body is reached. *)
Definition called_with_two {A} (body : string -> string -> M A)
           (tool_input callbacks : string) : M A :=
  if PyStr.truthy callbacks then raise AttributeError else raise ValidationError.

(** ** [states.py] *)

Record File_ : Type := mkFile { file_path : string; file_purpose : string }.

Record Plan : Type := mkPlan {
  name : string;
  description : string;
  tech_stack : string;
  features : list string;
  files : list File_
}.

Record ImplementationTask : Type := mkTask {
  filepath : string;
  task_description : string
}.

(** [TaskPlan] allows extra keys; the architect stores the plan under one. *)
Record TaskPlan : Type := mkTaskPlan {
  implementation_steps : list ImplementationTask;
  tp_plan : option Plan
}.

Record CoderState : Type := mkCoderState {
  task_plan : TaskPlan;
  current_step_idx : Z;
  current_file_content : option string
}.

(** The dictionary form of a coder state: each key may be missing.  A value
    that is a dictionary is written as the record it validates to. *)
Record CoderStateDict : Type := mkCoderStateDict {
  d_task_plan : option TaskPlan;
  d_current_step_idx : option Z;
  d_current_file_content : option string
}.

(** The dictionary passed between the nodes of the graph. *)
Record State : Type := mkState {
  st_user_prompt : option string;
  st_plan : option Plan;
  st_task_plan : option TaskPlan;
  st_coder_state : option CoderStateDict
}.

(** [coder_state.model_dump()] *)
Definition model_dump (cs : CoderState) : CoderStateDict :=
  mkCoderStateDict (Some (task_plan cs)) (Some (current_step_idx cs))
                   (current_file_content cs).

(** [{"coder_state": d}] *)
Definition coder_state_only (d : CoderStateDict) : State :=
  mkState None None None (Some d).

(** [l[i]] with Python's negative indices. *)
Definition py_index {A} (l : list A) (i : Z) : res A :=
  let n := Z.of_nat (length l) in
  let j := if i <? 0 then i + n else i in
  if (0 <=? j) && (j <? n) then
    match nth_error l (Z.to_nat j) with
    | Some a => Returned a
    | None => Raised IndexError
    end
  else Raised IndexError.

Definition len_steps (tp : TaskPlan) : Z :=
  Z.of_nat (length (implementation_steps tp)).

(** ** [graph.py] *)

(** What the language model does during one invocation of the coder: the
    tool calls of the tool-using agent, whether that agent ends by raising,
    and the answer to the tool-free request ([Raised]: the request fails;
    [Returned c]: the content of the reply, possibly missing or empty).
    An agent that a failing tool brings down is the oracle whose calls stop
    at that tool and that raises. *)
Record Oracle : Type := mkOracle {
  react_calls : list tool_call;
  react_raises : bool;
  fallback_resp : res (option string)
}.

Definition fallback_sys : string :=
  "You are the CODER. Generate the complete file content for the implementation. "
  +:+ "Provide only the code, no explanations or markdown formatting.".

Definition fence : string := "```".

(** The clean-up of the fallback reply: strip, then drop one leading fence
    line and one trailing fence line. *)
Definition clean_fallback (raw : string) : string :=
  let content := PyStr.strip raw in
  if PyStr.startswith content fence then
    let lines := PyStr.split (ascii_of_nat 10) content in
    let lines := if PyStr.startswith (List.hd "" lines) fence then List.tl lines else lines in
    let lines :=
      match lines with
      | [] => lines
      | _ => if String.eqb (PyStr.strip (List.last lines "")) fence
             then List.removelast lines else lines
      end in
    PyStr.join newline lines
  else content.

(** [try: m except Exception: pass] *)
Definition attempt {A} (m : M A) : M unit :=
  catch (run! m in ret tt) (fun _ => ret tt).

(** The tool calls of the agent, one after the other; a failing tool is
    reported to the model and does not stop the agent. *)
Fixpoint run_calls (cs : list tool_call) : M unit :=
  match cs with
  | [] => ret tt
  | c :: cs' => run! attempt (run_tool c) in run_calls cs'
  end.

Definition sentinel : State :=
  coder_state_only (mkCoderStateDict (Some (mkTaskPlan [] None)) (Some 999) None).

(** Lines 89-96: where the task plan is looked for. *)
Definition task_plan_data (state : State) : option TaskPlan :=
  match st_task_plan state with
  | Some tp => Some tp
  | None =>
      match st_coder_state state with
      | Some d => d_task_plan d
      | None => None
      end
  end.

(** Lines 99-122: the coder state is rebuilt from the dictionary; a missing
    ["task_plan"] key defaults to [{}], which [TaskPlan] rejects. *)
Definition rebuild (tpd : TaskPlan) (state : State) : res CoderState :=
  match st_coder_state state with
  | None => Returned (mkCoderState tpd 0 None)
  | Some d =>
      match d_task_plan d with
      | None => Raised ValidationError
      | Some tp =>
          Returned (mkCoderState tp (default 0 (d_current_step_idx d))
                                 (d_current_file_content d))
      end
  end.

Definition advance (cs : CoderState) : CoderState :=
  mkCoderState (task_plan cs) (current_step_idx cs + 1) (current_file_content cs).

(** A non-empty dictionary is true. *)
Definition dict_truthy (d : CoderStateDict) : bool :=
  bool_decide (is_Some (d_task_plan d)) || bool_decide (is_Some (d_current_step_idx d))
  || bool_decide (is_Some (d_current_file_content d)).

Definition should_continue (state : State) : string :=
  match st_coder_state state with
  | Some d =>
      if dict_truthy d then
        let current_idx := default 0 (d_current_step_idx d) in
        let total_steps :=
          match d_task_plan d with
          | Some tp => len_steps tp
          | None => 0
          end in
        if current_idx >=? total_steps then "END" else "coder"
      else "END"
  | None => "END"
  end.

Section Graph.

(** [prompts.py] is not part of the sources read here: its three prompt
    builders are parameters. *)
Variable planner_prompt : string -> string.
Variable architect_prompt : Plan -> string.
Variable coder_system_prompt : string.

Definition default_plan : Plan :=
  mkPlan "Error" "Failed to create plan" "unknown" [] [].

(** [planner_agent]; [answer] is what [run_structured(Plan, ...)] gives. *)
Definition planner_agent (answer : res Plan) (state : State) : M State :=
  match st_user_prompt state with
  | None => raise (KeyError "user_prompt")
  | Some up =>
      let user_prompt := PyStr.strip up in
      catch
        (run! log (StructuredInvoke "Plan" (planner_prompt user_prompt)) in
         let! plan_obj := lift answer in
         ret (mkState None (Some plan_obj) None None))
        (fun _ => ret (mkState None (Some default_plan) None None))
  end.

(** [architect_agent]; [answer] is what [run_structured(TaskPlan, ...)]
    gives. *)
Definition architect_agent (answer : res TaskPlan) (state : State) : M State :=
  match st_plan state with
  | None => ret (mkState None None (Some (mkTaskPlan [] None)) None)
  | Some plan =>
      catch
        (run! log (StructuredInvoke "TaskPlan" (architect_prompt plan)) in
         let! task_plan_obj := lift answer in
         ret (mkState None None
                (Some (mkTaskPlan (implementation_steps task_plan_obj) (Some plan)))
                None))
        (fun _ => ret (mkState None None (Some (mkTaskPlan [] (Some plan))) None))
  end.

(** Lines 139-147: the tool object is called with two arguments. *)
Definition debug_write : M unit :=
  attempt (run! called_with_two write_file "test.txt" "Hello World Test" in
           read_file "test.txt").

(** Lines 148-154. *)
Definition read_existing (current_task : ImplementationTask) : M string :=
  catch (read_file (filepath current_task)) (fun _ => ret "").

(** Lines 158-163. *)
Definition coder_user_prompt (current_task : ImplementationTask)
           (existing_content : string) : string :=
  "Task: " +:+ task_description current_task +:+ newline
  +:+ "File: " +:+ filepath current_task +:+ newline
  +:+ "Existing content:" +:+ newline +:+ existing_content +:+ newline
  +:+ "Use write_file(path, content) to save your changes.".

(** Lines 165-197: the result is the flag [success]. *)
Definition primary_attempt (o : Oracle) (user_prompt : string) : M bool :=
  catch
    (run! log (ReactInvoke coder_system_prompt user_prompt) in
     run! run_calls (react_calls o) in
     if react_raises o then raise ModelError
     else run! attempt (list_files ".") in ret true)
    (fun _ => ret false).

(** Lines 202-209: the result is [file_exists_after_react]. *)
Definition verify (current_task : ImplementationTask) : M bool :=
  catch
    (let! test_content := read_file (filepath current_task) in
     ret (PyStr.len (PyStr.strip test_content) >? 0))
    (fun _ => ret false).

(** Lines 213-248: at line 238 the tool object is called with two
    arguments again. *)
Definition fallback_path (o : Oracle) (current_task : ImplementationTask)
           (user_prompt : string) : M unit :=
  run! log (FallbackInvoke fallback_sys user_prompt) in
  let! content := lift (fallback_resp o) in
  if PyStr.truthy (default "" content) then
    run! called_with_two write_file (filepath current_task)
                         (clean_fallback (default "" content)) in
    attempt (read_file (filepath current_task))
  else ret tt.

(** Lines 199-253. *)
Definition fallback_block (o : Oracle) (current_task : ImplementationTask)
           (user_prompt : string) (success : bool) : M unit :=
  attempt
    (let! file_exists_after_react := verify current_task in
     if negb success || negb file_exists_after_react
     then fallback_path o current_task user_prompt
     else ret tt).

(** Lines 134-263: one step, from the selection of the task on. *)
Definition run_step (o : Oracle) (coder_state : CoderState) : M State :=
  let steps := implementation_steps (task_plan coder_state) in
  let! current_task := lift (py_index steps (current_step_idx coder_state)) in
  run! debug_write in
  let! existing_content := read_existing current_task in
  let user_prompt := coder_user_prompt current_task existing_content in
  let! success := primary_attempt o user_prompt in
  run! fallback_block o current_task user_prompt success in
  ret (coder_state_only (model_dump (advance coder_state))).

Definition coder_agent (o : Oracle) (state : State) : M State :=
  match task_plan_data state with
  | None => ret sentinel
  | Some tpd =>
      let! coder_state := lift (rebuild tpd state) in
      if current_step_idx coder_state >=? len_steps (task_plan coder_state)
      then ret (coder_state_only (model_dump coder_state))
      else run_step o coder_state
  end.

(** The graph is built over a plain [dict]: what a node returns is the
    whole state of the next node.  [invoke_coder n] is [n] successive
    invocations of the coder, the [k]-th with oracle [os k]. *)
Fixpoint invoke_coder (n : nat) (os : nat -> Oracle) (state : State) : M State :=
  match n with
  | O => ret state
  | S n' => let! state' := coder_agent (os O) state in
            invoke_coder n' (fun k => os (S k)) state'
  end.

(** The conditional edge after the coder: invoke, ask [should_continue],
    repeat.  The result counts the invocations made; [None] when [fuel]
    invocations did not reach ["END"]. *)
Fixpoint coder_loop (fuel : nat) (os : nat -> Oracle) (state : State)
  : M (option (State * nat)) :=
  match fuel with
  | O => ret None
  | S fuel' =>
      let! state' := coder_agent (os O) state in
      if String.eqb (should_continue state') "END" then ret (Some (state', 1%nat))
      else
        let! r := coder_loop fuel' (fun k => os (S k)) state' in
        ret (option_map (fun '(s, c) => (s, S c)) r)
  end.

End Graph.

(** ** Vocabulary of the statements *)

(** The project root of a session, as [get_project_root] builds it. *)
Definition project_root (w : World) (sid : string) : Path.t :=
  Path.joinpath (Path.joinpath (cwd w) "generated_project") sid.

(** Where a caller-supplied path resolves to. *)
Definition resolved (w : World) (sid path : string) : Path.t :=
  Path.resolve (Path.joinpath (project_root w sid) path).

(** The resolved path is the resolved project root or lies below it. *)
Definition inside (w : World) (sid path : string) : Prop :=
  Path.resolve (project_root w sid) `prefix_of` resolved w sid path.

#[global] Instance inside_dec (w : World) (sid path : string) :
  Decision (inside w sid path).
Proof. unfold inside. apply _. Defined.

(** The session is bound: [_session_id] is set and is not the empty string. *)
Definition bound (w : World) (sid : string) : Prop :=
  _session_id w = Some sid /\ sid <> "".

(** [m] relates the world it starts in to the world it ends in by [R]. *)
Definition respects (R : World -> World -> Prop) {A} (m : M A) : Prop :=
  forall w, R w (snd (m w)).

(** ** Example worlds *)

Definition example_root : Path.t := ["srv"; "app"; "generated_project"; "s1"].

(** A bound session whose workspace does not exist yet. *)
Definition w_fresh : World :=
  set_event_emitter "s1" (mkWorld ["srv"; "app"] false None ∅ [] []).

(** A bound session whose workspace holds the file [notes.txt]. *)
Definition w_notes : World :=
  mkWorld ["srv"; "app"] true (Some "s1")
          (<[example_root ++ ["notes.txt"] := File "remember"]>
             (Fs.mkdirs example_root ∅))
          [] [].

(** ** Vocabulary of the controller *)

(** The coder state an invocation works on, when it finds a task plan and the
    state validates (lines 88-122). *)
Definition effective (state : State) : option CoderState :=
  match task_plan_data state with
  | None => None
  | Some tpd =>
      match rebuild tpd state with
      | Returned cs => Some cs
      | Raised _ => None
      end
  end.

Definition set_cursor (cs : CoderState) (c : Z) : CoderState :=
  mkCoderState (task_plan cs) c (current_file_content cs).

(** The state [{"coder_state": ...}] that holds [cs]. *)
Definition holding (cs : CoderState) : State := coder_state_only (model_dump cs).

(** The cursor after [n] invocations that started at cursor [i] of a plan of
    [N] steps. *)
Definition cursor_after (i N : Z) (n : nat) : Z :=
  if i >=? N then i else Z.min (i + Z.of_nat n) N.

(** A state as the architect leaves it: a task plan and no coder state. *)
Definition starting (up : option string) (pl : option Plan) (tp : TaskPlan) : State :=
  mkState up pl (Some tp) None.

(** A plan of two steps, and a coder state that is one step into it. *)
Definition two_steps : TaskPlan :=
  mkTaskPlan [mkTask "app.py" "create hello world";
              mkTask "README.md" "write project description"] None.

Definition midway : State := holding (mkCoderState two_steps 1 None).

Definition finished : State := holding (mkCoderState two_steps 2 None).

(** A model that does nothing: no tool call, no failure, an empty reply. *)
Definition idle : Oracle := mkOracle [] false (Returned None).

(** ** Vocabulary of the traces *)

(** The actions on the file system. *)
Definition is_fs (a : action) : bool :=
  match a with
  | FsMkdir _ | FsOpenWrite _ _ | FsExists _ | FsOpenRead _ | FsIsDir _ | FsGlob _ => true
  | _ => false
  end.

Definition is_fallback (a : action) : bool :=
  match a with
  | FallbackInvoke _ _ => true
  | _ => false
  end.

(** How many times the fallback request has been sent to the model. *)
Definition fallback_requests (w : World) : nat :=
  length (List.filter is_fallback (trace w)).

Definition same_fallbacks (w w' : World) : Prop :=
  fallback_requests w' = fallback_requests w.

(** ** Vocabulary of one step *)

(** The test of line 205 on the result of the re-read: confirmed when the
    content, stripped of white space, is not empty. *)
Definition confirmed (r : res string) : bool :=
  match r with
  | Returned c => PyStr.len (PyStr.strip c) >? 0
  | Raised _ => false
  end.

(** The criterion in the words of the specification: confirmed when the
    content is not empty. *)
Definition spec_confirmed (r : res string) : bool :=
  match r with
  | Returned c => PyStr.truthy c
  | Raised _ => false
  end.

(** The existing content read at lines 148-154 and the world at that point. *)
Definition existing_before (t : ImplementationTask) (w : World) : string * World :=
  match read_existing t (snd (debug_write w)) with
  | (Returned s, w') => (s, w')
  | (Raised _, w') => ("", w')
  end.

Definition prompt_for (t : ImplementationTask) (w : World) : string :=
  coder_user_prompt t (fst (existing_before t w)).

(** The world once the primary attempt is over (line 198). *)
Definition post_attempt (sys : string) (o : Oracle) (t : ImplementationTask)
           (w : World) : World :=
  snd (primary_attempt sys o (prompt_for t w) (snd (existing_before t w))).

(** The re-read of the target file at line 204. *)
Definition reread (sys : string) (o : Oracle) (t : ImplementationTask)
           (w : World) : res string :=
  fst (read_file (filepath t) (post_attempt sys o t w)).

(** A model that writes one blank into [app.py] and stops. *)
Definition blank_writer : Oracle :=
  mkOracle [CallWrite "app.py" " "] false (Returned None).

Definition first_task : ImplementationTask := mkTask "app.py" "create hello world".

(** The world a successful [write_file] leaves: two file operations in the
    trace, the directories above [p] created, [p] holding [content], and the
    event emitted when an emitter is set. *)
Definition written (w : World) (p : Path.t) (path content : string) : World :=
  snd (emit_event "file"
         [("path", VStr path); ("action", VStr "write");
          ("size", VInt (PyStr.len content))]
         (with_files
            (with_action (with_action w (FsMkdir (Path.parent p)))
                         (FsOpenWrite p content))
            (<[p := File content]> (Fs.mkdirs (Path.parent p) (fsmap w))))).

(** Nothing at or above [p] is a regular file. *)
Definition no_file_above (w : World) (p : Path.t) : Prop :=
  forall q, q `prefix_of` p -> Fs.is_file_node (Fs.stat w q) = false.

(** ** Vocabulary of the further properties *)

(** No session is bound: [_session_id] is unset or is the empty string. *)
Definition unbound (w : World) : Prop :=
  forall sid, _session_id w = Some sid -> sid = "".

(** The working directory and the two module globals are the same. *)
Definition same_binding (w w' : World) : Prop :=
  cwd w' = cwd w /\ _session_id w' = _session_id w
  /\ _event_emitter w' = _event_emitter w.

(** Everything is the same except, possibly, the trace. *)
Definition same_but_trace (w w' : World) : Prop :=
  same_binding w w' /\ fsmap w' = fsmap w /\ events w' = events w.

(** The record [write_file] hands to the emitter. *)
Definition file_event (sid path content : string) : event :=
  Event sid [("type", VStr "file"); ("path", VStr path); ("action", VStr "write");
             ("size", VInt (PyStr.len content))].

(** A world with no session bound, and one bound to the empty identifier. *)
Definition w_unbound : World := mkWorld ["srv"; "app"] false None ∅ [] [].

Definition w_blank_session : World := set_event_emitter "" w_unbound.

(** A bound session whose workspace directory exists and is empty. *)
Definition w_empty_workspace : World :=
  mkWorld ["srv"; "app"] true (Some "s1") (Fs.mkdirs example_root ∅) [] [].

(** An event the sandbox may emit in world [w]: the write of a path that
    resolves inside the project root of the bound session. *)
Definition sound_event (w : World) (e : event) : Prop :=
  exists sid path content,
    bound w sid /\ inside w sid path /\ e = file_event sid path content.

(** From [w] to [w'] the binding is kept and only sound events are added. *)
Definition events_sound (w w' : World) : Prop :=
  same_binding w w'
  /\ exists l, events w' = events w ++ l /\ Forall (sound_event w) l.

(** With no session bound, nothing but the trace changes. *)
Definition idle_when_unbound (w w' : World) : Prop :=
  unbound w -> same_but_trace w w'.

(** The graph of lines 296-310: planner, architect, then the coder for as
    long as [should_continue] answers ["coder"].  [plan_answer] and
    [steps_answer] are what the two structured generations give. *)
Definition agent_invoke (planner_prompt : string -> string)
           (architect_prompt : Plan -> string) (coder_system_prompt : string)
           (fuel : nat) (plan_answer : res Plan) (steps_answer : res TaskPlan)
           (os : nat -> Oracle) (state : State) : M (option (State * nat)) :=
  let! planned := planner_agent planner_prompt plan_answer state in
  let! designed := architect_agent architect_prompt steps_answer planned in
  coder_loop coder_system_prompt fuel os designed.

(** The plan the planner settles on, and the steps the architect settles on. *)
Definition plan_of (plan_answer : res Plan) : Plan :=
  match plan_answer with
  | Returned p => p
  | Raised _ => default_plan
  end.

Definition steps_of (steps_answer : res TaskPlan) : list ImplementationTask :=
  match steps_answer with
  | Returned tp => implementation_steps tp
  | Raised _ => []
  end.

(** A state that holds both a top-level task plan and a coder state. *)
Definition resumed : State :=
  mkState (Some "a todo app") None (Some (mkTaskPlan [] None))
          (Some (model_dump (mkCoderState two_steps 1 None))).

(** A coder state dictionary with a cursor and no task plan. *)
Definition planless : CoderStateDict := mkCoderStateDict None (Some 3) None.

(** A model whose agent writes the target and stops, and one whose agent
    raises at once while the tool-free reply comes fenced. *)
Definition good_writer : Oracle :=
  mkOracle [CallWrite "app.py" "print(1)"] false (Returned None).

Definition fenced_reply : string :=
  "```python" +:+ newline +:+ "print(1)" +:+ newline +:+ "```".

Definition failing_agent : Oracle :=
  mkOracle [] true (Returned (Some fenced_reply)).

(** A string with no line feed in it. *)
Fixpoint single_line (s : string) : bool :=
  match s with
  | EmptyString => true
  | String c s' => negb (Ascii.eqb c (ascii_of_nat 10)) && single_line s'
  end.

(** A non-empty string whose last character is not white space. *)
Fixpoint ends_nonspace (s : string) : bool :=
  match s with
  | EmptyString => false
  | String c EmptyString => negb (PyStr.isspace c)
  | String _ s' => ends_nonspace s'
  end.

(** ** [api/main.py]: the session registry and the file endpoints *)

#[global] Instance pyval_eq_dec : EqDecision pyval.
Proof. solve_decision. Defined.

(** A dictionary with string keys, as the list of its items. *)
Fixpoint dict_get (k : string) (d : list (string * pyval)) : option pyval :=
  match d with
  | [] => None
  | (k', v) :: d' => if String.eqb k' k then Some v else dict_get k d'
  end.

(** [{"timestamp": now, **event}]: the key comes first and a timestamp of
    the event itself takes its place. *)
Definition with_timestamp (now : string) (event : list (string * pyval))
  : list (string * pyval) :=
  ("timestamp", default (VStr now) (dict_get "timestamp" event))
  :: List.filter (fun kv => negb (String.eqb (fst kv) "timestamp")) event.

(** The entries of [sessions[sid]] that the emitter reads or writes, and the
    prompt. *)
Record Session : Type := mkSession {
  s_prompt : string;
  s_status : string;
  s_current_node : option pyval;
  s_files : list pyval;
  s_events : list (list (string * pyval));
  s_error : option pyval
}.

Definition record_event (s : Session) (e : list (string * pyval)) : Session :=
  mkSession (s_prompt s) (s_status s) (s_current_node s) (s_files s)
            (s_events s ++ [e]) (s_error s).

Definition set_current_node (s : Session) (v : pyval) : Session :=
  mkSession (s_prompt s) (s_status s) (Some v) (s_files s) (s_events s) (s_error s).

Definition add_file (s : Session) (v : pyval) : Session :=
  mkSession (s_prompt s) (s_status s) (s_current_node s) (s_files s ++ [v])
            (s_events s) (s_error s).

Definition set_status (s : Session) (st : string) (err : option pyval) : Session :=
  mkSession (s_prompt s) st (s_current_node s) (s_files s) (s_events s) err.

(** [session_emitter] (lines 89-119); [now] is the time stamp taken.  The
    forwarding to the web sockets sits in a [try] that swallows everything
    and touches no session: it is left out. *)
Definition session_emitter (now sid : string) (event : list (string * pyval))
           (sessions : gmap string Session) : res unit * gmap string Session :=
  match sessions !! sid with
  | None => (Returned tt, sessions)
  | Some s =>
      let s1 := record_event s (with_timestamp now event) in
      let sessions1 := <[sid := s1]> sessions in
      match dict_get "type" event with
      | None => (Raised (KeyError "type"), sessions1)
      | Some ty =>
          if bool_decide (ty = VStr "node") then
            match dict_get "value" event with
            | None => (Raised (KeyError "value"), sessions1)
            | Some v => (Returned tt, <[sid := set_current_node s1 v]> sessions1)
            end
          else if bool_decide (ty = VStr "file") then
            match dict_get "path" event with
            | None => (Raised (KeyError "path"), sessions1)
            | Some pth =>
                if bool_decide (pth ∈ s_files s1) then (Returned tt, sessions1)
                else (Returned tt, <[sid := add_file s1 pth]> sessions1)
            end
          else if bool_decide (ty = VStr "done") then
            (Returned tt, <[sid := set_status s1 "completed" (s_error s1)]> sessions1)
          else if bool_decide (ty = VStr "error") then
            (Returned tt,
             <[sid := set_status s1 "error"
                        (Some (default (VStr "Unknown error") (dict_get "message" event)))]>
               sessions1)
          else (Returned tt, sessions1)
      end
  end.

(** What an endpoint answers: a body, or an [HTTPException]. *)
Inductive http (A : Type) : Type :=
| Answer (body : A)
| HTTPException (status_code : Z) (detail : string).
Arguments Answer {A} body.
Arguments HTTPException {A} status_code detail.

(** The body of the two file endpoints: the path as given, the content read
    or the message, the size and the session. *)
Record FileBody : Type := mkFileBody {
  b_path : string;
  b_text : string;
  b_size : Z;
  b_session_id : string
}.

(** The security check of lines 317 and 368: a test on the texts of the two
    resolved paths. *)
Definition api_check (project_path file_path : Path.t) : bool :=
  PyStr.startswith (Path.to_str file_path) (Path.to_str project_path).

Definition denied : string := "Access denied: file outside project directory".

Section Api.

(** [str(e)] for an [HTTPException] and for the other exceptions: the texts
    are those of the libraries. *)
Variable http_str : Z -> string -> string.
Variable exn_str : exn -> string.

(** [update_file_content] (lines 356-389).  The [HTTPException] of the
    check is raised inside the [try] whose handler catches every exception. *)
Definition update_file_content (sessions : gmap string Session)
           (session_id path content : string) (w : World) : http FileBody * World :=
  match sessions !! session_id with
  | None => (HTTPException 404 "Session not found", w)
  | Some _ =>
      let project_path := project_root w session_id in
      let file_path := Path.resolve (Path.joinpath project_path path) in
      let project_path := Path.resolve project_path in
      if negb (api_check project_path file_path) then
        (HTTPException 400 ("Invalid file path: " +:+ http_str 403 denied), w)
      else
        match (run! Fs.mkdir_parents (Path.parent file_path)
               in Fs.open_write file_path content) w with
        | (Returned _, w') =>
            (Answer (mkFileBody path "File updated successfully" (PyStr.len content)
                                session_id), w')
        | (Raised e, w') =>
            (HTTPException 500 ("Error writing file: " +:+ exn_str e), w')
        end
  end.

(** [get_file_content] (lines 305-354), for files that decode as text. *)
Definition get_file_content (sessions : gmap string Session)
           (session_id path : string) (w : World) : http FileBody * World :=
  match sessions !! session_id with
  | None => (HTTPException 404 "Session not found", w)
  | Some _ =>
      let project_path := project_root w session_id in
      let file_path := Path.resolve (Path.joinpath project_path path) in
      let project_path := Path.resolve project_path in
      if negb (api_check project_path file_path) then
        (HTTPException 400 ("Invalid file path: " +:+ http_str 403 denied), w)
      else
        match Fs.exists_ file_path w with
        | (Returned true, w1) =>
            if negb (Fs.is_file_node (Fs.stat w1 file_path)) then
              (HTTPException 400 "Path is not a file", w1)
            else
              match Fs.open_read file_path w1 with
              | (Returned content, w2) =>
                  (Answer (mkFileBody path content (PyStr.len content) session_id), w2)
              | (Raised e, w2) =>
                  (HTTPException 500 ("Error reading file: " +:+ exn_str e), w2)
              end
        | (_, w1) => (HTTPException 404 "File not found", w1)
        end
  end.

End Api.

(** The status an endpoint answers with; 200 for a body. *)
Definition status_of {A} (r : http A) : Z :=
  match r with
  | Answer _ => 200
  | HTTPException s _ => s
  end.

(** A session as [run_project] creates it, and a registry that holds it. *)
Definition new_session (prompt : string) : Session :=
  mkSession prompt "starting" None [] [] None.

Definition one_session : gmap string Session := {[ "s1" := new_session "a todo app" ]}.

(** ** [api/main.py]: the name of the archive *)

(** The characters of [s] that satisfy [f], in order. *)
Fixpoint str_filter (f : ascii -> bool) (s : string) : string :=
  match s with
  | EmptyString => EmptyString
  | String c s' => if f c then String c (str_filter f s') else str_filter f s'
  end.

(** Every character of [s] satisfies [f]. *)
Fixpoint str_all (f : ascii -> bool) (s : string) : bool :=
  match s with
  | EmptyString => true
  | String c s' => f c && str_all f s'
  end.

(** The text holds no carriage return. *)
Definition no_cr (s : string) : bool :=
  str_all (fun c => negb (Ascii.eqb c (ascii_of_nat 13))) s.

(** Two lines, the first ended by a carriage return and a line feed. *)
Definition crlf_text : string :=
  "one" +:+ String (ascii_of_nat 13) newline +:+ "two".

Section Zip.

(** [str.isalnum] on one character: the predicate of the Python runtime. *)
Variable isalnum : ascii -> bool.

(** [c.isalnum() or c in (' ', '-', '_')] *)
Definition kept (c : ascii) : bool :=
  isalnum c || Ascii.eqb c " " || Ascii.eqb c "-" || Ascii.eqb c "_".

(** Lines 424-428: the first 50 characters of the prompt, without the
    characters that are not kept, without trailing white space; or the
    default name when nothing is left. *)
Definition zip_clean_name (prompt : string) : string :=
  let project_name := String.substring 0 50 prompt in
  let clean_name := PyStr.rstrip (str_filter kept project_name) in
  if PyStr.truthy clean_name then clean_name else "generated_project".

(** Line 430. *)
Definition zip_filename (prompt session_id : string) : string :=
  zip_clean_name prompt +:+ "_" +:+ String.substring 0 8 session_id +:+ ".zip".

End Zip.

(** * Properties *)

(** ** The monad *)

Lemma bind_returned {A B} (m : M A) (k : A -> M B) w a w' :
  m w = (Returned a, w') -> bind m k w = k a w'.
Proof. intros H. unfold bind. now rewrite H. Qed.

Lemma bind_raised {A B} (m : M A) (k : A -> M B) w e w' :
  m w = (Raised e, w') -> bind m k w = (Raised e, w').
Proof. intros H. unfold bind. now rewrite H. Qed.

Lemma attempt_total {A} (m : M A) w :
  attempt m w = (Returned tt, snd (attempt m w)).
Proof.
  unfold attempt, catch, bind, ret.
  destruct (m w) as [[a|e] w']; reflexivity.
Qed.

Lemma attempt_returns {A} (m : M A) w :
  attempt m w = (Returned tt, snd (m w)).
Proof.
  unfold attempt, catch, bind, ret.
  destruct (m w) as [[a|e] w']; reflexivity.
Qed.

(** A relation between the world before and the world after that every
    primitive step respects is respected by whatever is built from them. *)
Section Respects.

Variable R : World -> World -> Prop.
Hypothesis R_refl : forall w, R w w.
Hypothesis R_trans : forall w1 w2 w3, R w1 w2 -> R w2 w3 -> R w1 w3.

Lemma respects_ret {A} (a : A) : respects R (ret a).
Proof. intros w. apply R_refl. Qed.

Lemma respects_raise {A} (e : exn) : respects R (@raise A e).
Proof. intros w. apply R_refl. Qed.

Lemma respects_lift {A} (r : res A) : respects R (lift r).
Proof. intros w. apply R_refl. Qed.

Lemma respects_called_with_two {A} (body : string -> string -> M A) x y :
  respects R (called_with_two body x y).
Proof. unfold called_with_two. destruct (PyStr.truthy y); apply respects_raise. Qed.

Lemma respects_get : respects R get.
Proof. intros w. apply R_refl. Qed.

Lemma respects_bind {A B} (m : M A) (k : A -> M B) :
  respects R m -> (forall a, respects R (k a)) -> respects R (bind m k).
Proof.
  intros Hm Hk w. unfold bind. specialize (Hm w).
  destruct (m w) as [[a|e] w']; simpl in *; [|assumption].
  eapply R_trans; [exact Hm|apply Hk].
Qed.

Lemma respects_catch {A} (m : M A) (h : exn -> M A) :
  respects R m -> (forall e, respects R (h e)) -> respects R (catch m h).
Proof.
  intros Hm Hh w. unfold catch. specialize (Hm w).
  destruct (m w) as [[a|e] w']; simpl in *; [assumption|].
  eapply R_trans; [exact Hm|apply Hh].
Qed.

Lemma respects_attempt {A} (m : M A) : respects R m -> respects R (attempt m).
Proof.
  intros Hm. unfold attempt. apply respects_catch.
  - apply respects_bind; [assumption|intros; apply respects_ret].
  - intros; apply respects_ret.
Qed.

Lemma respects_if {A} (b : bool) (m1 m2 : M A) :
  respects R m1 -> respects R m2 -> respects R (if b then m1 else m2).
Proof. destruct b; auto. Qed.

End Respects.

(** ** Paths *)

Lemma parent_snoc (p : Path.t) c : Path.parent (p ++ [c]) = p.
Proof. unfold Path.parent. apply removelast_last. Qed.

Lemma parent_prefix (p : Path.t) : Path.parent p `prefix_of` p.
Proof.
  destruct p as [|c p] using rev_ind.
  - exists []. reflexivity.
  - rewrite parent_snoc. exists [c]. reflexivity.
Qed.

Lemma parents_snoc (p : Path.t) c : Path.parents (p ++ [c]) = p :: Path.parents p.
Proof.
  unfold Path.parents. rewrite length_app. simpl.
  replace (length p + 1)%nat with (S (length p)) by lia.
  simpl. now rewrite parent_snoc.
Qed.

Lemma prefix_snoc_cases (q p : Path.t) c :
  q `prefix_of` (p ++ [c]) <-> q = p ++ [c] \/ q `prefix_of` p.
Proof.
  split.
  - intros [k Hk]. destruct k as [|d k] using rev_ind.
    + left. now rewrite app_nil_r in Hk.
    + right. rewrite app_assoc in Hk. apply app_inj_tail in Hk as [Hk _].
      exists k. exact Hk.
  - intros [->|[k ->]]; [reflexivity|]. exists (k ++ [c]). now rewrite app_assoc.
Qed.

(** [p.parents] lists exactly the proper prefixes of [p]. *)
Lemma in_parents (q p : Path.t) :
  In q (Path.parents p) <-> q `prefix_of` p /\ q <> p.
Proof.
  induction p as [|c p IH] using rev_ind.
  - simpl. split; [tauto|]. intros [[k Hk] Hne].
    symmetry in Hk. apply app_eq_nil in Hk as [-> _]. congruence.
  - rewrite parents_snoc, prefix_snoc_cases. simpl. rewrite IH. split.
    + intros [<-|[Hp Hne]].
      * split; [right; reflexivity|]. intros H.
        apply (f_equal (@length _)) in H. rewrite length_app in H. simpl in H. lia.
      * split; [right; assumption|]. intros ->.
        apply prefix_length in Hp. rewrite length_app in Hp. simpl in Hp. lia.
    + intros [[->|Hp] Hne]; [congruence|].
      destruct (decide (q = p)) as [->|Hqp]; [left; reflexivity|right; tauto].
Qed.

Lemma mem_parents (q p : Path.t) :
  Path.mem q (Path.parents p) = true <-> q `prefix_of` p /\ q <> p.
Proof.
  unfold Path.mem. rewrite existsb_exists, <- in_parents. split.
  - intros (x & Hin & Heq). unfold Path.eqb in Heq.
    apply bool_decide_eq_true in Heq. now subst.
  - intros Hin. exists q. split; [assumption|].
    unfold Path.eqb. now apply bool_decide_eq_true.
Qed.

(** The test of [safe_path_for_project] rejects exactly the paths that are
    neither the root nor below it. *)
Lemma escape_test (root p : Path.t) :
  negb (Path.mem root (Path.parents p)) && negb (Path.eqb root (Path.parent p))
  && negb (Path.eqb root p)
  = negb (bool_decide (root `prefix_of` p)).
Proof.
  destruct (decide (root `prefix_of` p)) as [Hp|Hn].
  - rewrite (bool_decide_eq_true_2 _ Hp). simpl.
    destruct (decide (root = p)) as [->|Hne].
    + unfold Path.eqb at 2. rewrite (bool_decide_eq_true_2 _ eq_refl).
      simpl. now rewrite andb_false_r.
    + assert (H : Path.mem root (Path.parents p) = true)
        by (apply mem_parents; tauto).
      now rewrite H.
  - rewrite (bool_decide_eq_false_2 _ Hn). simpl.
    assert (H1 : Path.mem root (Path.parents p) = false).
    { apply not_true_is_false. rewrite mem_parents. tauto. }
    assert (H2 : Path.eqb root (Path.parent p) = false).
    { unfold Path.eqb. apply bool_decide_eq_false_2. intros ->.
      apply Hn, parent_prefix. }
    assert (H3 : Path.eqb root p = false).
    { unfold Path.eqb. apply bool_decide_eq_false_2. intros ->. now apply Hn. }
    now rewrite H1, H2, H3.
Qed.

(** ** The sandbox *)

Lemma truthy_nonempty s : s <> "" -> PyStr.truthy s = true.
Proof. destruct s; [congruence|reflexivity]. Qed.

Lemma require_session_bound w sid :
  bound w sid -> require_session w = (Returned sid, w).
Proof.
  intros [Hs Hne]. unfold require_session, bind, get, ret. simpl.
  rewrite Hs, (truthy_nonempty _ Hne). reflexivity.
Qed.

Lemma safe_path_inside w sid path :
  inside w sid path ->
  safe_path_for_project path sid w = (Returned (resolved w sid path), w).
Proof.
  intros Hin. unfold safe_path_for_project, get_project_root, bind, get, ret. simpl.
  fold (project_root w sid). rewrite escape_test.
  fold (resolved w sid path).
  unfold inside in Hin. rewrite (bool_decide_eq_true_2 _ Hin). reflexivity.
Qed.

Lemma safe_path_outside w sid path :
  ~ inside w sid path ->
  safe_path_for_project path sid w = (Raised (ValueError outside_msg), w).
Proof.
  intros Hout. unfold safe_path_for_project, get_project_root, bind, get, ret. simpl.
  fold (project_root w sid). rewrite escape_test.
  fold (resolved w sid path).
  unfold inside in Hout. rewrite (bool_decide_eq_false_2 _ Hout). reflexivity.
Qed.

(** C5. A caller-supplied path that resolves neither to the project root of
    the bound session nor below it makes [write_file], [read_file] and
    [list_files] raise the path-escape error, and the world they leave is the
    world they found: no file created, read or modified, no event emitted,
    nothing added to the trace of file operations. *)
Theorem escaping_path_rejected (w : World) (sid path content : string) :
  bound w sid ->
  ~ inside w sid path ->
  write_file path content w = (Raised (ValueError outside_msg), w)
  /\ read_file path w = (Raised (ValueError outside_msg), w)
  /\ list_files path w = (Raised (ValueError outside_msg), w).
Proof.
  intros Hb Hout.
  pose proof (require_session_bound _ _ Hb) as Hs.
  pose proof (safe_path_outside _ _ _ Hout) as Hp.
  repeat split.
  - unfold write_file. rewrite (bind_returned _ _ _ _ _ Hs).
    now rewrite (bind_raised _ _ _ _ _ Hp).
  - unfold read_file. rewrite (bind_returned _ _ _ _ _ Hs).
    now rewrite (bind_raised _ _ _ _ _ Hp).
  - unfold list_files. rewrite (bind_returned _ _ _ _ _ Hs).
    now rewrite (bind_raised _ _ _ _ _ Hp).
Qed.

Lemma escaping_path_rejected_witness :
  write_file "../../etc/passwd" "x" w_notes = (Raised (ValueError outside_msg), w_notes)
  /\ read_file "../../etc/passwd" w_notes = (Raised (ValueError outside_msg), w_notes)
  /\ list_files "../../etc/passwd" w_notes = (Raised (ValueError outside_msg), w_notes).
Proof.
  apply (escaping_path_rejected w_notes "s1" "../../etc/passwd" "x").
  - split; [reflexivity|discriminate].
  - intros H. apply (bool_decide_eq_true_2 _) in H. vm_compute in H. discriminate.
Defined.

(** C8. Reading an in-sandbox path at which nothing exists returns the empty
    string and raises nothing; the only file operation is the existence
    test. *)
Theorem read_missing_file_empty (w : World) (sid path : string) :
  bound w sid ->
  inside w sid path ->
  Fs.stat w (resolved w sid path) = None ->
  read_file path w = (Returned "", with_action w (FsExists (resolved w sid path))).
Proof.
  intros Hb Hin Hnone.
  unfold read_file.
  rewrite (bind_returned _ _ _ _ _ (require_session_bound _ _ Hb)).
  rewrite (bind_returned _ _ _ _ _ (safe_path_inside _ _ _ Hin)).
  unfold bind, Fs.exists_, bind, log, get, ret. simpl.
  assert (Hst : Fs.stat (with_action w (FsExists (resolved w sid path)))
                        (resolved w sid path) = None) by exact Hnone.
  rewrite Hst. rewrite bool_decide_eq_false_2; [reflexivity|].
  intros [x Hx]. discriminate.
Qed.

Lemma read_missing_file_empty_witness :
  read_file "src/main.py" w_notes
  = (Returned "", with_action w_notes (FsExists (resolved w_notes "s1" "src/main.py"))).
Proof.
  apply (read_missing_file_empty w_notes "s1" "src/main.py").
  - split; [reflexivity|discriminate].
  - apply (bool_decide_eq_true_1 _). vm_compute. reflexivity.
  - vm_compute. reflexivity.
Defined.

(** C7, as the code has it.  For an in-sandbox path that is not a directory
    [list_files] raises nothing: it returns, as its ordinary result, the
    message ["ERROR: <resolved path> is not a directory"]; the only file
    operation is the directory test. *)
Theorem list_files_not_a_directory (w : World) (sid path : string) :
  bound w sid ->
  inside w sid path ->
  Fs.stat w (resolved w sid path) <> Some Dir ->
  list_files path w
  = (Returned ("ERROR: " +:+ Path.to_str (resolved w sid path) +:+ " is not a directory"),
     with_action w (FsIsDir (resolved w sid path))).
Proof.
  intros Hb Hin Hnd.
  unfold list_files.
  rewrite (bind_returned _ _ _ _ _ (require_session_bound _ _ Hb)).
  rewrite (bind_returned _ _ _ _ _ (safe_path_inside _ _ _ Hin)).
  unfold bind at 1. unfold Fs.is_dir, bind, log, get, ret. simpl.
  assert (Hst : Fs.is_dir_node
                  (Fs.stat (with_action w (FsIsDir (resolved w sid path)))
                           (resolved w sid path)) = false).
  { change (Fs.stat (with_action w (FsIsDir (resolved w sid path)))
                    (resolved w sid path))
      with (Fs.stat w (resolved w sid path)).
    destruct (Fs.stat w (resolved w sid path)) as [[c|]|]; simpl; congruence. }
  rewrite Hst. reflexivity.
Qed.

Lemma list_files_not_a_directory_witness :
  list_files "notes.txt" w_notes
  = (Returned "ERROR: /srv/app/generated_project/s1/notes.txt is not a directory",
     with_action w_notes (FsIsDir (example_root ++ ["notes.txt"]))).
Proof.
  apply (list_files_not_a_directory w_notes "s1" "notes.txt").
  - split; [reflexivity|discriminate].
  - apply (bool_decide_eq_true_1 _). vm_compute. reflexivity.
  - vm_compute. discriminate.
Defined.

(** C7 as stated fails: [notes.txt] is a regular file inside the sandbox,
    and listing it raises no error of any kind. *)
Lemma list_files_raises_nothing :
  bound w_notes "s1"
  /\ inside w_notes "s1" "notes.txt"
  /\ Fs.stat w_notes (resolved w_notes "s1" "notes.txt") = Some (File "remember")
  /\ ~ (exists e w', list_files "notes.txt" w_notes = (Raised e, w')).
Proof.
  split; [split; [reflexivity|discriminate]|].
  split; [apply (bool_decide_eq_true_1 _); vm_compute; reflexivity|].
  split; [vm_compute; reflexivity|].
  intros (e & w' & H). vm_compute in H. discriminate.
Qed.

(** ** The controller *)

Lemma catch_total {A} (m : M A) (h : exn -> M A) w :
  (forall e w1, exists a w2, h e w1 = (Returned a, w2)) ->
  exists a w', catch m h w = (Returned a, w').
Proof.
  intros Hh. unfold catch. destruct (m w) as [[a|e] w1]; [eauto|apply Hh].
Qed.

Lemma py_index_valid {A} (l : list A) (i : Z) :
  - Z.of_nat (length l) <= i < Z.of_nat (length l) ->
  exists a, py_index l i = Returned a.
Proof.
  intros Hi. unfold py_index.
  set (j := if i <? 0 then i + Z.of_nat (length l) else i).
  assert (Hj : 0 <= j < Z.of_nat (length l)).
  { subst j. destruct (Z.ltb_spec i 0); lia. }
  replace ((0 <=? j) && (j <? Z.of_nat (length l))) with true.
  2:{ symmetry. apply andb_true_intro. split; [apply Z.leb_le|apply Z.ltb_lt]; lia. }
  destruct (nth_error l (Z.to_nat j)) as [a|] eqn:Hn; [eauto|].
  apply nth_error_None in Hn. lia.
Qed.

Lemma py_index_below {A} (l : list A) (i : Z) :
  i < - Z.of_nat (length l) -> py_index l i = Raised IndexError.
Proof.
  intros Hi. unfold py_index.
  destruct (Z.ltb_spec i 0); [|lia].
  destruct (Z.leb_spec 0 (i + Z.of_nat (length l))); [lia|reflexivity].
Qed.

Lemma effective_holding (cs : CoderState) : effective (holding cs) = Some cs.
Proof. destruct cs. reflexivity. Qed.

Lemma should_continue_holding (cs : CoderState) :
  should_continue (holding cs)
  = if current_step_idx cs >=? len_steps (task_plan cs) then "END" else "coder".
Proof. reflexivity. Qed.

Lemma geb_true (a b : Z) : b <= a -> (a >=? b) = true.
Proof. intros H. rewrite Z.geb_leb. now apply Z.leb_le. Qed.

Lemma geb_false (a b : Z) : a < b -> (a >=? b) = false.
Proof. intros H. rewrite Z.geb_leb. now apply Z.leb_gt. Qed.

Lemma run_calls_returns cs w : run_calls cs w = (Returned tt, snd (run_calls cs w)).
Proof.
  revert w. induction cs as [|c cs IH]; intros w; [reflexivity|].
  simpl. unfold bind. rewrite attempt_returns. rewrite IH at 1. reflexivity.
Qed.

Section Controller.

Variable coder_system_prompt : string.

Local Abbreviation coder := (coder_agent coder_system_prompt).
Local Abbreviation step := (run_step coder_system_prompt).

Lemma read_existing_total t w :
  exists s w', read_existing t w = (Returned s, w').
Proof. apply catch_total. intros e w1. unfold ret. eauto. Qed.

Lemma primary_attempt_total o up w :
  exists b w', primary_attempt coder_system_prompt o up w = (Returned b, w').
Proof. apply catch_total. intros e w1. unfold ret. eauto. Qed.

Lemma primary_attempt_total' o up w :
  primary_attempt coder_system_prompt o up w
  = (Returned (negb (react_raises o)), snd (primary_attempt coder_system_prompt o up w)).
Proof.
  unfold primary_attempt, catch, bind, log. simpl.
  rewrite run_calls_returns.
  destruct (react_raises o); simpl; [reflexivity|].
  rewrite attempt_returns. reflexivity.
Qed.

(** A tool object called with two arguments raises where it stands, so the
    trial write of lines 139-147 ends in its handler at once. *)
Lemma called_with_two_raises {A} (body : string -> string -> M A) x y w :
  exists e, called_with_two body x y w = (Raised e, w).
Proof. unfold called_with_two, raise. destruct (PyStr.truthy y); eauto. Qed.

Lemma debug_write_returns w : debug_write w = (Returned tt, w).
Proof.
  unfold debug_write. rewrite attempt_returns.
  destruct (called_with_two_raises write_file "test.txt" "Hello World Test" w) as (e & He).
  now rewrite (bind_raised _ _ _ _ _ He).
Qed.

(** Once a task is selected, the step runs to its end and moves the cursor,
    whatever the tools, the model and the file system do. *)
Lemma run_step_total o cs t w :
  py_index (implementation_steps (task_plan cs)) (current_step_idx cs) = Returned t ->
  exists w', step o cs w = (Returned (holding (advance cs)), w').
Proof.
  intros Ht. unfold run_step.
  unfold bind at 1. unfold lift at 1. rewrite Ht.
  rewrite (bind_returned _ _ _ _ _ (debug_write_returns w)).
  destruct (read_existing_total t w) as (s & w2 & H2).
  rewrite (bind_returned _ _ _ _ _ H2).
  destruct (primary_attempt_total o (coder_user_prompt t s) w2) as (b & w3 & H3).
  rewrite (bind_returned _ _ _ _ _ H3).
  unfold bind at 1. unfold fallback_block. rewrite attempt_returns.
  unfold ret. eauto.
Qed.

Lemma coder_done o state w cs :
  effective state = Some cs ->
  len_steps (task_plan cs) <= current_step_idx cs ->
  coder o state w = (Returned (holding cs), w).
Proof.
  unfold effective, coder_agent. intros He Hge.
  destruct (task_plan_data state) as [tpd|]; [|discriminate].
  destruct (rebuild tpd state) as [cs'|e]; [|discriminate].
  injection He as ->.
  unfold bind, lift. rewrite (geb_true _ _ Hge). reflexivity.
Qed.

Lemma coder_pending o state w cs :
  effective state = Some cs ->
  current_step_idx cs < len_steps (task_plan cs) ->
  coder o state w = step o cs w.
Proof.
  unfold effective, coder_agent. intros He Hlt.
  destruct (task_plan_data state) as [tpd|]; [|discriminate].
  destruct (rebuild tpd state) as [cs'|e]; [|discriminate].
  injection He as ->.
  unfold bind, lift. rewrite (geb_false _ _ Hlt). reflexivity.
Qed.

Lemma coder_attempts o state w cs :
  effective state = Some cs ->
  - len_steps (task_plan cs) <= current_step_idx cs < len_steps (task_plan cs) ->
  exists w', coder o state w = (Returned (holding (advance cs)), w').
Proof.
  intros He Hr. rewrite (coder_pending o state w cs He) by lia.
  destruct (py_index_valid (implementation_steps (task_plan cs)) (current_step_idx cs) Hr)
    as [t Ht].
  now apply (run_step_total o cs t).
Qed.

Lemma cursor_after_done i N n : N <= i -> cursor_after i N n = i.
Proof. intros H. unfold cursor_after. now rewrite geb_true. Qed.

Lemma cursor_after_pending i N n :
  i < N -> cursor_after i N (S n) = cursor_after (i + 1) N n.
Proof.
  intros H. unfold cursor_after. rewrite (geb_false _ _ H).
  destruct (Z.leb_spec N (i + 1)) as [Hc|Hc].
  - rewrite (geb_true _ _ Hc). lia.
  - rewrite (geb_false _ _ Hc). lia.
Qed.

(** The state after [S n] invocations, in closed form. *)
Lemma invoke_coder_cursor n : forall os state w cs,
  effective state = Some cs ->
  0 <= current_step_idx cs ->
  exists w',
    invoke_coder coder_system_prompt (S n) os state w
    = (Returned (holding (set_cursor cs
         (cursor_after (current_step_idx cs) (len_steps (task_plan cs)) (S n)))), w').
Proof.
  induction n as [|n IH]; intros os state w cs He H0.
  - cbn [invoke_coder].
    destruct (Z.le_gt_cases (len_steps (task_plan cs)) (current_step_idx cs)) as [Hd|Hp].
    + rewrite (bind_returned _ _ _ _ _ (coder_done (os O) state w cs He Hd)).
      cbn [invoke_coder]. rewrite cursor_after_done by assumption.
      exists w. destruct cs; reflexivity.
    + destruct (coder_attempts (os O) state w cs He ltac:(lia)) as [w' Hw'].
      rewrite (bind_returned _ _ _ _ _ Hw'). cbn [invoke_coder].
      exists w'. unfold ret, advance, set_cursor, cursor_after.
      rewrite (geb_false _ _ Hp).
      replace ((current_step_idx cs + Z.of_nat 1) `min` len_steps (task_plan cs))
        with (current_step_idx cs + 1) by lia.
      reflexivity.
  - change (invoke_coder coder_system_prompt (S (S n)) os state w)
      with (bind (coder (os O) state)
                 (fun s => invoke_coder coder_system_prompt (S n) (fun k => os (S k)) s) w).
    destruct (Z.le_gt_cases (len_steps (task_plan cs)) (current_step_idx cs)) as [Hd|Hp].
    + rewrite (bind_returned _ _ _ _ _ (coder_done (os O) state w cs He Hd)).
      destruct (IH (fun k => os (S k)) (holding cs) w cs (effective_holding cs) H0)
        as [w' Hw'].
      rewrite Hw'. exists w'. now rewrite !cursor_after_done by assumption.
    + destruct (coder_attempts (os O) state w cs He ltac:(lia)) as [w1 Hw1].
      rewrite (bind_returned _ _ _ _ _ Hw1).
      destruct (IH (fun k => os (S k)) (holding (advance cs)) w1 (advance cs)
                   (effective_holding _) ltac:(simpl; lia)) as [w' Hw'].
      rewrite Hw'. exists w'. unfold set_cursor, advance; simpl.
      now rewrite (cursor_after_pending _ _ (S n) Hp).
Qed.

Lemma run_step_raises o cs w :
  py_index (implementation_steps (task_plan cs)) (current_step_idx cs) = Raised IndexError ->
  step o cs w = (Raised IndexError, w).
Proof.
  intros Ht. unfold run_step. unfold bind at 1. unfold lift at 1. now rewrite Ht.
Qed.

(** A cursor below [-N] selects no task: the invocation raises [IndexError]
    at line 135. *)
Lemma coder_below_range o state w cs :
  effective state = Some cs ->
  current_step_idx cs < - len_steps (task_plan cs) ->
  coder o state w = (Raised IndexError, w).
Proof.
  intros He Hlt.
  rewrite (coder_pending o state w cs He) by (unfold len_steps in *; lia).
  apply run_step_raises. now apply py_index_below.
Qed.

Lemma invoke_coder_effective n os state w cs :
  effective state = Some cs ->
  0 <= current_step_idx cs ->
  exists st' w',
    invoke_coder coder_system_prompt n os state w = (Returned st', w')
    /\ effective st'
       = Some (set_cursor cs
                 (cursor_after (current_step_idx cs) (len_steps (task_plan cs)) n)).
Proof.
  intros He H0. destruct n as [|n].
  - exists state, w. split; [reflexivity|]. rewrite He. f_equal.
    unfold cursor_after, set_cursor.
    destruct (current_step_idx cs >=? len_steps (task_plan cs)) eqn:Hc.
    + now destruct cs.
    + rewrite Z.geb_leb in Hc. apply Z.leb_gt in Hc.
      replace ((current_step_idx cs + Z.of_nat 0) `min` len_steps (task_plan cs))
        with (current_step_idx cs) by lia.
      now destruct cs.
  - destruct (invoke_coder_cursor n os state w cs He H0) as [w' Hw'].
    eexists _, w'. split; [exact Hw'|apply effective_holding].
Qed.

Lemma cursor_after_succ i N n :
  cursor_after i N (S n)
  = cursor_after i N n + (if cursor_after i N n <? N then 1 else 0).
Proof.
  unfold cursor_after. destruct (Z.leb_spec N i) as [Hc|Hc].
  - rewrite (geb_true _ _ Hc). destruct (Z.ltb_spec i N); lia.
  - rewrite (geb_false _ _ Hc).
    destruct (Z.ltb_spec ((i + Z.of_nat n) `min` N) N); lia.
Qed.

(** C1. An invocation that finds a pending step (cursor [i < N], the cursor
    being an index into the [N] steps) returns the same plan and scratch
    content with the cursor at [i + 1], for every behaviour of the tools, of
    the tool-using agent and of the fallback.  Over [n] successive
    invocations the cursor is [cursor_after i N n]: it starts at [i], and
    each further invocation adds one while a step is pending and nothing
    afterwards, so it never decreases and never skips an index. *)
Theorem cursor_advances_by_one (o : Oracle) (os : nat -> Oracle) (n : nat)
        (state : State) (w : World) (cs : CoderState) :
  effective state = Some cs ->
  - len_steps (task_plan cs) <= current_step_idx cs ->
  (current_step_idx cs < len_steps (task_plan cs) ->
   exists w', coder o state w
              = (Returned (holding (set_cursor cs (current_step_idx cs + 1))), w'))
  /\ (0 <= current_step_idx cs ->
      exists st' w',
        invoke_coder coder_system_prompt n os state w = (Returned st', w')
        /\ effective st'
           = Some (set_cursor cs
                     (cursor_after (current_step_idx cs) (len_steps (task_plan cs)) n)))
  /\ cursor_after (current_step_idx cs) (len_steps (task_plan cs)) 0 = current_step_idx cs
  /\ cursor_after (current_step_idx cs) (len_steps (task_plan cs)) (S n)
     = cursor_after (current_step_idx cs) (len_steps (task_plan cs)) n
       + (if cursor_after (current_step_idx cs) (len_steps (task_plan cs)) n
             <? len_steps (task_plan cs) then 1 else 0).
Proof.
  intros He H0. repeat split.
  - intros Hlt. apply (coder_attempts o state w cs He). lia.
  - intros Hnn. now apply invoke_coder_effective.
  - unfold cursor_after.
    destruct (current_step_idx cs >=? len_steps (task_plan cs)) eqn:Hc; [reflexivity|].
    rewrite Z.geb_leb in Hc. apply Z.leb_gt in Hc. lia.
  - apply cursor_after_succ.
Qed.

(** From a state that holds [cs] with a cursor in range, the loop of the
    graph stops after [max 1 (N - i)] invocations with the cursor at
    [max i N]. *)
Lemma coder_loop_halts fuel : forall os state w cs,
  effective state = Some cs ->
  0 <= current_step_idx cs ->
  Z.max 1 (len_steps (task_plan cs) - current_step_idx cs) <= Z.of_nat fuel ->
  exists w',
    coder_loop coder_system_prompt fuel os state w
    = (Returned (Some (holding (set_cursor cs
                         (Z.max (current_step_idx cs) (len_steps (task_plan cs)))),
                       Z.to_nat (Z.max 1 (len_steps (task_plan cs) - current_step_idx cs)))),
       w').
Proof.
  induction fuel as [|fuel IH]; intros os state w cs He H0 Hf; [lia|].
  cbn [coder_loop].
  destruct (Z.le_gt_cases (len_steps (task_plan cs)) (current_step_idx cs)) as [Hd|Hp].
  - rewrite (bind_returned _ _ _ _ _ (coder_done (os O) state w cs He Hd)).
    rewrite should_continue_holding, (geb_true _ _ Hd).
    change ("END" =? "END")%string with true. cbv iota.
    exists w. unfold ret.
    replace (Z.max (current_step_idx cs) (len_steps (task_plan cs)))
      with (current_step_idx cs) by lia.
    replace (Z.max 1 (len_steps (task_plan cs) - current_step_idx cs)) with 1 by lia.
    now destruct cs.
  - destruct (coder_attempts (os O) state w cs He ltac:(lia)) as [w1 Hw1].
    rewrite (bind_returned _ _ _ _ _ Hw1).
    rewrite should_continue_holding. cbn [advance task_plan current_step_idx].
    destruct (Z.le_gt_cases (len_steps (task_plan cs)) (current_step_idx cs + 1))
      as [Hl|Hm].
    + rewrite (geb_true _ _ Hl). change ("END" =? "END")%string with true. cbv iota.
      exists w1. unfold ret, advance, set_cursor.
      replace (Z.max (current_step_idx cs) (len_steps (task_plan cs)))
        with (current_step_idx cs + 1) by lia.
      replace (Z.max 1 (len_steps (task_plan cs) - current_step_idx cs)) with 1 by lia.
      reflexivity.
    + rewrite (geb_false _ _ Hm). change ("coder" =? "END")%string with false.
      cbv iota.
      destruct (IH (fun k => os (S k)) (holding (advance cs)) w1 (advance cs)
                   (effective_holding _) ltac:(simpl; lia) ltac:(simpl; lia))
        as [w' Hw'].
      rewrite (bind_returned _ _ _ _ _ Hw'). exists w'. unfold ret. simpl.
      unfold set_cursor. simpl.
      replace (Z.max (current_step_idx cs + 1) (len_steps (task_plan cs)))
        with (Z.max (current_step_idx cs) (len_steps (task_plan cs))) by lia.
      replace (S (Z.to_nat (Z.max 1 (len_steps (task_plan cs) - (current_step_idx cs + 1)))))
        with (Z.to_nat (Z.max 1 (len_steps (task_plan cs) - current_step_idx cs))) by lia.
      reflexivity.
Qed.

(** C3. From a state with a plan of [N] steps and no coder state, [N + 1]
    invocations return a state whose cursor is [N]: the terminal state.
    [should_continue] answers ["END"] there, so the graph invokes the coder
    no further, and an invocation made all the same would change nothing.
    The loop of the graph itself stops after [max 1 N] invocations, which is
    at most [N + 1], in that same state. *)
Theorem plan_completes_in_N_plus_one (up : option string) (pl : option Plan)
        (tp : TaskPlan) (os : nat -> Oracle) (w : World) :
  let N := length (implementation_steps tp) in
  let final := holding (mkCoderState tp (Z.of_nat N) None) in
  (exists w',
      invoke_coder coder_system_prompt (S N) os (starting up pl tp) w
      = (Returned final, w')
      /\ forall o, coder o final w' = (Returned final, w'))
  /\ should_continue final = "END"
  /\ (exists w',
        coder_loop coder_system_prompt (S N) os (starting up pl tp) w
        = (Returned (Some (final, Nat.max 1 N)), w'))
  /\ (Nat.max 1 N <= S N)%nat.
Proof.
  intros N final.
  assert (He : effective (starting up pl tp) = Some (mkCoderState tp 0 None))
    by reflexivity.
  repeat split.
  - destruct (invoke_coder_cursor N os (starting up pl tp) w _ He ltac:(simpl; lia))
      as [w' Hw'].
    exists w'. simpl in Hw'. unfold set_cursor in Hw'. simpl in Hw'.
    assert (Hc : cursor_after 0 (len_steps tp) (S N) = Z.of_nat N).
    { unfold cursor_after, len_steps. fold N.
      destruct (0 >=? Z.of_nat N) eqn:Hg.
      - rewrite Z.geb_leb in Hg. apply Z.leb_le in Hg. lia.
      - lia. }
    rewrite Hc in Hw'. split; [exact Hw'|].
    intros o. apply coder_done; [apply effective_holding|]. simpl. unfold len_steps. lia.
  - subst final. rewrite should_continue_holding. simpl.
    unfold len_steps. fold N. now rewrite geb_true by lia.
  - destruct (coder_loop_halts (S N) os (starting up pl tp) w _ He
                ltac:(simpl; lia) ltac:(simpl; unfold len_steps; lia)) as [w' Hw'].
    exists w'. rewrite Hw'. simpl. unfold set_cursor, len_steps. simpl. fold N.
    replace (Z.max 0 (Z.of_nat N)) with (Z.of_nat N) by lia.
    replace (Z.to_nat (Z.max 1 (Z.of_nat N - 0))) with (Nat.max 1 N) by lia.
    reflexivity.
  - lia.
Qed.

(** C4. With the cursor at or past the number of steps an invocation returns
    the coder state it found (same cursor, same plan, same scratch content)
    and leaves the world as it was; on a state of the shape the coder itself
    returns, the returned state is the input.  No other invocation returns
    the coder state it found. *)
Theorem completed_plan_is_noop (o : Oracle) (state : State) (w : World)
        (cs : CoderState) :
  effective state = Some cs ->
  len_steps (task_plan cs) <= current_step_idx cs ->
  coder o state w = (Returned (holding cs), w)
  /\ effective (holding cs) = Some cs
  /\ coder o (holding cs) w = (Returned (holding cs), w)
  /\ (forall o' state' w' st'' w'',
        coder o' state' w' = (Returned st'', w'') ->
        effective st'' = effective state' ->
        exists cs', effective state' = Some cs'
                    /\ len_steps (task_plan cs') <= current_step_idx cs').
Proof.
  intros He Hge. repeat split.
  - now apply coder_done.
  - apply effective_holding.
  - apply coder_done; [apply effective_holding|assumption].
  - clear. intros o state w st' w' Hrun Heq.
    destruct (effective state) as [cs|] eqn:He.
    + exists cs. split; [reflexivity|].
      destruct (Z.le_gt_cases (len_steps (task_plan cs)) (current_step_idx cs))
        as [Hd|Hp]; [assumption|exfalso].
      rewrite (coder_pending o state w cs He Hp) in Hrun.
      destruct (py_index (implementation_steps (task_plan cs)) (current_step_idx cs))
        as [t|e] eqn:Ht.
      * destruct (run_step_total o cs t w Ht) as [w1 Hw1].
        rewrite Hw1 in Hrun. injection Hrun as <- <-.
        rewrite effective_holding in Heq. injection Heq as Heq.
        apply (f_equal current_step_idx) in Heq. simpl in Heq. lia.
      * unfold run_step in Hrun. unfold bind at 1 in Hrun.
        unfold lift at 1 in Hrun. rewrite Ht in Hrun. discriminate.
    + exfalso. unfold effective in He. unfold coder_agent in Hrun.
      destruct (task_plan_data state) as [tpd|].
      * destruct (rebuild tpd state) as [cs|e]; [discriminate|].
        unfold bind, lift in Hrun. discriminate.
      * unfold ret in Hrun. injection Hrun as <- <-. discriminate.
Qed.

(** C10. A state with no task plan, neither at the top level nor inside a
    coder state, makes the coder return, without raising and without touching
    the world, the sentinel coder state: cursor 999 over an empty list of
    steps.  [should_continue] answers ["END"] on it. *)
Theorem missing_task_plan_gives_sentinel (o : Oracle) (state : State) (w : World) :
  st_task_plan state = None ->
  (forall d, st_coder_state state = Some d -> d_task_plan d = None) ->
  coder o state w = (Returned sentinel, w)
  /\ st_coder_state sentinel
     = Some (mkCoderStateDict (Some (mkTaskPlan [] None)) (Some 999) None)
  /\ should_continue sentinel = "END".
Proof.
  intros Htop Hin. repeat split.
  unfold coder_agent, task_plan_data. rewrite Htop.
  destruct (st_coder_state state) as [d|]; [|reflexivity].
  now rewrite (Hin d eq_refl).
Qed.

End Controller.

(** ** What the tools respect *)

Section ToolsRespect.

Variable R : World -> World -> Prop.
Hypothesis R_refl : forall w, R w w.
Hypothesis R_trans : forall w1 w2 w3, R w1 w2 -> R w2 w3 -> R w1 w3.
Hypothesis R_fs : forall w a, is_fs a = true -> R w (with_action w a).

Ltac respects_step :=
  match goal with
  | |- respects _ (ret _) => apply (respects_ret R R_refl)
  | |- respects _ (raise _) => apply (respects_raise R R_refl)
  | |- respects _ get => apply (respects_get R R_refl)
  | |- respects _ (lift _) => apply (respects_lift R R_refl)
  | |- respects _ (bind _ _) => apply (respects_bind R R_trans); [|intro]
  | |- respects _ (catch _ _) => apply (respects_catch R R_trans); [|intro]
  | |- respects _ (attempt _) => apply (respects_attempt R R_refl R_trans)
  | |- respects _ (if ?b then _ else _) => destruct b
  | |- respects _ (match ?x with _ => _ end) => destruct x
  end.

Ltac respects_auto := repeat respects_step.

Lemma respects_log_fs a : is_fs a = true -> respects R (log a).
Proof. intros Ha w. now apply R_fs. Qed.

Lemma respects_require_session : respects R require_session.
Proof. unfold require_session. respects_auto. Qed.

Lemma respects_get_project_root sid : respects R (get_project_root sid).
Proof. unfold get_project_root. respects_auto. Qed.

Lemma respects_safe_path path sid : respects R (safe_path_for_project path sid).
Proof.
  unfold safe_path_for_project. apply (respects_bind R R_trans).
  - apply respects_get_project_root.
  - intros; respects_auto.
Qed.

Lemma respects_exists p : respects R (Fs.exists_ p).
Proof.
  unfold Fs.exists_. apply (respects_bind R R_trans).
  - now apply respects_log_fs.
  - intros; respects_auto.
Qed.

Lemma respects_is_dir p : respects R (Fs.is_dir p).
Proof.
  unfold Fs.is_dir. apply (respects_bind R R_trans).
  - now apply respects_log_fs.
  - intros; respects_auto.
Qed.

Lemma respects_open_read p : respects R (Fs.open_read p).
Proof.
  unfold Fs.open_read. apply (respects_bind R R_trans).
  - now apply respects_log_fs.
  - intros; respects_auto.
Qed.

Lemma respects_glob_files p : respects R (Fs.glob_files p).
Proof.
  unfold Fs.glob_files. apply (respects_bind R R_trans).
  - now apply respects_log_fs.
  - intros; respects_auto.
Qed.

Lemma respects_read_file path : respects R (read_file path).
Proof.
  unfold read_file.
  apply (respects_bind R R_trans); [apply respects_require_session|intros sid].
  apply (respects_bind R R_trans); [apply respects_safe_path|intros p].
  apply (respects_bind R R_trans); [apply respects_exists|intros b].
  apply (respects_if R); [apply (respects_ret R R_refl)|apply respects_open_read].
Qed.

Lemma respects_list_files directory : respects R (list_files directory).
Proof.
  unfold list_files.
  apply (respects_bind R R_trans); [apply respects_require_session|intros sid].
  apply (respects_bind R R_trans); [apply respects_safe_path|intros p].
  apply (respects_bind R R_trans); [apply respects_is_dir|intros b].
  apply (respects_if R); [apply (respects_ret R R_refl)|].
  apply (respects_bind R R_trans); [apply respects_glob_files|intros fs].
  apply (respects_bind R R_trans); [apply respects_get_project_root|intros root].
  respects_auto.
Qed.

Lemma respects_get_current_directory : respects R get_current_directory.
Proof.
  unfold get_current_directory.
  apply (respects_bind R R_trans); [apply respects_require_session|intros sid].
  apply (respects_bind R R_trans); [apply respects_get_project_root|intros root].
  apply (respects_ret R R_refl).
Qed.

(** The rest holds for relations that writing a file and emitting an event
    respect as well. *)
Hypothesis R_files : forall w f, R w (with_files w f).
Hypothesis R_event : forall w e, R w (with_event w e).

Lemma respects_mkdir_parents p : respects R (Fs.mkdir_parents p).
Proof.
  unfold Fs.mkdir_parents. apply (respects_bind R R_trans).
  - now apply respects_log_fs.
  - intros _. apply (respects_bind R R_trans); [apply (respects_get R R_refl)|intros w].
    repeat (apply (respects_if R); [apply (respects_raise R R_refl)|]).
    intros w1. apply R_files.
Qed.

Lemma respects_open_write p content : respects R (Fs.open_write p content).
Proof.
  unfold Fs.open_write. apply (respects_bind R R_trans).
  - now apply respects_log_fs.
  - intros _. apply (respects_bind R R_trans); [apply (respects_get R R_refl)|intros w].
    repeat (apply (respects_if R); [apply (respects_raise R R_refl)|]).
    intros w1. apply R_files.
Qed.

Lemma respects_emit_event ty data : respects R (emit_event ty data).
Proof.
  intros w. unfold emit_event.
  destruct (_event_emitter w), (_session_id w) as [sid|]; simpl; try apply R_refl.
  destruct (PyStr.truthy sid); simpl; [apply R_event|apply R_refl].
Qed.

Lemma respects_write_file path content : respects R (write_file path content).
Proof.
  unfold write_file.
  apply (respects_bind R R_trans); [apply respects_require_session|intros sid].
  apply (respects_bind R R_trans); [apply respects_safe_path|intros p].
  apply (respects_bind R R_trans); [apply respects_mkdir_parents|intros _].
  apply (respects_bind R R_trans); [apply respects_open_write|intros _].
  apply (respects_bind R R_trans); [apply respects_emit_event|intros _].
  apply (respects_ret R R_refl).
Qed.

Lemma respects_run_tool c : respects R (run_tool c).
Proof.
  destruct c; simpl.
  - apply respects_read_file.
  - apply respects_write_file.
  - apply respects_list_files.
  - apply respects_get_current_directory.
Qed.

Lemma respects_run_calls cs : respects R (run_calls cs).
Proof.
  induction cs as [|c cs IH]; simpl.
  - apply (respects_ret R R_refl).
  - apply (respects_bind R R_trans).
    + apply (respects_attempt R R_refl R_trans). apply respects_run_tool.
    + intros _. exact IH.
Qed.

End ToolsRespect.

(** ** Counting the fallback requests *)

Lemma same_fallbacks_refl w : same_fallbacks w w.
Proof. reflexivity. Qed.

Lemma same_fallbacks_trans w1 w2 w3 :
  same_fallbacks w1 w2 -> same_fallbacks w2 w3 -> same_fallbacks w1 w3.
Proof. unfold same_fallbacks. congruence. Qed.

Lemma fallback_requests_action w a :
  fallback_requests (with_action w a)
  = (fallback_requests w + (if is_fallback a then 1 else 0))%nat.
Proof.
  unfold fallback_requests. simpl. rewrite List.filter_app, length_app. simpl.
  destruct (is_fallback a); reflexivity.
Qed.

Lemma same_fallbacks_action w a : is_fallback a = false -> same_fallbacks w (with_action w a).
Proof.
  intros Ha. unfold same_fallbacks. rewrite fallback_requests_action, Ha. lia.
Qed.

Lemma same_fallbacks_fs w a : is_fs a = true -> same_fallbacks w (with_action w a).
Proof. intros Ha. apply same_fallbacks_action. destruct a; simpl in *; congruence. Qed.

Lemma same_fallbacks_files w f : same_fallbacks w (with_files w f).
Proof. reflexivity. Qed.

Lemma same_fallbacks_event w e : same_fallbacks w (with_event w e).
Proof. reflexivity. Qed.

Section Step.

Variable coder_system_prompt : string.

Local Abbreviation step := (run_step coder_system_prompt).
Local Abbreviation primary := (primary_attempt coder_system_prompt).

Lemma debug_write_total w : debug_write w = (Returned tt, snd (debug_write w)).
Proof. apply attempt_total. Qed.

Lemma fallback_block_total o t up success w :
  fallback_block o t up success w
  = (Returned tt, snd (fallback_block o t up success w)).
Proof. apply attempt_total. Qed.

Lemma existing_before_spec t w :
  read_existing t (snd (debug_write w))
  = (Returned (fst (existing_before t w)), snd (existing_before t w)).
Proof.
  unfold existing_before.
  destruct (read_existing_total t (snd (debug_write w))) as (s & w' & H).
  rewrite H. reflexivity.
Qed.

Lemma verify_spec t w :
  verify t w
  = (Returned (confirmed (fst (read_file (filepath t) w))),
     snd (read_file (filepath t) w)).
Proof.
  unfold verify, catch, bind, ret.
  destruct (read_file (filepath t) w) as [[c|e] w']; reflexivity.
Qed.

(** The stages of one step. *)
Lemma run_step_stages o cs t w :
  py_index (implementation_steps (task_plan cs)) (current_step_idx cs) = Returned t ->
  step o cs w
  = (Returned (holding (advance cs)),
     snd (fallback_block o t (prompt_for t w) (negb (react_raises o))
                         (post_attempt coder_system_prompt o t w))).
Proof.
  intros Ht. unfold run_step.
  unfold bind at 1. unfold lift at 1. rewrite Ht.
  rewrite (bind_returned _ _ _ _ _ (debug_write_total w)).
  rewrite (bind_returned _ _ _ _ _ (existing_before_spec t w)).
  fold (prompt_for t w).
  rewrite (bind_returned _ _ _ _ _ (primary_attempt_total' coder_system_prompt o (prompt_for t w)
                                      (snd (existing_before t w)))).
  fold (post_attempt coder_system_prompt o t w).
  rewrite (bind_returned _ _ _ _ _ (fallback_block_total _ _ _ _ _)). reflexivity.
Qed.

Lemma fallback_path_count o t up w :
  fallback_requests (snd (fallback_path o t up w)) = S (fallback_requests w).
Proof.
  unfold fallback_path. unfold bind at 1, log at 1.
  set (w1 := with_action w (FallbackInvoke fallback_sys up)).
  assert (H1 : fallback_requests w1 = S (fallback_requests w)).
  { subst w1. rewrite fallback_requests_action. simpl. lia. }
  rewrite <- H1.
  apply (respects_bind same_fallbacks same_fallbacks_trans).
  - apply respects_lift, same_fallbacks_refl.
  - intros c. apply respects_if.
    + apply (respects_bind same_fallbacks same_fallbacks_trans).
      * apply (respects_called_with_two same_fallbacks same_fallbacks_refl).
      * intros _. apply (respects_attempt same_fallbacks same_fallbacks_refl
                           same_fallbacks_trans).
        apply (respects_read_file same_fallbacks same_fallbacks_refl
                 same_fallbacks_trans same_fallbacks_fs).
    + apply respects_ret, same_fallbacks_refl.
Qed.

(** The fallback request is sent once when the primary attempt raised or the
    re-read is not confirmed, and not at all otherwise. *)
Lemma fallback_block_count o t up success w :
  fallback_requests (snd (fallback_block o t up success w))
  = (fallback_requests w
     + (if negb success || negb (confirmed (fst (read_file (filepath t) w)))
        then 1 else 0))%nat.
Proof.
  unfold fallback_block. rewrite attempt_returns. cbn [snd].
  rewrite (bind_returned _ _ _ _ _ (verify_spec t w)).
  assert (Hr : fallback_requests (snd (read_file (filepath t) w)) = fallback_requests w).
  { apply (respects_read_file same_fallbacks same_fallbacks_refl
             same_fallbacks_trans same_fallbacks_fs). }
  destruct (negb success || negb (confirmed (fst (read_file (filepath t) w)))).
  - rewrite fallback_path_count, Hr. lia.
  - unfold ret. simpl. rewrite Hr. lia.
Qed.

Lemma debug_write_fallbacks : respects same_fallbacks debug_write.
Proof.
  unfold debug_write.
  apply (respects_attempt same_fallbacks same_fallbacks_refl same_fallbacks_trans).
  apply (respects_bind same_fallbacks same_fallbacks_trans).
  - apply (respects_called_with_two same_fallbacks same_fallbacks_refl).
  - intros _. apply (respects_read_file same_fallbacks same_fallbacks_refl
                       same_fallbacks_trans same_fallbacks_fs).
Qed.

Lemma read_existing_fallbacks t : respects same_fallbacks (read_existing t).
Proof.
  unfold read_existing. apply (respects_catch same_fallbacks same_fallbacks_trans).
  - apply (respects_read_file same_fallbacks same_fallbacks_refl
             same_fallbacks_trans same_fallbacks_fs).
  - intros e. apply respects_ret, same_fallbacks_refl.
Qed.

Lemma primary_attempt_fallbacks o up : respects same_fallbacks (primary o up).
Proof.
  unfold primary_attempt. apply (respects_catch same_fallbacks same_fallbacks_trans).
  - apply (respects_bind same_fallbacks same_fallbacks_trans).
    + intros w. now apply same_fallbacks_action.
    + intros _. apply (respects_bind same_fallbacks same_fallbacks_trans).
      * apply (respects_run_calls same_fallbacks same_fallbacks_refl
                 same_fallbacks_trans same_fallbacks_fs same_fallbacks_files
                 same_fallbacks_event).
      * intros _. apply respects_if; [apply respects_raise, same_fallbacks_refl|].
        apply (respects_bind same_fallbacks same_fallbacks_trans).
        -- apply (respects_attempt same_fallbacks same_fallbacks_refl
                    same_fallbacks_trans).
           apply (respects_list_files same_fallbacks same_fallbacks_refl
                    same_fallbacks_trans same_fallbacks_fs).
        -- intros _. apply respects_ret, same_fallbacks_refl.
  - intros e. apply respects_ret, same_fallbacks_refl.
Qed.

Lemma post_attempt_fallbacks o t w :
  fallback_requests (post_attempt coder_system_prompt o t w) = fallback_requests w.
Proof.
  unfold post_attempt.
  rewrite (primary_attempt_fallbacks o (prompt_for t w) (snd (existing_before t w))).
  pose proof (existing_before_spec t w) as Hs.
  pose proof (read_existing_fallbacks t (snd (debug_write w))) as Hr.
  rewrite Hs in Hr. simpl in Hr. unfold same_fallbacks in Hr. rewrite Hr.
  apply debug_write_fallbacks.
Qed.

Lemma py_index_returned_lt {A} (l : list A) i a :
  py_index l i = Returned a -> i < Z.of_nat (length l).
Proof.
  unfold py_index. intros H.
  destruct (Z.ltb_spec i 0) as [Hn|Hn]; [lia|].
  destruct (Z.leb_spec 0 i); [|lia].
  destruct (Z.ltb_spec i (Z.of_nat (length l))); [assumption|].
  simpl in H. discriminate.
Qed.

(** C2, as the code has it.  In an invocation that attempts the step [t], the
    fallback request is sent exactly when the tool-using agent raised, or the
    re-read of the target file raised, or the content read back is empty
    once stripped of white space; it is sent at most once; and whether or not
    it is sent, and whatever it answers, the invocation returns with the
    cursor moved by one. *)
Theorem fallback_iff_unconfirmed (o : Oracle) (state : State) (w : World)
        (cs : CoderState) (t : ImplementationTask) :
  effective state = Some cs ->
  py_index (implementation_steps (task_plan cs)) (current_step_idx cs) = Returned t ->
  exists w',
    coder_agent coder_system_prompt o state w = (Returned (holding (advance cs)), w')
    /\ fallback_requests w'
       = (fallback_requests w
          + (if react_raises o || negb (confirmed (reread coder_system_prompt o t w))
             then 1 else 0))%nat.
Proof.
  intros He Ht.
  rewrite (coder_pending coder_system_prompt o state w cs He
             (py_index_returned_lt _ _ _ Ht)).
  rewrite (run_step_stages o cs t w Ht).
  eexists. split; [reflexivity|].
  rewrite fallback_block_count, post_attempt_fallbacks.
  rewrite negb_involutive. reflexivity.
Qed.

End Step.

(** ** Writing a file *)

Lemma in_prefixes_from (acc p q : Path.t) :
  In q (Fs.prefixes_from acc p)
  <-> exists k, k <> [] /\ k `prefix_of` p /\ q = acc ++ k.
Proof.
  revert acc. induction p as [|c p IH]; intros acc; simpl.
  - split; [tauto|]. intros (k & Hne & [x Hx] & _).
    symmetry in Hx. apply app_eq_nil in Hx as [-> _]. congruence.
  - rewrite IH. split.
    + intros [<-|(k & Hne & Hp & ->)].
      * exists [c]. split; [discriminate|]. split; [|reflexivity].
        exists p. reflexivity.
      * exists (c :: k). split; [discriminate|]. split.
        -- now apply prefix_cons.
        -- now rewrite <- app_assoc.
    + intros (k & Hne & Hp & ->). destruct k as [|d k]; [congruence|].
      destruct Hp as [x Hx]. injection Hx as <- ->.
      destruct k as [|e k]; [left; reflexivity|right].
      exists (e :: k). split; [discriminate|]. split.
      * exists x. reflexivity.
      * now rewrite <- app_assoc.
Qed.

Lemma in_prefixes (p q : Path.t) :
  In q (Fs.prefixes p) <-> q <> [] /\ q `prefix_of` p.
Proof.
  unfold Fs.prefixes. rewrite in_prefixes_from. simpl. split.
  - intros (k & Hne & Hp & ->). tauto.
  - intros [Hne Hp]. exists q. tauto.
Qed.

Lemma fold_insert_dir (l : list Path.t) : forall (f : gmap (list string) node) q,
  fold_left (fun f q => <[q := Dir]> f) l f !! q
  = if bool_decide (q ∈ l) then Some Dir else f !! q.
Proof.
  induction l as [|a l IH]; intros f q; cbn [fold_left].
  - rewrite bool_decide_eq_false_2 by apply not_elem_of_nil. reflexivity.
  - rewrite IH. destruct (decide (q ∈ l)) as [Hin|Hnin].
    + rewrite bool_decide_eq_true_2 by assumption.
      rewrite bool_decide_eq_true_2 by (apply elem_of_cons; tauto). reflexivity.
    + rewrite (bool_decide_eq_false_2 _ Hnin).
      destruct (decide (a = q)) as [->|Hne].
      * rewrite bool_decide_eq_true_2 by (apply elem_of_cons; tauto).
        apply lookup_insert_eq.
      * rewrite bool_decide_eq_false_2.
        -- now apply lookup_insert_ne.
        -- rewrite elem_of_cons. intros [->|?]; tauto.
Qed.

Lemma mkdirs_lookup (p q : Path.t) (f : gmap (list string) node) :
  Fs.mkdirs p f !! q
  = if bool_decide (q <> [] /\ q `prefix_of` p) then Some Dir else f !! q.
Proof.
  unfold Fs.mkdirs. rewrite fold_insert_dir.
  destruct (decide (q ∈ Fs.prefixes p)) as [Hin|Hnin].
  - rewrite bool_decide_eq_true_2 by assumption.
    rewrite bool_decide_eq_true_2; [reflexivity|].
    now apply in_prefixes, list_elem_of_In.
  - rewrite bool_decide_eq_false_2 by assumption.
    rewrite bool_decide_eq_false_2; [reflexivity|].
    intros H. apply Hnin, list_elem_of_In, in_prefixes, H.
Qed.

Lemma stat_with_action w a p : Fs.stat (with_action w a) p = Fs.stat w p.
Proof. destruct p; reflexivity. Qed.

Lemma not_prefix_of_parent (p : Path.t) : p <> [] -> ~ p `prefix_of` Path.parent p.
Proof.
  intros Hne Hp. destruct p as [|c p] using rev_ind; [congruence|].
  rewrite parent_snoc in Hp. apply prefix_length in Hp.
  rewrite length_app in Hp. simpl in Hp. lia.
Qed.

Lemma parents_are_prefixes (q p : Path.t) : In q (Path.parents p) -> q `prefix_of` p.
Proof. intros H. now apply in_parents in H. Qed.

(** [write_file] succeeds when the session is bound, the path stays inside
    the sandbox, no regular file stands where a directory is needed, and the
    target is not a directory. *)
Lemma write_file_ok (w : World) (sid path content : string) :
  bound w sid ->
  inside w sid path ->
  no_file_above w (Path.parent (resolved w sid path)) ->
  Fs.stat w (resolved w sid path) <> Some Dir ->
  write_file path content w
  = (Returned ("WROTE:" +:+ Path.to_str (resolved w sid path)),
     written w (resolved w sid path) path content).
Proof.
  intros Hb Hin Hnf Hnd. set (p := resolved w sid path) in *.
  assert (Hpne : p <> []) by (intros E; rewrite E in Hnd; now apply Hnd).
  unfold write_file.
  rewrite (bind_returned _ _ _ _ _ (require_session_bound _ _ Hb)).
  rewrite (bind_returned _ _ _ _ _ (safe_path_inside _ _ _ Hin)). fold p.
  (* mkdir *)
  assert (Hmk : Fs.mkdir_parents (Path.parent p) w
                = (Returned tt,
                   with_files (with_action w (FsMkdir (Path.parent p)))
                              (Fs.mkdirs (Path.parent p) (fsmap w)))).
  { unfold Fs.mkdir_parents, bind, log, get. simpl.
    replace (existsb _ (Path.parents (Path.parent p))) with false.
    2:{ symmetry. apply not_true_is_false. intros Hex.
        apply existsb_exists in Hex as (q & Hq & Hf).
        rewrite stat_with_action in Hf.
        rewrite (Hnf q (parents_are_prefixes _ _ Hq)) in Hf. discriminate. }
    rewrite stat_with_action. rewrite (Hnf (Path.parent p)) by reflexivity.
    reflexivity. }
  rewrite (bind_returned _ _ _ _ _ Hmk).
  (* open *)
  set (w1 := with_files (with_action w (FsMkdir (Path.parent p)))
                        (Fs.mkdirs (Path.parent p) (fsmap w))).
  assert (Hst_p : Fs.stat (with_action w1 (FsOpenWrite p content)) p = Fs.stat w p).
  { rewrite stat_with_action. destruct p as [|c p']; [congruence|].
    unfold Fs.stat. subst w1. cbn [fsmap with_files].
    rewrite mkdirs_lookup. rewrite bool_decide_eq_false_2; [reflexivity|].
    intros [_ Hp]. now apply (not_prefix_of_parent (c :: p')). }
  assert (Hst_par : Fs.stat (with_action w1 (FsOpenWrite p content)) (Path.parent p)
                    = Some Dir).
  { rewrite stat_with_action. destruct (Path.parent p) as [|c q] eqn:Hq; [reflexivity|].
    unfold Fs.stat. subst w1. cbn [fsmap with_files].
    rewrite mkdirs_lookup. rewrite bool_decide_eq_true_2; [reflexivity|].
    split; [discriminate|reflexivity]. }
  assert (Hop : Fs.open_write p content w1
                = (Returned tt,
                   with_files (with_action w1 (FsOpenWrite p content))
                              (<[p := File content]> (fsmap w1)))).
  { unfold Fs.open_write, bind, log, get. simpl.
    rewrite Hst_p, Hst_par. simpl.
    destruct (Fs.stat w p) as [[c|]|]; simpl; try reflexivity. congruence. }
  rewrite (bind_returned _ _ _ _ _ Hop).
  unfold bind, ret, written. fold p. subst w1. simpl.
  destruct (emit_event _ _ _) as [[[]|e] w2] eqn:He; [reflexivity|].
  unfold emit_event in He. simpl in He.
  destruct (_event_emitter w), (_session_id w) as [s|]; try discriminate.
  destruct (PyStr.truthy s); discriminate.
Qed.

(** ** What the stages of a step respect *)

Section StagesRespect.

Variable R : World -> World -> Prop.
Hypothesis R_refl : forall w, R w w.
Hypothesis R_trans : forall w1 w2 w3, R w1 w2 -> R w2 w3 -> R w1 w3.
Hypothesis R_action : forall w a, R w (with_action w a).

Lemma action_covers_fs : forall w a, is_fs a = true -> R w (with_action w a).
Proof. intros w a _. apply R_action. Qed.

Lemma respects_log a : respects R (log a).
Proof. intros w. apply R_action. Qed.

Lemma respects_read_existing t : respects R (read_existing t).
Proof.
  unfold read_existing. apply (respects_catch R R_trans).
  - apply (respects_read_file R R_refl R_trans action_covers_fs).
  - intros e. apply (respects_ret R R_refl).
Qed.

Lemma respects_verify t : respects R (verify t).
Proof.
  unfold verify. apply (respects_catch R R_trans).
  - apply (respects_bind R R_trans).
    + apply (respects_read_file R R_refl R_trans action_covers_fs).
    + intros c. apply (respects_ret R R_refl).
  - intros e. apply (respects_ret R R_refl).
Qed.

End StagesRespect.

Lemma emit_event_frame ty data w :
  trace (snd (emit_event ty data w)) = trace w
  /\ fsmap (snd (emit_event ty data w)) = fsmap w.
Proof.
  unfold emit_event.
  destruct (_event_emitter w), (_session_id w) as [sid|]; simpl; try tauto.
  destruct (PyStr.truthy sid); simpl; tauto.
Qed.

(** ** The trial write *)

(** C9. The trial write of lines 139-147 does not take place.  Line 141
    hands the tool object two positional arguments, the call raises before
    the body of [write_file] is reached, and the handler of line 145 takes
    over: the trial leaves every world as it found it.  In a bound session
    whose workspace can be created, where the body itself would have written
    the file, an invocation that attempts the first of two steps with an idle
    model returns with the cursor at 1, no [test.txt], no file at all and no
    event. *)
Theorem debug_file_not_written :
  (forall w, debug_write w = (Returned tt, w))
  /\ fst (write_file "test.txt" "Hello World Test" w_fresh)
     = Returned "WROTE:/srv/app/generated_project/s1/test.txt"
  /\ exists w',
      coder_agent "" idle (starting None None two_steps) w_fresh
      = (Returned (holding (mkCoderState two_steps 1 None)), w')
      /\ fsmap w' !! (example_root ++ ["test.txt"]) = None
      /\ fsmap w' = ∅
      /\ events w' = [].
Proof.
  split; [exact debug_write_returns|].
  split; [vm_compute; reflexivity|].
  eexists. split; [vm_compute; reflexivity|].
  split; [|split]; vm_compute; reflexivity.
Qed.

(** ** Planning and architecture *)

Section Pipeline.

Variable planner_prompt : string -> string.
Variable architect_prompt : Plan -> string.
Variable coder_system_prompt : string.

(** C6, as the code has it.  When the structured generation of the planner
    fails, the planner returns the default plan, whose list of files is
    empty.  The architect then sends its own request for that plan; when that
    request fails too, or answers with no step, the task plan has no step,
    and the first invocation of the coder returns the terminal state without
    touching the world. *)
Theorem parse_failure_recovers (e : exn) (state : State) (up : string)
        (answer : res TaskPlan) (o : Oracle) (w : World) :
  st_user_prompt state = Some up ->
  (forall tp, answer = Returned tp -> implementation_steps tp = []) ->
  let w1 := with_action w (StructuredInvoke "Plan" (planner_prompt (PyStr.strip up))) in
  let w2 := with_action w1 (StructuredInvoke "TaskPlan" (architect_prompt default_plan)) in
  let planned := mkState None (Some default_plan) None None in
  let designed := starting None None (mkTaskPlan [] (Some default_plan)) in
  let final := holding (mkCoderState (mkTaskPlan [] (Some default_plan)) 0 None) in
  planner_agent planner_prompt (Raised e) state w = (Returned planned, w1)
  /\ files default_plan = []
  /\ architect_agent architect_prompt answer planned w1 = (Returned designed, w2)
  /\ coder_agent coder_system_prompt o designed w2 = (Returned final, w2)
  /\ should_continue final = "END".
Proof.
  intros Hup Hans. repeat split.
  - unfold planner_agent. rewrite Hup. reflexivity.
  - unfold architect_agent. simpl. unfold catch, bind, log, lift. simpl.
    destruct answer as [tp|e']; [|reflexivity].
    now rewrite (Hans tp eq_refl).
Qed.

End Pipeline.

(** ** The statements at concrete inputs *)

Lemma cursor_advances_by_one_witness :
  (exists w', coder_agent "sys" idle midway w_fresh
              = (Returned (holding (mkCoderState two_steps 2 None)), w'))
  /\ (exists st' w',
        invoke_coder "sys" 3 (fun _ => idle) midway w_fresh = (Returned st', w')
        /\ effective st' = Some (mkCoderState two_steps 2 None)).
Proof.
  destruct (cursor_advances_by_one "sys" idle (fun _ => idle) 3 midway w_fresh
              (mkCoderState two_steps 1 None) eq_refl ltac:(vm_compute; discriminate))
    as (A & B & _).
  split; [apply A; reflexivity|apply B; vm_compute; discriminate].
Defined.

Lemma fallback_iff_unconfirmed_witness :
  exists w',
    coder_agent "sys" blank_writer (starting None None two_steps) w_fresh
    = (Returned (holding (mkCoderState two_steps 1 None)), w')
    /\ fallback_requests w'
       = (fallback_requests w_fresh
          + (if react_raises blank_writer
                || negb (confirmed (reread "sys" blank_writer first_task w_fresh))
             then 1 else 0))%nat.
Proof.
  apply (fallback_iff_unconfirmed "sys" blank_writer (starting None None two_steps)
           w_fresh (mkCoderState two_steps 0 None) first_task); reflexivity.
Defined.

(** C2 as stated fails: the agent does not raise and leaves one blank in the
    target file, so the content read back is not empty; the fallback request
    is sent all the same. *)
Lemma fallback_on_blank_file :
  react_raises blank_writer = false
  /\ reread "sys" blank_writer first_task w_fresh = Returned " "
  /\ spec_confirmed (reread "sys" blank_writer first_task w_fresh) = true
  /\ fallback_requests
       (snd (coder_agent "sys" blank_writer (starting None None two_steps) w_fresh))
     = S (fallback_requests w_fresh).
Proof. repeat split; vm_compute; reflexivity. Qed.

Lemma completed_plan_is_noop_witness :
  coder_agent "sys" idle finished w_notes = (Returned finished, w_notes).
Proof.
  apply (completed_plan_is_noop "sys" idle finished w_notes
           (mkCoderState two_steps 2 None) eq_refl).
  vm_compute. discriminate.
Defined.

Lemma parse_failure_recovers_witness :
  planner_agent (fun s => s) (Raised ValidationError)
                (mkState (Some " a todo app ") None None None) w_fresh
  = (Returned (mkState None (Some default_plan) None None),
     with_action w_fresh (StructuredInvoke "Plan" "a todo app")).
Proof.
  apply (parse_failure_recovers (fun s => s) name "sys" ValidationError
           (mkState (Some " a todo app ") None None None) " a todo app "
           (Raised ValidationError) idle w_fresh eq_refl).
  intros tp H. discriminate H.
Defined.

(** C6 as stated fails: the planner falls back to the default plan, the
    architect's own request answers with two steps, and the first invocation
    of the coder does not reach the terminal state. *)
Lemma parse_failure_architect_still_plans :
  let planned := mkState None (Some default_plan) None None in
  let designed := starting None None (mkTaskPlan (implementation_steps two_steps)
                                                 (Some default_plan)) in
  fst (planner_agent (fun s => s) (Raised ValidationError)
                     (mkState (Some "a todo app") None None None) w_fresh)
  = Returned planned
  /\ fst (architect_agent name (Returned two_steps) planned w_fresh) = Returned designed
  /\ option_map implementation_steps (st_task_plan designed) <> Some []
  /\ (forall st', fst (coder_agent "sys" idle designed w_fresh) = Returned st' ->
                  should_continue st' <> "END")
  /\ exists st', fst (coder_agent "sys" idle designed w_fresh) = Returned st'.
Proof.
  repeat split.
  - discriminate.
  - intros st' H. vm_compute in H. injection H as <-. vm_compute. discriminate.
  - eexists. vm_compute. reflexivity.
Qed.

Lemma missing_task_plan_gives_sentinel_witness :
  coder_agent "sys" idle (mkState (Some "a todo app") None None None) w_fresh
  = (Returned sentinel, w_fresh).
Proof.
  apply (missing_task_plan_gives_sentinel "sys" idle
           (mkState (Some "a todo app") None None None) w_fresh eq_refl).
  intros d H. discriminate H.
Defined.

(** ** The model at work *)

Example resolve_climbs :
  Path.resolve (Path.joinpath example_root "src/../../../etc/passwd")
  = ["srv"; "app"; "etc"; "passwd"].
Proof. reflexivity. Qed.

Example clean_fallback_fenced :
  clean_fallback ("  ```python" +:+ newline +:+ "print(1)" +:+ newline +:+ "```" +:+ newline)
  = "print(1)".
Proof. reflexivity. Qed.

Example write_then_read :
  fst ((run! write_file "a/b/c.txt" "X" in read_file "a/b/c.txt") w_fresh)
  = Returned "X".
Proof. vm_compute. reflexivity. Qed.

Example read_translates_line_endings :
  Fs.universal_newlines crlf_text = "one" +:+ newline +:+ "two"
  /\ fst ((run! write_file "a.txt" crlf_text in read_file "a.txt") w_fresh)
     = Returned ("one" +:+ newline +:+ "two").
Proof. split; vm_compute; reflexivity. Qed.

(** A no-break space and a next-line character are white space: content made
    of them does not confirm the target. *)
Example unicode_blank_not_confirmed :
  confirmed (Returned (String (ascii_of_nat 160) (String (ascii_of_nat 133) ""))) = false.
Proof. reflexivity. Qed.

(** A step whose target is [test.txt]: the trial write has left nothing
    there, and the fallback request is sent. *)
Example trial_target_prompts_fallback :
  fallback_requests
    (snd (coder_agent "sys" idle
            (starting None None (mkTaskPlan [mkTask "test.txt" "write a greeting"] None))
            w_fresh))
  = 1%nat.
Proof. vm_compute. reflexivity. Qed.

Example negative_cursor_wraps :
  py_index (implementation_steps two_steps) (-1)
  = Returned (mkTask "README.md" "write project description").
Proof. reflexivity. Qed.

Example two_steps_three_invocations :
  fst (invoke_coder "sys" 3 (fun _ => mkOracle [] true (Returned (Some "print(1)")))
         (starting None None two_steps) w_fresh)
  = Returned finished.
Proof. vm_compute. reflexivity. Qed.

(** * Further properties of the sandbox *)

Lemma require_session_unbound w :
  unbound w -> require_session w = (Raised (ValueError unbound_msg), w).
Proof.
  intros Hu. unfold require_session, bind, get. simpl.
  destruct (_session_id w) as [sid|] eqn:Hs; [|reflexivity].
  now rewrite (Hu sid Hs).
Qed.

(** X1. With no session bound (the identifier unset, or set to the empty
    string) each of the four tools raises the unbound-session error and
    leaves the world as it found it. *)
Theorem unbound_session_rejected (w : World) (path content directory : string) :
  unbound w ->
  write_file path content w = (Raised (ValueError unbound_msg), w)
  /\ read_file path w = (Raised (ValueError unbound_msg), w)
  /\ list_files directory w = (Raised (ValueError unbound_msg), w)
  /\ get_current_directory w = (Raised (ValueError unbound_msg), w).
Proof.
  intros Hu. pose proof (require_session_unbound w Hu) as Hr.
  unfold write_file, read_file, list_files, get_current_directory.
  now rewrite !(bind_raised _ _ _ _ _ Hr).
Qed.

Lemma unbound_session_rejected_witness :
  write_file "a.txt" "x" w_blank_session = (Raised (ValueError unbound_msg), w_blank_session)
  /\ read_file "a.txt" w_blank_session = (Raised (ValueError unbound_msg), w_blank_session)
  /\ list_files "." w_blank_session = (Raised (ValueError unbound_msg), w_blank_session)
  /\ get_current_directory w_blank_session
     = (Raised (ValueError unbound_msg), w_blank_session).
Proof.
  apply (unbound_session_rejected w_blank_session "a.txt" "x" ".").
  intros sid H. injection H as <-. reflexivity.
Defined.

(** X2. [safe_path_for_project] returns the resolved path exactly when that
    path is the resolved project root or lies below it, and raises the
    path-escape error otherwise; either way the world is untouched.  The
    middle test of line 30 ([root != p.parent]) changes nothing. *)
Theorem safe_path_accepts_exactly (w : World) (sid path : string) :
  safe_path_for_project path sid w
  = (if bool_decide (inside w sid path)
     then Returned (resolved w sid path)
     else Raised (ValueError outside_msg), w)
  /\ (negb (Path.mem (Path.resolve (project_root w sid))
                     (Path.parents (resolved w sid path)))
      && negb (Path.eqb (Path.resolve (project_root w sid)) (resolved w sid path))
      = negb (bool_decide (inside w sid path))).
Proof.
  split.
  - destruct (decide (inside w sid path)) as [Hin|Hout].
    + rewrite (bool_decide_eq_true_2 _ Hin). now apply safe_path_inside.
    + rewrite (bool_decide_eq_false_2 _ Hout). now apply safe_path_outside.
  - pose proof (escape_test (Path.resolve (project_root w sid)) (resolved w sid path))
      as E.
    destruct (decide (inside w sid path)) as [Hin|Hout].
    + rewrite (bool_decide_eq_true_2 _ Hin).
      rewrite (bool_decide_eq_true_2 _ (Hin : _ `prefix_of` _)) in E. simpl in *.
      destruct (Path.mem _ _) eqn:Hm; [reflexivity|]. simpl in *.
      destruct (Path.eqb (Path.resolve (project_root w sid)) (resolved w sid path))
        eqn:He; [reflexivity|exfalso].
      apply not_true_iff_false in Hm. apply Hm, mem_parents.
      split; [exact Hin|]. intros Heq. unfold Path.eqb in He.
      now rewrite (bool_decide_eq_true_2 _ Heq) in He.
    + rewrite (bool_decide_eq_false_2 _ Hout).
      rewrite (bool_decide_eq_false_2 _ (Hout : ~ _ `prefix_of` _)) in E. simpl in *.
      apply andb_true_iff in E as [E1 E3]. apply andb_true_iff in E1 as [E1 _].
      now rewrite E1, E3.
Qed.

Lemma resolve_aux_plain (q : Path.t) : forall acc,
  Forall (fun c => c <> "..") q -> Path.resolve_aux acc q = rev acc ++ q.
Proof.
  induction q as [|c q IH]; intros acc Hq; simpl.
  - now rewrite app_nil_r.
  - inversion Hq as [|? ? Hc Hq']; subst.
    replace (String.eqb c "..") with false
      by (symmetry; now apply String.eqb_neq).
    rewrite IH by assumption. simpl. now rewrite <- app_assoc.
Qed.

Lemma resolve_aux_app_plain (p q : Path.t) : forall acc,
  Forall (fun c => c <> "..") q ->
  Path.resolve_aux acc (p ++ q) = Path.resolve_aux acc p ++ q.
Proof.
  induction p as [|d p IH]; intros acc Hq; simpl.
  - now apply resolve_aux_plain.
  - destruct (String.eqb d ".."); now apply IH.
Qed.

(** X3. A relative path with no [..] component never escapes: it resolves
    to the resolved project root followed by its own components. *)
Theorem plain_relative_path_inside (w : World) (sid path : string) :
  Path.is_absolute path = false ->
  Forall (fun c => c <> "..") (Path.parts path) ->
  resolved w sid path = Path.resolve (project_root w sid) ++ Path.parts path
  /\ inside w sid path.
Proof.
  intros Hrel Hplain.
  assert (H : resolved w sid path = Path.resolve (project_root w sid) ++ Path.parts path).
  { unfold resolved, Path.joinpath at 1. rewrite Hrel.
    now apply resolve_aux_app_plain. }
  split; [exact H|]. unfold inside. rewrite H. now exists (Path.parts path).
Qed.

Lemma plain_relative_path_inside_witness :
  resolved w_fresh "s1" "src/./app.py" = example_root ++ ["src"; "app.py"]
  /\ inside w_fresh "s1" "src/./app.py".
Proof.
  apply (plain_relative_path_inside w_fresh "s1" "src/./app.py").
  - reflexivity.
  - repeat constructor; discriminate.
Defined.

Lemma same_binding_refl w : same_binding w w.
Proof. repeat split. Qed.

Lemma same_binding_trans w1 w2 w3 :
  same_binding w1 w2 -> same_binding w2 w3 -> same_binding w1 w3.
Proof. unfold same_binding. intros (?&?&?) (?&?&?). repeat split; congruence. Qed.

Lemma same_but_trace_refl w : same_but_trace w w.
Proof. repeat split. Qed.

Lemma same_but_trace_trans w1 w2 w3 :
  same_but_trace w1 w2 -> same_but_trace w2 w3 -> same_but_trace w1 w3.
Proof.
  unfold same_but_trace. intros (B1&?&?) (B2&?&?).
  split; [exact (same_binding_trans _ _ _ B1 B2)|split; congruence].
Qed.

Lemma same_but_trace_action w a : same_but_trace w (with_action w a).
Proof. repeat split. Qed.

Lemma bound_same_binding w w' sid : same_binding w w' -> bound w sid -> bound w' sid.
Proof. intros (_&Hs&_) [Hb Hne]. split; [congruence|assumption]. Qed.

Lemma resolved_same_binding w w' sid path :
  same_binding w w' -> resolved w' sid path = resolved w sid path.
Proof. intros (Hc&_&_). unfold resolved, project_root. now rewrite Hc. Qed.

Lemma project_root_same_binding w w' sid :
  same_binding w w' -> project_root w' sid = project_root w sid.
Proof. intros (Hc&_&_). unfold project_root. now rewrite Hc. Qed.

Lemma inside_same_binding w w' sid path :
  same_binding w w' -> inside w sid path -> inside w' sid path.
Proof.
  intros Hb. unfold inside.
  now rewrite (resolved_same_binding _ _ _ _ Hb), (project_root_same_binding _ _ _ Hb).
Qed.

Lemma stat_same_files w w' p : fsmap w' = fsmap w -> Fs.stat w' p = Fs.stat w p.
Proof. intros H. destruct p; [reflexivity|]. unfold Fs.stat. now rewrite H. Qed.

Lemma read_file_inside (w : World) (sid path : string) :
  bound w sid ->
  inside w sid path ->
  fst (read_file path w)
  = match Fs.stat w (resolved w sid path) with
    | Some (File c) => Returned (Fs.universal_newlines c)
    | Some Dir => Raised IsADirectoryError
    | None => Returned ""
    end.
Proof.
  intros Hb Hin. unfold read_file.
  rewrite (bind_returned _ _ _ _ _ (require_session_bound _ _ Hb)).
  rewrite (bind_returned _ _ _ _ _ (safe_path_inside _ _ _ Hin)).
  set (p := resolved w sid path).
  unfold bind, Fs.exists_, Fs.open_read, bind, log, get, ret, raise. simpl.
  rewrite !stat_with_action.
  destruct (Fs.stat w p) as [[c|]|] eqn:Hst.
  - rewrite bool_decide_eq_true_2 by eauto. simpl.
    rewrite !stat_with_action, Hst. reflexivity.
  - rewrite bool_decide_eq_true_2 by eauto. simpl.
    rewrite !stat_with_action, Hst. reflexivity.
  - rewrite bool_decide_eq_false_2 by (intros [x Hx]; discriminate). reflexivity.
Qed.

(** X4. Inside the sandbox [read_file] returns the content of a regular
    file with its line endings read as line feeds, the empty string where
    nothing exists, and raises [IsADirectoryError] on a directory; it
    changes nothing but the trace. *)
Theorem read_file_result (w : World) (sid path : string) :
  bound w sid ->
  inside w sid path ->
  fst (read_file path w)
  = match Fs.stat w (resolved w sid path) with
    | Some (File c) => Returned (Fs.universal_newlines c)
    | Some Dir => Raised IsADirectoryError
    | None => Returned ""
    end
  /\ same_but_trace w (snd (read_file path w)).
Proof.
  intros Hb Hin. split.
  - now apply read_file_inside.
  - apply (respects_read_file same_but_trace same_but_trace_refl same_but_trace_trans
             (fun w a _ => same_but_trace_action w a)).
Qed.

Lemma read_file_result_witness :
  fst (read_file "notes.txt" w_notes) = Returned "remember"
  /\ same_but_trace w_notes (snd (read_file "notes.txt" w_notes)).
Proof.
  apply (read_file_result w_notes "s1" "notes.txt").
  - split; [reflexivity|discriminate].
  - apply (bool_decide_eq_true_1 _). vm_compute. reflexivity.
Defined.

(** X5. [read_file], [list_files] and [get_current_directory] are read-only
    whatever they are given and whether they return or raise: files, events,
    session binding and working directory are what they were. *)
Theorem reading_changes_nothing (w : World) (path directory : string) :
  same_but_trace w (snd (read_file path w))
  /\ same_but_trace w (snd (list_files directory w))
  /\ same_but_trace w (snd (get_current_directory w)).
Proof.
  split; [|split].
  - apply (respects_read_file same_but_trace same_but_trace_refl same_but_trace_trans
             (fun w a _ => same_but_trace_action w a)).
  - apply (respects_list_files same_but_trace same_but_trace_refl same_but_trace_trans
             (fun w a _ => same_but_trace_action w a)).
  - apply (respects_get_current_directory same_but_trace same_but_trace_refl
             same_but_trace_trans).
Qed.

(** ** Further properties of [write_file] *)

Lemma emit_event_binding ty data w : same_binding w (snd (emit_event ty data w)).
Proof.
  unfold emit_event.
  destruct (_event_emitter w), (_session_id w) as [sid|]; simpl;
    try apply same_binding_refl.
  destruct (PyStr.truthy sid); simpl; repeat split.
Qed.

Lemma emit_file_event_events w sid path content :
  bound w sid ->
  events (snd (emit_event "file"
                 [("path", VStr path); ("action", VStr "write");
                  ("size", VInt (PyStr.len content))] w))
  = events w ++ (if _event_emitter w then [file_event sid path content] else []).
Proof.
  intros [Hs Hne]. unfold emit_event. rewrite Hs, (truthy_nonempty _ Hne).
  destruct (_event_emitter w); simpl; [reflexivity|now rewrite app_nil_r].
Qed.

Lemma written_binding w p path content : same_binding w (written w p path content).
Proof.
  unfold written.
  eapply same_binding_trans; [|apply emit_event_binding]. repeat split.
Qed.

Lemma written_files w p path content :
  fsmap (written w p path content)
  = <[p := File content]> (Fs.mkdirs (Path.parent p) (fsmap w)).
Proof. unfold written. now rewrite (proj2 (emit_event_frame _ _ _)). Qed.

Lemma written_events w sid p path content :
  bound w sid ->
  events (written w p path content)
  = events w ++ (if _event_emitter w then [file_event sid path content] else []).
Proof.
  intros Hb. unfold written. set (w2 := with_files _ _).
  rewrite (emit_file_event_events w2 sid path content); [reflexivity|].
  destruct Hb as [Hs Hne]. split; assumption.
Qed.

(** A test of [no_file_above] that computes. *)
Lemma no_file_above_check (w : World) (p : Path.t) :
  forallb (fun q => negb (Fs.is_file_node (Fs.stat w q))) ([] :: Fs.prefixes p) = true ->
  no_file_above w p.
Proof.
  intros H q Hq. rewrite forallb_forall in H.
  apply negb_true_iff, H.
  destruct q as [|c q]; [left; reflexivity|right].
  apply in_prefixes. split; [discriminate|assumption].
Qed.

(** Reading in text mode leaves no carriage return, and changes a text
    exactly when it holds one. *)
Lemma universal_newlines_pair (s : string) :
  no_cr (Fs.universal_newlines s) = true
  /\ forall c, no_cr (Fs.universal_newlines (String c s)) = true.
Proof.
  induction s as [|d s [IH1 IH2]].
  - split; [reflexivity|]. intros c. simpl.
    destruct (Ascii.eqb c _) eqn:Hc; [reflexivity|].
    unfold no_cr. simpl. now rewrite Hc.
  - assert (H : forall c, no_cr (Fs.universal_newlines (String c (String d s))) = true).
    { intros c. cbn [Fs.universal_newlines].
      destruct (Ascii.eqb c _) eqn:Hc.
      - destruct (Ascii.eqb d _) eqn:Hd.
        + exact IH1.
        + change (no_cr (Fs.universal_newlines (String d s)) = true). apply IH2.
      - unfold no_cr. cbn [str_all]. rewrite Hc. cbn [negb andb]. apply IH2. }
    split; [apply IH2|exact H].
Qed.

Lemma universal_newlines_no_cr (s : string) : no_cr (Fs.universal_newlines s) = true.
Proof. apply universal_newlines_pair. Qed.

Lemma universal_newlines_id (s : string) :
  Fs.universal_newlines s = s <-> no_cr s = true.
Proof.
  split.
  - intros H. rewrite <- H. apply universal_newlines_no_cr.
  - induction s as [|c s IH]; [reflexivity|].
    unfold no_cr. cbn [str_all]. intros H. apply andb_true_iff in H as [Hc Hs].
    apply negb_true_iff in Hc. cbn [Fs.universal_newlines]. rewrite Hc.
    f_equal. now apply IH.
Qed.

Lemma read_back_written (w : World) (sid path content : string) :
  bound w sid ->
  inside w sid path ->
  no_file_above w (Path.parent (resolved w sid path)) ->
  Fs.stat w (resolved w sid path) <> Some Dir ->
  fst ((run! write_file path content in read_file path) w)
  = Returned (Fs.universal_newlines content).
Proof.
  intros Hb Hin Hnf Hnd.
  rewrite (bind_returned _ _ _ _ _ (write_file_ok w sid path content Hb Hin Hnf Hnd)).
  set (w1 := written w (resolved w sid path) path content).
  assert (HB : same_binding w w1) by apply written_binding.
  rewrite (read_file_inside w1 sid path (bound_same_binding _ _ _ HB Hb)
             (inside_same_binding _ _ _ _ HB Hin)).
  rewrite (resolved_same_binding _ _ _ _ HB).
  assert (Hp : resolved w sid path <> []).
  { intros E. rewrite E in Hnd. now apply Hnd. }
  destruct (resolved w sid path) as [|c p] eqn:E; [congruence|].
  unfold Fs.stat. subst w1. rewrite written_files, lookup_insert_eq. reflexivity.
Qed.

(** X6. A file written through [write_file] and read back by [read_file]
    under the same path comes back with its line endings translated: a
    carriage return followed by a line feed, and a carriage return alone,
    have become one line feed.  What comes back holds no carriage return,
    and it is the content written exactly when that held none. *)
Theorem write_then_read_back (w : World) (sid path content : string) :
  bound w sid ->
  inside w sid path ->
  no_file_above w (Path.parent (resolved w sid path)) ->
  Fs.stat w (resolved w sid path) <> Some Dir ->
  exists back,
    fst ((run! write_file path content in read_file path) w) = Returned back
    /\ back = Fs.universal_newlines content
    /\ no_cr back = true
    /\ (back = content <-> no_cr content = true).
Proof.
  intros Hb Hin Hnf Hnd. exists (Fs.universal_newlines content).
  split; [now apply (read_back_written w sid)|].
  split; [reflexivity|].
  split; [apply universal_newlines_no_cr|apply universal_newlines_id].
Qed.

Lemma write_then_read_back_witness :
  exists back,
    fst ((run! write_file "a/b/c.txt" crlf_text in read_file "a/b/c.txt") w_notes)
    = Returned back
    /\ back = Fs.universal_newlines crlf_text
    /\ no_cr back = true
    /\ (back = crlf_text <-> no_cr crlf_text = true).
Proof.
  apply (write_then_read_back w_notes "s1" "a/b/c.txt" crlf_text).
  - split; [reflexivity|discriminate].
  - apply (bool_decide_eq_true_1 _). vm_compute. reflexivity.
  - apply no_file_above_check. vm_compute. reflexivity.
  - vm_compute. discriminate.
Defined.

(** X7. What a successful [write_file] does to the file system: the target
    holds the new content, the directories above it exist, and every other
    path is what it was. *)
Theorem write_file_frame (w : World) (sid path content : string) (q : Path.t) :
  bound w sid ->
  inside w sid path ->
  no_file_above w (Path.parent (resolved w sid path)) ->
  Fs.stat w (resolved w sid path) <> Some Dir ->
  fsmap (snd (write_file path content w)) !! q
  = if bool_decide (q = resolved w sid path) then Some (File content)
    else if bool_decide (q <> [] /\ q `prefix_of` Path.parent (resolved w sid path))
         then Some Dir
         else fsmap w !! q.
Proof.
  intros Hb Hin Hnf Hnd.
  rewrite (write_file_ok w sid path content Hb Hin Hnf Hnd). cbn [snd].
  rewrite written_files.
  destruct (decide (q = resolved w sid path)) as [->|Hne].
  - rewrite bool_decide_eq_true_2 by reflexivity. apply lookup_insert_eq.
  - rewrite (bool_decide_eq_false_2 _ Hne).
    rewrite lookup_insert_ne by congruence. apply mkdirs_lookup.
Qed.

Lemma write_file_frame_witness :
  fsmap (snd (write_file "src/app.py" "print(1)" w_notes))
  !! (example_root ++ ["notes.txt"])
  = Some (File "remember").
Proof.
  etransitivity.
  - apply (write_file_frame w_notes "s1" "src/app.py" "print(1)"
             (example_root ++ ["notes.txt"])).
    + split; [reflexivity|discriminate].
    + apply (bool_decide_eq_true_1 _). vm_compute. reflexivity.
    + apply no_file_above_check. vm_compute. reflexivity.
    + vm_compute. discriminate.
  - vm_compute. reflexivity.
Defined.

Lemma mkdir_parents_cases (q : Path.t) (w : World) :
  (exists e, Fs.mkdir_parents q w = (Raised e, with_action w (FsMkdir q)))
  \/ Fs.mkdir_parents q w
     = (Returned tt, with_files (with_action w (FsMkdir q)) (Fs.mkdirs q (fsmap w))).
Proof.
  unfold Fs.mkdir_parents, bind, log, get, raise. simpl.
  destruct (existsb _ _); [left; eauto|].
  destruct (Fs.is_file_node _); [left; eauto|right; reflexivity].
Qed.

Lemma open_write_cases (p : Path.t) (c : string) (w : World) :
  (exists e, Fs.open_write p c w = (Raised e, with_action w (FsOpenWrite p c)))
  \/ Fs.open_write p c w
     = (Returned tt, with_files (with_action w (FsOpenWrite p c))
                                (<[p := File c]> (fsmap w))).
Proof.
  unfold Fs.open_write, bind, log, get, raise. simpl.
  destruct (Fs.is_dir_node _); [left; eauto|].
  destruct (Fs.is_file_node _); [left; eauto|].
  destruct (negb _); [left; eauto|right; reflexivity].
Qed.

Lemma emit_event_returns ty data w :
  emit_event ty data w = (Returned tt, snd (emit_event ty data w)).
Proof.
  unfold emit_event.
  destruct (_event_emitter w), (_session_id w) as [sid|]; try reflexivity.
  destruct (PyStr.truthy sid); reflexivity.
Qed.

(** X8. The two outcomes of [write_file], for every path, content and
    world.  When it returns, the session is bound, the path resolved inside
    the sandbox, the target holds the content, and the emitter (when one is
    set) received exactly one event, naming that path and the length of the
    content.  When it raises, no event was emitted and no regular file was
    created or changed. *)
Theorem write_file_outcome (w : World) (path content : string) :
  match write_file path content w with
  | (Returned msg, w') =>
      exists sid,
        bound w sid /\ inside w sid path
        /\ msg = "WROTE:" +:+ Path.to_str (resolved w sid path)
        /\ fsmap w' !! resolved w sid path = Some (File content)
        /\ events w'
           = events w ++ (if _event_emitter w then [file_event sid path content] else [])
  | (Raised e, w') =>
      events w' = events w
      /\ forall q c, fsmap w' !! q = Some (File c) -> fsmap w !! q = Some (File c)
  end.
Proof.
  unfold write_file.
  destruct (_session_id w) as [sid|] eqn:Hs.
  2:{ rewrite (bind_raised _ _ _ _ _ (require_session_unbound w
                 ltac:(intros s H; congruence))). auto. }
  destruct (decide (sid = "")) as [->|Hne].
  { rewrite (bind_raised _ _ _ _ _ (require_session_unbound w
               ltac:(intros s H; congruence))). auto. }
  assert (Hb : bound w sid) by (split; assumption).
  rewrite (bind_returned _ _ _ _ _ (require_session_bound _ _ Hb)).
  destruct (decide (inside w sid path)) as [Hin|Hout].
  2:{ rewrite (bind_raised _ _ _ _ _ (safe_path_outside _ _ _ Hout)). auto. }
  rewrite (bind_returned _ _ _ _ _ (safe_path_inside _ _ _ Hin)).
  set (p := resolved w sid path).
  destruct (mkdir_parents_cases (Path.parent p) w) as [[e He]|Hmk].
  { rewrite (bind_raised _ _ _ _ _ He). simpl. auto. }
  rewrite (bind_returned _ _ _ _ _ Hmk).
  set (w1 := with_files _ _).
  destruct (open_write_cases p content w1) as [[e He]|Hop].
  { rewrite (bind_raised _ _ _ _ _ He). subst w1. simpl. split; [reflexivity|].
    intros q c Hq. rewrite mkdirs_lookup in Hq.
    destruct (bool_decide _); [discriminate|assumption]. }
  rewrite (bind_returned _ _ _ _ _ Hop).
  rewrite (bind_returned _ _ _ _ _ (emit_event_returns _ _ _)).
  unfold ret. exists sid. repeat split; try assumption.
  - rewrite (proj2 (emit_event_frame _ _ _)). simpl. apply lookup_insert_eq.
  - rewrite (emit_file_event_events _ sid path content); [reflexivity|].
    split; assumption.
Qed.

(** ** Listing and initialising a workspace *)

Lemma filter_none {A} (f : A -> bool) (l : list A) :
  (forall x, In x l -> f x = false) -> List.filter f l = [].
Proof.
  induction l as [|a l IH]; intros H; simpl; [reflexivity|].
  rewrite (H a (or_introl eq_refl)). apply IH. intros x Hx. apply H. now right.
Qed.

Lemma list_files_empty_dir (w : World) (sid directory : string) :
  bound w sid ->
  inside w sid directory ->
  Fs.stat w (resolved w sid directory) = Some Dir ->
  (forall f c, resolved w sid directory `prefix_of` f -> fsmap w !! f <> Some (File c)) ->
  fst (list_files directory w) = Returned "No files found.".
Proof.
  intros Hb Hin Hd Hnone. unfold list_files.
  rewrite (bind_returned _ _ _ _ _ (require_session_bound _ _ Hb)).
  rewrite (bind_returned _ _ _ _ _ (safe_path_inside _ _ _ Hin)).
  set (p := resolved w sid directory) in *.
  unfold bind at 1. unfold Fs.is_dir, bind, log, get, ret. simpl.
  rewrite stat_with_action, Hd. simpl.
  rewrite filter_none; [reflexivity|].
  intros f _. destruct (fsmap w !! f) as [[c|]|] eqn:Hf;
    rewrite ?andb_false_r; try reflexivity.
  destruct (decide (p `prefix_of` f)) as [Hp|Hp].
  - exfalso. exact (Hnone f c Hp Hf).
  - now rewrite (bool_decide_eq_false_2 _ Hp).
Qed.

(** X9. Listing a directory of the sandbox below which there is no regular
    file returns the text ["No files found."], not an empty listing. *)
Theorem list_files_nothing_found (w : World) (sid directory : string) :
  bound w sid ->
  inside w sid directory ->
  Fs.stat w (resolved w sid directory) = Some Dir ->
  (forall f c, resolved w sid directory `prefix_of` f -> fsmap w !! f <> Some (File c)) ->
  fst (list_files directory w) = Returned "No files found."
  /\ same_but_trace w (snd (list_files directory w)).
Proof.
  intros Hb Hin Hd Hnone. split; [now apply (list_files_empty_dir w sid)|].
  apply (respects_list_files same_but_trace same_but_trace_refl same_but_trace_trans
           (fun w a _ => same_but_trace_action w a)).
Qed.

Lemma list_files_nothing_found_witness :
  fst (list_files "." w_empty_workspace) = Returned "No files found."
  /\ same_but_trace w_empty_workspace (snd (list_files "." w_empty_workspace)).
Proof.
  apply (list_files_nothing_found w_empty_workspace "s1" ".").
  - split; [reflexivity|discriminate].
  - apply (bool_decide_eq_true_1 _). vm_compute. reflexivity.
  - vm_compute. reflexivity.
  - intros f c _. unfold w_empty_workspace. simpl. rewrite mkdirs_lookup.
    destruct (bool_decide _); [discriminate|]. rewrite lookup_empty. discriminate.
Defined.

Lemma resolved_dot w sid : resolved w sid "." = Path.resolve (project_root w sid).
Proof.
  unfold resolved.
  change (Path.joinpath (project_root w sid) ".") with (project_root w sid ++ []).
  now rewrite app_nil_r.
Qed.

(** X10. [init_project_root] on a workspace that holds no regular file
    creates the project directory without touching a regular file, returns
    its path, and [list_files(".")] then answers ["No files found."].  (The
    project root is taken free of [..]: the directory made is the one the
    tools resolve to.) *)
Theorem init_then_list (w : World) (sid : string) :
  bound w sid ->
  Path.resolve (project_root w sid) = project_root w sid ->
  no_file_above w (project_root w sid) ->
  (forall f c, project_root w sid `prefix_of` f -> fsmap w !! f <> Some (File c)) ->
  exists w1,
    init_project_root sid w = (Returned (Path.to_str (project_root w sid)), w1)
    /\ Fs.stat w1 (project_root w sid) = Some Dir
    /\ (forall q c, fsmap w1 !! q = Some (File c) <-> fsmap w !! q = Some (File c))
    /\ fst (list_files "." w1) = Returned "No files found.".
Proof.
  intros Hb Hres Hnf Hnone.
  set (root := project_root w sid) in *.
  set (w1 := with_files (with_action w (FsMkdir root)) (Fs.mkdirs root (fsmap w))).
  assert (Hinit : init_project_root sid w = (Returned (Path.to_str root), w1)).
  { unfold init_project_root, get_project_root.
    unfold bind at 1. unfold bind at 1, get at 1, ret at 1. fold root.
    destruct (mkdir_parents_cases root w) as [[e He]|Hmk].
    - exfalso. revert He. unfold Fs.mkdir_parents, bind, log, get, raise. simpl.
      replace (existsb _ (Path.parents root)) with false.
      2:{ symmetry. apply not_true_is_false. intros Hex.
          apply existsb_exists in Hex as (q & Hq & Hf).
          rewrite stat_with_action in Hf.
          rewrite (Hnf q (parents_are_prefixes _ _ Hq)) in Hf. discriminate. }
      rewrite stat_with_action, (Hnf root) by reflexivity. discriminate.
    - now rewrite (bind_returned _ _ _ _ _ Hmk). }
  assert (Hfiles : forall q c, fsmap w1 !! q = Some (File c) <-> fsmap w !! q = Some (File c)).
  { intros q c. subst w1. simpl. rewrite mkdirs_lookup.
    destruct (decide (q <> [] /\ q `prefix_of` root)) as [Hq|Hq].
    - rewrite (bool_decide_eq_true_2 _ Hq). split; [discriminate|].
      intros Hf. destruct Hq as [Hq0 Hq1]. pose proof (Hnf q Hq1) as Hn.
      destruct q as [|c0 q]; [congruence|].
      change (Fs.is_file_node (fsmap w !! (c0 :: q)) = false) in Hn.
      rewrite Hf in Hn. discriminate.
    - now rewrite (bool_decide_eq_false_2 _ Hq). }
  assert (Hdir : Fs.stat w1 root = Some Dir).
  { destruct root as [|c r] eqn:Hr; [reflexivity|].
    unfold Fs.stat. subst w1. simpl. rewrite mkdirs_lookup.
    rewrite bool_decide_eq_true_2; [reflexivity|]. split; [discriminate|reflexivity]. }
  assert (HB : same_binding w w1) by (repeat split).
  exists w1. repeat split; try assumption; try apply Hfiles.
  apply (list_files_empty_dir w1 sid ".").
  - exact (bound_same_binding _ _ _ HB Hb).
  - unfold inside. rewrite resolved_dot. reflexivity.
  - rewrite resolved_dot, (project_root_same_binding _ _ _ HB). fold root.
    now rewrite Hres.
  - intros f c Hp Hf. rewrite resolved_dot, (project_root_same_binding _ _ _ HB) in Hp.
    fold root in Hp. rewrite Hres in Hp. apply Hfiles in Hf. exact (Hnone f c Hp Hf).
Qed.

Lemma init_then_list_witness :
  exists w1,
    init_project_root "s1" w_fresh = (Returned "/srv/app/generated_project/s1", w1)
    /\ Fs.stat w1 example_root = Some Dir
    /\ (forall q c, fsmap w1 !! q = Some (File c) <-> fsmap w_fresh !! q = Some (File c))
    /\ fst (list_files "." w1) = Returned "No files found.".
Proof.
  apply (init_then_list w_fresh "s1").
  - split; [reflexivity|discriminate].
  - reflexivity.
  - apply no_file_above_check. vm_compute. reflexivity.
  - intros f c _. simpl. rewrite lookup_empty. discriminate.
Defined.

(** * Further properties of the graph *)

(** Whatever [write_file] respects, and every action of the trace with it,
    the whole controller respects. *)
Section ControllerRespects.

Variable R : World -> World -> Prop.
Hypothesis R_refl : forall w, R w w.
Hypothesis R_trans : forall w1 w2 w3, R w1 w2 -> R w2 w3 -> R w1 w3.
Hypothesis R_action : forall w a, R w (with_action w a).
Hypothesis R_write : forall path content, respects R (write_file path content).

Lemma R_reads : forall w a, is_fs a = true -> R w (with_action w a).
Proof. intros w a _. apply R_action. Qed.

Lemma ctl_run_tool c : respects R (run_tool c).
Proof.
  destruct c; simpl.
  - apply (respects_read_file R R_refl R_trans R_reads).
  - apply R_write.
  - apply (respects_list_files R R_refl R_trans R_reads).
  - apply (respects_get_current_directory R R_refl R_trans).
Qed.

Lemma ctl_run_calls cs : respects R (run_calls cs).
Proof.
  induction cs as [|c cs IH]; simpl.
  - apply (respects_ret R R_refl).
  - apply (respects_bind R R_trans).
    + apply (respects_attempt R R_refl R_trans), ctl_run_tool.
    + intros _. exact IH.
Qed.

Lemma ctl_debug_write : respects R debug_write.
Proof.
  unfold debug_write. apply (respects_attempt R R_refl R_trans).
  apply (respects_bind R R_trans);
    [apply (respects_called_with_two R R_refl)|intros _].
  apply (respects_read_file R R_refl R_trans R_reads).
Qed.

Lemma ctl_primary_attempt sys o up : respects R (primary_attempt sys o up).
Proof.
  unfold primary_attempt. apply (respects_catch R R_trans).
  - apply (respects_bind R R_trans); [intros w; apply R_action|intros _].
    apply (respects_bind R R_trans); [apply ctl_run_calls|intros _].
    apply respects_if; [apply (respects_raise R R_refl)|].
    apply (respects_bind R R_trans).
    + apply (respects_attempt R R_refl R_trans).
      apply (respects_list_files R R_refl R_trans R_reads).
    + intros _. apply (respects_ret R R_refl).
  - intros e. apply (respects_ret R R_refl).
Qed.

Lemma ctl_fallback_block o t up success : respects R (fallback_block o t up success).
Proof.
  unfold fallback_block. apply (respects_attempt R R_refl R_trans).
  apply (respects_bind R R_trans);
    [apply (respects_verify R R_refl R_trans R_action)|intros ok].
  apply respects_if; [|apply (respects_ret R R_refl)].
  unfold fallback_path.
  apply (respects_bind R R_trans); [intros w; apply R_action|intros _].
  apply (respects_bind R R_trans); [apply (respects_lift R R_refl)|intros c].
  apply respects_if; [|apply (respects_ret R R_refl)].
  apply (respects_bind R R_trans);
    [apply (respects_called_with_two R R_refl)|intros _].
  apply (respects_attempt R R_refl R_trans).
  apply (respects_read_file R R_refl R_trans R_reads).
Qed.

Lemma ctl_run_step sys o cs : respects R (run_step sys o cs).
Proof.
  unfold run_step.
  apply (respects_bind R R_trans); [apply (respects_lift R R_refl)|intros t].
  apply (respects_bind R R_trans); [apply ctl_debug_write|intros _].
  apply (respects_bind R R_trans);
    [apply (respects_read_existing R R_refl R_trans R_action)|intros s].
  apply (respects_bind R R_trans); [apply ctl_primary_attempt|intros b].
  apply (respects_bind R R_trans); [apply ctl_fallback_block|intros _].
  apply (respects_ret R R_refl).
Qed.

Lemma ctl_coder_agent sys o state : respects R (coder_agent sys o state).
Proof.
  unfold coder_agent. destruct (task_plan_data state) as [tpd|];
    [|apply (respects_ret R R_refl)].
  apply (respects_bind R R_trans); [apply (respects_lift R R_refl)|intros cs].
  apply respects_if; [apply (respects_ret R R_refl)|apply ctl_run_step].
Qed.

Lemma ctl_coder_loop sys fuel : forall os state,
  respects R (coder_loop sys fuel os state).
Proof.
  induction fuel as [|fuel IH]; intros os state; simpl.
  - apply (respects_ret R R_refl).
  - apply (respects_bind R R_trans); [apply ctl_coder_agent|intros s].
    apply respects_if; [apply (respects_ret R R_refl)|].
    apply (respects_bind R R_trans); [apply IH|intros r].
    apply (respects_ret R R_refl).
Qed.

Lemma ctl_planner_agent pp answer state : respects R (planner_agent pp answer state).
Proof.
  unfold planner_agent. destruct (st_user_prompt state);
    [|apply (respects_raise R R_refl)].
  apply (respects_catch R R_trans).
  - apply (respects_bind R R_trans); [intros w; apply R_action|intros _].
    apply (respects_bind R R_trans); [apply (respects_lift R R_refl)|intros p].
    apply (respects_ret R R_refl).
  - intros e. apply (respects_ret R R_refl).
Qed.

Lemma ctl_architect_agent ap answer state :
  respects R (architect_agent ap answer state).
Proof.
  unfold architect_agent. destruct (st_plan state);
    [|apply (respects_ret R R_refl)].
  apply (respects_catch R R_trans).
  - apply (respects_bind R R_trans); [intros w; apply R_action|intros _].
    apply (respects_bind R R_trans); [apply (respects_lift R R_refl)|intros tp].
    apply (respects_ret R R_refl).
  - intros e. apply (respects_ret R R_refl).
Qed.

Lemma ctl_agent_invoke pp ap sys fuel pa sa os state :
  respects R (agent_invoke pp ap sys fuel pa sa os state).
Proof.
  unfold agent_invoke.
  apply (respects_bind R R_trans); [apply ctl_planner_agent|intros s1].
  apply (respects_bind R R_trans); [apply ctl_architect_agent|intros s2].
  apply ctl_coder_loop.
Qed.

End ControllerRespects.

Lemma planner_agent_result pp answer state up w :
  st_user_prompt state = Some up ->
  planner_agent pp answer state w
  = (Returned (mkState None (Some (plan_of answer)) None None),
     with_action w (StructuredInvoke "Plan" (pp (PyStr.strip up)))).
Proof.
  intros Hup. unfold planner_agent. rewrite Hup.
  unfold catch, bind, log, lift, ret. simpl. destruct answer; reflexivity.
Qed.

Lemma architect_agent_result ap answer plan w :
  architect_agent ap answer (mkState None (Some plan) None None) w
  = (Returned (starting None None (mkTaskPlan (steps_of answer) (Some plan))),
     with_action w (StructuredInvoke "TaskPlan" (ap plan))).
Proof.
  unfold architect_agent. simpl.
  unfold catch, bind, log, lift, ret. simpl. destruct answer; reflexivity.
Qed.

(** X11. The whole graph, for every answer of the model.  Given a user
    prompt, the run never raises: the planner settles on the parsed plan or
    on the default one, the architect on the parsed steps or on none, and
    the coder loop stops after [max 1 N] invocations with the cursor at [N],
    the number of steps, and the plan unchanged.  (The recursion limit of the
    graph library is not part of the model.) *)
Theorem agent_completes (planner_prompt : string -> string)
        (architect_prompt : Plan -> string) (coder_system_prompt : string)
        (fuel : nat) (plan_answer : res Plan) (steps_answer : res TaskPlan)
        (os : nat -> Oracle) (state : State) (up : string) (w : World) :
  st_user_prompt state = Some up ->
  (Nat.max 1 (length (steps_of steps_answer)) <= fuel)%nat ->
  exists w',
    agent_invoke planner_prompt architect_prompt coder_system_prompt fuel
                 plan_answer steps_answer os state w
    = (Returned
         (Some (holding (mkCoderState
                           (mkTaskPlan (steps_of steps_answer) (Some (plan_of plan_answer)))
                           (Z.of_nat (length (steps_of steps_answer))) None),
                Nat.max 1 (length (steps_of steps_answer)))),
       w').
Proof.
  intros Hup Hfuel. unfold agent_invoke.
  rewrite (bind_returned _ _ _ _ _ (planner_agent_result _ plan_answer state up w Hup)).
  rewrite (bind_returned _ _ _ _ _ (architect_agent_result _ steps_answer _ _)).
  set (tp := mkTaskPlan (steps_of steps_answer) (Some (plan_of plan_answer))).
  set (w2 := with_action _ _).
  destruct (coder_loop_halts coder_system_prompt fuel os (starting None None tp) w2
              (mkCoderState tp 0 None) eq_refl ltac:(simpl; lia)
              ltac:(simpl; unfold len_steps; simpl; lia)) as [w' Hw'].
  exists w'. rewrite Hw'. unfold set_cursor, len_steps. simpl.
  replace (Z.max 0 (Z.of_nat (length (steps_of steps_answer))))
    with (Z.of_nat (length (steps_of steps_answer))) by lia.
  replace (Z.to_nat (Z.max 1 (Z.of_nat (length (steps_of steps_answer)) - 0)))
    with (Nat.max 1 (length (steps_of steps_answer))) by lia.
  reflexivity.
Qed.

Lemma agent_completes_witness :
  exists w',
    agent_invoke (fun s => s) name "sys" 2 (Raised ValidationError) (Returned two_steps)
                 (fun _ => blank_writer)
                 (mkState (Some "a todo app") None None None) w_fresh
    = (Returned
         (Some (holding (mkCoderState
                           (mkTaskPlan (implementation_steps two_steps) (Some default_plan))
                           2 None), 2%nat)), w').
Proof.
  apply (agent_completes (fun s => s) name "sys" 2 (Raised ValidationError)
           (Returned two_steps) (fun _ => blank_writer)
           (mkState (Some "a todo app") None None None) "a todo app" w_fresh eq_refl).
  simpl. lia.
Defined.

(** X12. [should_continue] has two answers.  It answers ["coder"] exactly
    when the state holds a coder state whose cursor (0 when the key is
    missing) is below the number of steps of its plan (none when the key is
    missing); a missing or empty coder state ends the run. *)
Theorem should_continue_coder_iff (state : State) :
  (should_continue state = "coder"
   <-> exists d, st_coder_state state = Some d
                 /\ default 0 (d_current_step_idx d)
                    < match d_task_plan d with
                      | Some tp => len_steps tp
                      | None => 0
                      end)
  /\ (should_continue state = "coder" \/ should_continue state = "END").
Proof.
  unfold should_continue.
  destruct (st_coder_state state) as [d|].
  2:{ split; [|right; reflexivity]. split; [discriminate|]. intros (d & H & _).
      discriminate. }
  destruct (dict_truthy d) eqn:Ht.
  - set (i := default 0 (d_current_step_idx d)).
    set (N := match d_task_plan d with Some tp => len_steps tp | None => 0 end).
    destruct (Z.le_gt_cases N i) as [Hd|Hp].
    + rewrite (geb_true _ _ Hd). split; [|right; reflexivity].
      split; [discriminate|]. intros (d' & Hd' & Hlt). injection Hd' as <-.
      fold i N in Hlt. lia.
    + rewrite (geb_false _ _ Hp). split; [|left; reflexivity].
      split; [|reflexivity]. intros _. exists d. split; [reflexivity|exact Hp].
  - split; [|right; reflexivity]. split; [discriminate|].
    intros (d' & Hd' & Hlt). injection Hd' as <-.
    unfold dict_truthy in Ht.
    destruct (d_task_plan d), (d_current_step_idx d), (d_current_file_content d);
      cbn in Ht, Hlt; discriminate.
Qed.

(** X13. Once the state holds a coder state with a task plan, the coder
    reads nothing else of the state: a top-level task plan, even a different
    one, the plan and the user prompt are ignored. *)
Theorem coder_state_takes_precedence (coder_system_prompt : string) (o : Oracle)
        (up : option string) (pl : option Plan) (top : option TaskPlan)
        (d : CoderStateDict) (tp : TaskPlan) (w : World) :
  d_task_plan d = Some tp ->
  coder_agent coder_system_prompt o (mkState up pl top (Some d)) w
  = coder_agent coder_system_prompt o (coder_state_only d) w.
Proof.
  intros Hd. unfold coder_agent, task_plan_data, rebuild, coder_state_only. simpl.
  rewrite Hd. destruct top; reflexivity.
Qed.

Lemma coder_state_takes_precedence_witness :
  coder_agent "sys" idle resumed w_fresh = coder_agent "sys" idle midway w_fresh.
Proof.
  apply (coder_state_takes_precedence "sys" idle (Some "a todo app") None
           (Some (mkTaskPlan [] None)) (model_dump (mkCoderState two_steps 1 None))
           two_steps w_fresh).
  reflexivity.
Defined.

(** X14. A coder state without a task plan beside a top-level task plan is
    not completed from the top level: the reconstruction of lines 110-112
    validates an empty dictionary, and the coder raises a validation error
    before any step, leaving the world as it was. *)
Theorem planless_coder_state_rejected (coder_system_prompt : string) (o : Oracle)
        (up : option string) (pl : option Plan) (tp : TaskPlan)
        (d : CoderStateDict) (w : World) :
  d_task_plan d = None ->
  coder_agent coder_system_prompt o (mkState up pl (Some tp) (Some d)) w
  = (Raised ValidationError, w).
Proof.
  intros Hd. unfold coder_agent, task_plan_data, rebuild. simpl.
  now rewrite Hd.
Qed.

Lemma planless_coder_state_rejected_witness :
  coder_agent "sys" idle (mkState None None (Some two_steps) (Some planless)) w_fresh
  = (Raised ValidationError, w_fresh).
Proof.
  apply (planless_coder_state_rejected "sys" idle None None two_steps planless w_fresh).
  reflexivity.
Defined.

(** ** The session binding, the events and the files across a step *)

Lemma same_binding_action w a : same_binding w (with_action w a).
Proof. repeat split. Qed.

Lemma write_file_binding path content : respects same_binding (write_file path content).
Proof.
  apply (respects_write_file same_binding same_binding_refl same_binding_trans
           (fun w a _ => same_binding_action w a)); intros; repeat split.
Qed.

Lemma post_attempt_binding sys o t w : same_binding w (post_attempt sys o t w).
Proof.
  unfold post_attempt.
  eapply same_binding_trans;
    [|apply (ctl_primary_attempt same_binding same_binding_refl same_binding_trans
               same_binding_action write_file_binding)].
  pose proof (existing_before_spec t w) as Hs.
  pose proof (respects_read_existing same_binding same_binding_refl same_binding_trans
                same_binding_action t (snd (debug_write w))) as Hr.
  rewrite Hs in Hr. simpl in Hr.
  eapply same_binding_trans; [|exact Hr].
  apply (ctl_debug_write same_binding same_binding_refl same_binding_trans
           same_binding_action).
Qed.

(** With content in the reply, the fallback ends at the call of line 238:
    the request is logged and nothing follows. *)
Lemma fallback_path_with_content o t up raw w :
  fallback_resp o = Returned (Some raw) ->
  raw <> "" ->
  exists e,
    fallback_path o t up w = (Raised e, with_action w (FallbackInvoke fallback_sys up)).
Proof.
  intros Hresp Hraw. unfold fallback_path.
  unfold bind at 1. unfold log at 1.
  unfold bind at 1. unfold lift at 1. rewrite Hresp.
  change (default "" (Some raw)) with raw.
  rewrite (truthy_nonempty _ Hraw).
  destruct (called_with_two_raises write_file (filepath t) (clean_fallback raw)
              (with_action w (FallbackInvoke fallback_sys up))) as (e & He).
  exists e. now rewrite (bind_raised _ _ _ _ _ He).
Qed.

Section StepOutcomes.

Variable coder_system_prompt : string.

(** X15. When nothing prompts the fallback (the agent did not raise and the
    target file is confirmed), the controller adds nothing to what the agent
    did: after the invocation files, events and binding are those the
    primary attempt left, and the cursor has moved by one. *)
Theorem confirmed_attempt_left_alone (o : Oracle) (state : State) (w : World)
        (cs : CoderState) (t : ImplementationTask) :
  effective state = Some cs ->
  py_index (implementation_steps (task_plan cs)) (current_step_idx cs) = Returned t ->
  react_raises o = false ->
  confirmed (reread coder_system_prompt o t w) = true ->
  exists w',
    coder_agent coder_system_prompt o state w = (Returned (holding (advance cs)), w')
    /\ same_but_trace (post_attempt coder_system_prompt o t w) w'.
Proof.
  intros He Ht Hr Hc.
  rewrite (coder_pending coder_system_prompt o state w cs He
             (py_index_returned_lt _ _ _ Ht)).
  rewrite (run_step_stages coder_system_prompt o cs t w Ht).
  eexists. split; [reflexivity|].
  set (wP := post_attempt coder_system_prompt o t w).
  unfold fallback_block. rewrite attempt_returns. cbn [snd].
  rewrite (bind_returned _ _ _ _ _ (verify_spec t wP)).
  unfold reread in Hc. fold wP in Hc. rewrite Hr, Hc. simpl.
  apply (respects_read_file same_but_trace same_but_trace_refl same_but_trace_trans
           (fun w a _ => same_but_trace_action w a)).
Qed.

(** X16. The controller writes nothing of its own.  Whatever the agent and
    the tool-free model do, the files, the events and the binding at the end
    of an invocation that attempts a step are those the primary attempt
    left.  In particular a fallback reply is requested and then lost: when
    the fallback is prompted and the model replies with content, the request
    is the last action of the invocation.  Line 238 hands the tool object two
    positional arguments, the call raises, and no directory or file is made,
    no event is emitted and the verification read of line 243 is not
    reached. *)
Theorem fallback_reply_not_written (o : Oracle) (state : State) (w : World)
        (cs : CoderState) (t : ImplementationTask) :
  effective state = Some cs ->
  py_index (implementation_steps (task_plan cs)) (current_step_idx cs) = Returned t ->
  exists w',
    coder_agent coder_system_prompt o state w = (Returned (holding (advance cs)), w')
    /\ same_but_trace (post_attempt coder_system_prompt o t w) w'
    /\ (react_raises o = true \/ confirmed (reread coder_system_prompt o t w) = false ->
        forall raw, fallback_resp o = Returned (Some raw) -> raw <> "" ->
        trace w'
        = trace (snd (read_file (filepath t) (post_attempt coder_system_prompt o t w)))
          ++ [FallbackInvoke fallback_sys (prompt_for t w)]).
Proof.
  intros He Ht.
  rewrite (coder_pending coder_system_prompt o state w cs He
             (py_index_returned_lt _ _ _ Ht)).
  rewrite (run_step_stages coder_system_prompt o cs t w Ht).
  eexists. split; [reflexivity|].
  set (wP := post_attempt coder_system_prompt o t w).
  split.
  - apply (ctl_fallback_block same_but_trace same_but_trace_refl same_but_trace_trans
             same_but_trace_action).
  - intros Hneed raw Hresp Hraw.
    unfold fallback_block. rewrite attempt_returns. cbn [snd].
    rewrite (bind_returned _ _ _ _ _ (verify_spec t wP)).
    replace (negb (negb (react_raises o))
             || negb (confirmed (fst (read_file (filepath t) wP))))
      with true.
    2:{ symmetry. unfold reread in Hneed. fold wP in Hneed.
        destruct Hneed as [-> | ->]; [reflexivity|now rewrite orb_true_r]. }
    destruct (fallback_path_with_content o t (prompt_for t w) raw
                (snd (read_file (filepath t) wP)) Hresp Hraw) as (e & ->).
    reflexivity.
Qed.

End StepOutcomes.

Lemma confirmed_attempt_left_alone_witness :
  exists w',
    coder_agent "sys" good_writer (starting None None two_steps) w_fresh
    = (Returned (holding (mkCoderState two_steps 1 None)), w')
    /\ same_but_trace (post_attempt "sys" good_writer first_task w_fresh) w'.
Proof.
  apply (confirmed_attempt_left_alone "sys" good_writer (starting None None two_steps)
           w_fresh (mkCoderState two_steps 0 None) first_task eq_refl eq_refl eq_refl).
  vm_compute. reflexivity.
Defined.

Lemma fallback_reply_not_written_witness :
  exists w',
    coder_agent "sys" failing_agent (starting None None two_steps) w_fresh
    = (Returned (holding (advance (mkCoderState two_steps 0 None))), w')
    /\ same_but_trace (post_attempt "sys" failing_agent first_task w_fresh) w'
    /\ (react_raises failing_agent = true
        \/ confirmed (reread "sys" failing_agent first_task w_fresh) = false ->
        forall raw, fallback_resp failing_agent = Returned (Some raw) -> raw <> "" ->
        trace w'
        = trace (snd (read_file (filepath first_task)
                        (post_attempt "sys" failing_agent first_task w_fresh)))
          ++ [FallbackInvoke fallback_sys (prompt_for first_task w_fresh)]).
Proof.
  apply (fallback_reply_not_written "sys" failing_agent (starting None None two_steps)
           w_fresh (mkCoderState two_steps 0 None) first_task);
    vm_compute; reflexivity.
Defined.

(** ** What a run never does *)

Lemma sound_event_same_binding w w' e :
  same_binding w w' -> sound_event w' e -> sound_event w e.
Proof.
  intros HB (sid & path & content & Hb & Hin & ->).
  assert (HB' : same_binding w' w).
  { destruct HB as (?&?&?). repeat split; congruence. }
  exists sid, path, content. split; [|split; [|reflexivity]].
  - exact (bound_same_binding _ _ _ HB' Hb).
  - exact (inside_same_binding _ _ _ _ HB' Hin).
Qed.

Lemma events_sound_refl w : events_sound w w.
Proof.
  split; [apply same_binding_refl|]. exists []. split; [now rewrite app_nil_r|constructor].
Qed.

Lemma events_sound_trans w1 w2 w3 :
  events_sound w1 w2 -> events_sound w2 w3 -> events_sound w1 w3.
Proof.
  intros (B1 & l1 & E1 & F1) (B2 & l2 & E2 & F2).
  split; [exact (same_binding_trans _ _ _ B1 B2)|].
  exists (l1 ++ l2). split; [now rewrite E2, E1, app_assoc|].
  apply Forall_app. split; [assumption|].
  eapply Forall_impl; [exact F2|]. intros e. now apply sound_event_same_binding.
Qed.

Lemma events_sound_action w a : events_sound w (with_action w a).
Proof.
  split; [repeat split|]. exists []. split; [simpl; now rewrite app_nil_r|constructor].
Qed.

Lemma events_sound_unchanged w w' :
  same_binding w w' -> events w' = events w -> events_sound w w'.
Proof.
  intros HB He. split; [assumption|]. exists [].
  split; [now rewrite app_nil_r|constructor].
Qed.

Lemma write_file_events_sound path content :
  respects events_sound (write_file path content).
Proof.
  intros w. pose proof (write_file_binding path content w) as HB.
  revert HB. unfold write_file.
  destruct (_session_id w) as [sid|] eqn:Hs.
  2:{ rewrite (bind_raised _ _ _ _ _ (require_session_unbound w
                 ltac:(intros s H; congruence))). intros _. apply events_sound_refl. }
  destruct (decide (sid = "")) as [->|Hne].
  { rewrite (bind_raised _ _ _ _ _ (require_session_unbound w
               ltac:(intros s H; congruence))). intros _. apply events_sound_refl. }
  assert (Hb : bound w sid) by (split; assumption).
  rewrite (bind_returned _ _ _ _ _ (require_session_bound _ _ Hb)).
  destruct (decide (inside w sid path)) as [Hin|Hout].
  2:{ rewrite (bind_raised _ _ _ _ _ (safe_path_outside _ _ _ Hout)).
      intros _. apply events_sound_refl. }
  rewrite (bind_returned _ _ _ _ _ (safe_path_inside _ _ _ Hin)).
  set (p := resolved w sid path).
  destruct (mkdir_parents_cases (Path.parent p) w) as [[e He]|Hmk].
  { rewrite (bind_raised _ _ _ _ _ He). intros HB.
    now apply events_sound_unchanged. }
  rewrite (bind_returned _ _ _ _ _ Hmk).
  set (w1 := with_files _ _).
  destruct (open_write_cases p content w1) as [[e He]|Hop].
  { rewrite (bind_raised _ _ _ _ _ He). intros HB.
    now apply events_sound_unchanged. }
  rewrite (bind_returned _ _ _ _ _ Hop).
  rewrite (bind_returned _ _ _ _ _ (emit_event_returns _ _ _)).
  unfold ret. cbn [snd]. intros HB. split; [assumption|].
  exists (if _event_emitter w then [file_event sid path content] else []).
  split.
  - rewrite (emit_file_event_events _ sid path content); [reflexivity|].
    split; assumption.
  - destruct (_event_emitter w); constructor; [|constructor].
    exists sid, path, content. repeat split; assumption.
Qed.

(** X17. Every event emitted during an invocation of the coder, and during
    a whole run of the graph, is the write event of a path that resolved
    inside the project root of the bound session; and neither the session
    binding nor the working directory changes. *)
Theorem emitted_events_are_sound (planner_prompt : string -> string)
        (architect_prompt : Plan -> string) (coder_system_prompt : string)
        (fuel : nat) (plan_answer : res Plan) (steps_answer : res TaskPlan)
        (os : nat -> Oracle) (o : Oracle) (state : State) (w : World) :
  events_sound w (snd (coder_agent coder_system_prompt o state w))
  /\ events_sound w
       (snd (agent_invoke planner_prompt architect_prompt coder_system_prompt fuel
                          plan_answer steps_answer os state w)).
Proof.
  split.
  - apply (ctl_coder_agent events_sound events_sound_refl events_sound_trans
             events_sound_action write_file_events_sound).
  - apply (ctl_agent_invoke events_sound events_sound_refl events_sound_trans
             events_sound_action write_file_events_sound).
Qed.

Lemma idle_when_unbound_refl w : idle_when_unbound w w.
Proof. intros _. apply same_but_trace_refl. Qed.

Lemma idle_when_unbound_trans w1 w2 w3 :
  idle_when_unbound w1 w2 -> idle_when_unbound w2 w3 -> idle_when_unbound w1 w3.
Proof.
  intros H1 H2 Hu. specialize (H1 Hu).
  eapply same_but_trace_trans; [exact H1|]. apply H2.
  destruct H1 as ((_ & Hs & _) & _). intros sid Hsid. apply Hu. congruence.
Qed.

Lemma idle_when_unbound_action w a : idle_when_unbound w (with_action w a).
Proof. intros _. apply same_but_trace_action. Qed.

Lemma write_file_idle_when_unbound path content :
  respects idle_when_unbound (write_file path content).
Proof.
  intros w Hu. unfold write_file.
  rewrite (bind_raised _ _ _ _ _ (require_session_unbound w Hu)).
  apply same_but_trace_refl.
Qed.

(** X18. With no session bound, an invocation that attempts a step creates
    no file and emits no event, whatever the agent and the fallback do; it
    still returns with the cursor moved by one. *)
Theorem unbound_step_changes_nothing (coder_system_prompt : string) (o : Oracle)
        (state : State) (w : World) (cs : CoderState) :
  unbound w ->
  effective state = Some cs ->
  - len_steps (task_plan cs) <= current_step_idx cs < len_steps (task_plan cs) ->
  exists w',
    coder_agent coder_system_prompt o state w = (Returned (holding (advance cs)), w')
    /\ same_but_trace w w'.
Proof.
  intros Hu He Hr.
  destruct (coder_attempts coder_system_prompt o state w cs He Hr) as [w' Hw'].
  exists w'. split; [exact Hw'|].
  pose proof (ctl_coder_agent idle_when_unbound idle_when_unbound_refl
                idle_when_unbound_trans idle_when_unbound_action
                write_file_idle_when_unbound coder_system_prompt o state w Hu) as H.
  now rewrite Hw' in H.
Qed.

Lemma unbound_step_changes_nothing_witness :
  exists w',
    coder_agent "sys" failing_agent (starting None None two_steps) w_unbound
    = (Returned (holding (mkCoderState two_steps 1 None)), w')
    /\ same_but_trace w_unbound w'.
Proof.
  apply (unbound_step_changes_nothing "sys" failing_agent (starting None None two_steps)
           w_unbound (mkCoderState two_steps 0 None)).
  - intros sid H. discriminate H.
  - reflexivity.
  - vm_compute. split; [discriminate|reflexivity].
Defined.

(** ** The clean-up of the fallback reply *)

Lemma split_single_line s :
  single_line s = true -> PyStr.split (ascii_of_nat 10) s = [s].
Proof.
  induction s as [|c s IH]; intros H; [reflexivity|].
  simpl in H. apply andb_true_iff in H as [Hc Hs]. apply negb_true_iff in Hc.
  specialize (IH Hs). simpl in *. rewrite Hc, IH. reflexivity.
Qed.

Lemma split_line_then x rest :
  single_line x = true ->
  PyStr.split (ascii_of_nat 10) (x +:+ String (ascii_of_nat 10) rest)
  = x :: PyStr.split (ascii_of_nat 10) rest.
Proof.
  induction x as [|c x IH]; intros H.
  - reflexivity.
  - simpl in H. apply andb_true_iff in H as [Hc Hx]. apply negb_true_iff in Hc.
    specialize (IH Hx). simpl in *. rewrite Hc, IH. reflexivity.
Qed.

(** Splitting at line feeds undoes joining with line feeds. *)
Lemma split_join ls :
  ls <> [] ->
  Forall (fun l => single_line l = true) ls ->
  PyStr.split (ascii_of_nat 10) (PyStr.join newline ls) = ls.
Proof.
  induction ls as [|x ls IH]; intros Hne Hall; [congruence|].
  inversion Hall as [|? ? Hx Hls]; subst.
  destruct ls as [|y ls].
  - simpl. now apply split_single_line.
  - change (PyStr.join newline (x :: y :: ls))
      with (x +:+ String (ascii_of_nat 10) (PyStr.join newline (y :: ls))).
    rewrite (split_line_then _ _ Hx). f_equal. apply IH; [discriminate|assumption].
Qed.

Lemma rstrip_ends_nonspace s : ends_nonspace s = true -> PyStr.rstrip s = s.
Proof.
  induction s as [|c s IH]; intros H; [discriminate|].
  destruct s as [|d s].
  - simpl in *. apply negb_true_iff in H. now rewrite H.
  - change (ends_nonspace (String d s) = true) in H.
    cbn [PyStr.rstrip]. cbn [PyStr.rstrip] in IH. rewrite (IH H). reflexivity.
Qed.

Lemma ends_nonspace_app s t : ends_nonspace t = true -> ends_nonspace (s +:+ t) = true.
Proof.
  intros H. induction s as [|c s IH]; [exact H|].
  change (ends_nonspace (String c (s +:+ t)) = true).
  destruct (s +:+ t) eqn:E; [discriminate|exact IH].
Qed.

Lemma string_append_assoc (a b c : string) : (a +:+ b) +:+ c = a +:+ (b +:+ c).
Proof.
  induction a as [|x a IH]; [reflexivity|].
  change (String x ((a +:+ b) +:+ c) = String x (a +:+ (b +:+ c))).
  f_equal. exact IH.
Qed.

Lemma join_snoc sep (ls : list string) f :
  ls <> [] -> PyStr.join sep (ls ++ [f]) = PyStr.join sep ls +:+ sep +:+ f.
Proof.
  unfold PyStr.join. induction ls as [|x ls IH]; intros Hne; [congruence|].
  destruct ls as [|y ls]; [reflexivity|].
  change (String.concat sep ((x :: y :: ls) ++ [f]))
    with (x +:+ sep +:+ String.concat sep ((y :: ls) ++ [f])).
  rewrite IH by discriminate.
  change (String.concat sep (x :: y :: ls))
    with (x +:+ sep +:+ String.concat sep (y :: ls)).
  now rewrite !string_append_assoc.
Qed.

(** X19. A reply wrapped in a code fence is unwrapped: the opening fence
    line (with whatever language tag follows the fence) and the closing
    fence line are dropped and the lines between them are kept as they
    are.  A fenced reply with nothing between the fences yields the empty
    string. *)
Theorem clean_fallback_unwraps (tag : string) (ls : list string) :
  single_line tag = true ->
  Forall (fun l => single_line l = true) ls ->
  clean_fallback (PyStr.join newline ((fence +:+ tag) :: ls ++ [fence]))
  = PyStr.join newline ls.
Proof.
  intros Htag Hls.
  set (raw := PyStr.join newline ((fence +:+ tag) :: ls ++ [fence])).
  assert (Hraw : raw = PyStr.join newline ((fence +:+ tag) :: ls) +:+ newline +:+ fence).
  { subst raw. change ((fence +:+ tag) :: ls ++ [fence])
      with (((fence +:+ tag) :: ls) ++ [fence]). now apply join_snoc. }
  assert (Hstart : exists rest, raw = fence +:+ rest).
  { subst raw. destruct ls as [|l ls]; simpl; eauto. }
  assert (Hstrip : PyStr.strip raw = raw).
  { unfold PyStr.strip. destruct Hstart as [rest Hrest].
    replace (PyStr.lstrip raw) with raw by (rewrite Hrest; reflexivity).
    apply rstrip_ends_nonspace. rewrite Hraw.
    apply ends_nonspace_app, ends_nonspace_app. reflexivity. }
  assert (Hsplit : PyStr.split (ascii_of_nat 10) raw = (fence +:+ tag) :: ls ++ [fence]).
  { subst raw. apply split_join; [discriminate|].
    constructor.
    - simpl. exact Htag.
    - apply Forall_app. split; [assumption|]. constructor; [reflexivity|constructor]. }
  unfold clean_fallback. rewrite Hstrip.
  assert (Hfence : forall rest, PyStr.startswith (fence +:+ rest) fence = true).
  { intros rest. destruct rest; reflexivity. }
  replace (PyStr.startswith raw fence) with true
    by (destruct Hstart as [rest ->]; symmetry; apply Hfence).
  rewrite Hsplit. cbn [List.hd List.tl].
  rewrite (Hfence tag).
  assert (Hlast : List.last (ls ++ [fence]) "" = fence) by apply last_last.
  assert (Hrem : List.removelast (ls ++ [fence]) = ls) by apply removelast_last.
  destruct (ls ++ [fence]) as [|a l] eqn:E.
  - destruct ls; discriminate.
  - rewrite Hlast, Hrem. reflexivity.
Qed.

Lemma clean_fallback_unwraps_witness :
  clean_fallback fenced_reply = "print(1)".
Proof.
  apply (clean_fallback_unwraps "python" ["print(1)"]).
  - reflexivity.
  - repeat constructor.
Defined.

(** * The session registry and the file endpoints *)

Lemma record_event_files s e : s_files (record_event s e) = s_files s.
Proof. reflexivity. Qed.

(** X20. What [session_emitter] keeps for a known session, whatever the
    event: the event, time-stamped, is appended to the session's events
    (also when the emitter then raises [KeyError] for a missing key); the
    list of files only grows at its end and stays free of duplicates; status
    and error change only on ["done"] and ["error"] events; no other session
    is touched. *)
Theorem session_emitter_invariants (now sid : string) (event : list (string * pyval))
        (sessions : gmap string Session) (s : Session) :
  sessions !! sid = Some s ->
  NoDup (s_files s) ->
  exists s',
    snd (session_emitter now sid event sessions) !! sid = Some s'
    /\ s_events s' = s_events s ++ [with_timestamp now event]
    /\ s_files s `prefix_of` s_files s'
    /\ NoDup (s_files s')
    /\ (dict_get "type" event <> Some (VStr "done") ->
        dict_get "type" event <> Some (VStr "error") ->
        s_status s' = s_status s /\ s_error s' = s_error s)
    /\ (forall sid', sid' <> sid ->
        snd (session_emitter now sid event sessions) !! sid' = sessions !! sid').
Proof.
  intros Hs Hnd. unfold session_emitter. rewrite Hs.
  set (s1 := record_event s (with_timestamp now event)).
  assert (Hother : forall (m : gmap string Session) x sid',
             sid' <> sid -> (<[sid := x]> m) !! sid' = m !! sid').
  { intros m x sid' Hne. apply lookup_insert_ne. congruence. }
  assert (Hbase : forall x,
             s_events x = s_events s ++ [with_timestamp now event] ->
             s_files s `prefix_of` s_files x -> NoDup (s_files x) ->
             (dict_get "type" event <> Some (VStr "done") ->
              dict_get "type" event <> Some (VStr "error") ->
              s_status x = s_status s /\ s_error x = s_error s) ->
             exists s',
               (<[sid := x]> (<[sid := s1]> sessions)) !! sid = Some s'
               /\ s_events s' = s_events s ++ [with_timestamp now event]
               /\ s_files s `prefix_of` s_files s'
               /\ NoDup (s_files s')
               /\ (dict_get "type" event <> Some (VStr "done") ->
                   dict_get "type" event <> Some (VStr "error") ->
                   s_status s' = s_status s /\ s_error s' = s_error s)
               /\ (forall sid', sid' <> sid ->
                   (<[sid := x]> (<[sid := s1]> sessions)) !! sid' = sessions !! sid')).
  { intros x H1 H2 H3 H4. exists x. rewrite lookup_insert_eq.
    repeat split; try assumption; try apply H4; try assumption.
    intros sid' Hne. now rewrite !Hother. }
  assert (Hplain : exists s',
               (<[sid := s1]> sessions) !! sid = Some s'
               /\ s_events s' = s_events s ++ [with_timestamp now event]
               /\ s_files s `prefix_of` s_files s'
               /\ NoDup (s_files s')
               /\ (dict_get "type" event <> Some (VStr "done") ->
                   dict_get "type" event <> Some (VStr "error") ->
                   s_status s' = s_status s /\ s_error s' = s_error s)
               /\ (forall sid', sid' <> sid ->
                   (<[sid := s1]> sessions) !! sid' = sessions !! sid')).
  { exists s1. rewrite lookup_insert_eq. repeat split; try assumption; try reflexivity.
    intros sid' Hne. now rewrite Hother. }
  destruct (dict_get "type" event) as [ty|] eqn:Hty; [|exact Hplain].
  destruct (bool_decide (ty = VStr "node")).
  { destruct (dict_get "value" event) as [v|]; [|exact Hplain].
    apply Hbase; try reflexivity; try assumption. intros _ _. split; reflexivity. }
  destruct (bool_decide (ty = VStr "file")).
  { destruct (dict_get "path" event) as [pth|]; [|exact Hplain].
    destruct (decide (pth ∈ s_files s1)) as [Hin|Hnin].
    - rewrite (bool_decide_eq_true_2 _ Hin). exact Hplain.
    - rewrite (bool_decide_eq_false_2 _ Hnin). apply Hbase; try reflexivity.
      + simpl. now exists [pth].
      + simpl. apply NoDup_app. split; [assumption|]. split.
        * intros x Hx Hx'. apply list_elem_of_singleton in Hx'. subst x.
          now apply Hnin.
        * apply NoDup_singleton.
      + intros _ _. split; reflexivity. }
  destruct (decide (ty = VStr "done")) as [->|Hnd'].
  { rewrite bool_decide_eq_true_2 by reflexivity.
    apply Hbase; try reflexivity; try assumption. intros Hd. congruence. }
  rewrite (bool_decide_eq_false_2 _ Hnd').
  destruct (decide (ty = VStr "error")) as [->|Hne'].
  { rewrite bool_decide_eq_true_2 by reflexivity.
    apply Hbase; try reflexivity; try assumption. intros _ He. congruence. }
  rewrite (bool_decide_eq_false_2 _ Hne'). exact Hplain.
Qed.

Lemma session_emitter_invariants_witness :
  exists s',
    snd (session_emitter "t0" "s1" [("type", VStr "node")] one_session) !! "s1" = Some s'
    /\ s_events s' = [[("timestamp", VStr "t0"); ("type", VStr "node")]]
    /\ [] `prefix_of` s_files s'
    /\ NoDup (s_files s')
    /\ (Some (VStr "node") <> Some (VStr "done") ->
        Some (VStr "node") <> Some (VStr "error") ->
        s_status s' = "starting" /\ s_error s' = None)
    /\ (forall sid', sid' <> "s1" ->
        snd (session_emitter "t0" "s1" [("type", VStr "node")] one_session) !! sid'
        = one_session !! sid').
Proof.
  apply (session_emitter_invariants "t0" "s1" [("type", VStr "node")] one_session
           (new_session "a todo app")).
  - reflexivity.
  - constructor.
Defined.

(** X21. The event that [write_file] emits is handled without error by
    [session_emitter]: for a known session it is recorded, the written path
    joins the session's files unless it is already among them, and current
    node, status and error stay as they are. *)
Theorem session_emitter_file_event (now sid sid0 path content : string)
        (sessions : gmap string Session) (s : Session) :
  sessions !! sid = Some s ->
  session_emitter now sid (ev_record (file_event sid0 path content)) sessions
  = (Returned tt,
     <[sid := mkSession (s_prompt s) (s_status s) (s_current_node s)
                (if bool_decide (VStr path ∈ s_files s) then s_files s
                 else s_files s ++ [VStr path])
                (s_events s
                 ++ [("timestamp", VStr now)
                     :: ev_record (file_event sid0 path content)])
                (s_error s)]> sessions).
Proof.
  intros Hs. unfold session_emitter. rewrite Hs. simpl.
  destruct (decide (VStr path ∈ s_files s)) as [Hin|Hnin].
  - rewrite !(bool_decide_eq_true_2 _ Hin). reflexivity.
  - rewrite !(bool_decide_eq_false_2 _ Hnin).
    rewrite insert_insert_eq. reflexivity.
Qed.

Lemma session_emitter_file_event_witness :
  fst (session_emitter "t0" "s1" (ev_record (file_event "s1" "app.py" "print(1)"))
                       one_session)
  = Returned tt.
Proof.
  rewrite (session_emitter_file_event "t0" "s1" "s1" "app.py" "print(1)" one_session
             (new_session "a todo app")); reflexivity.
Defined.

(** ** The file endpoints *)

Lemma prefix_empty s : String.prefix "" s = true.
Proof. destruct s; reflexivity. Qed.

Lemma prefix_append a b : String.prefix a (a +:+ b) = true.
Proof.
  induction a as [|c a IH]; [apply prefix_empty|].
  change (String.prefix (String c a) (String c (a +:+ b)) = true).
  cbn [String.prefix]. destruct (ascii_dec c c); [exact IH|congruence].
Qed.

Lemma string_append_nil_r s : s +:+ "" = s.
Proof.
  induction s as [|c s IH]; [reflexivity|].
  change (String c (s +:+ "") = String c s). now rewrite IH.
Qed.

Lemma concat_empty_app (l1 l2 : list string) :
  String.concat "" (l1 ++ l2) = String.concat "" l1 +:+ String.concat "" l2.
Proof.
  induction l1 as [|x l1 IH]; [reflexivity|].
  destruct l1 as [|y l1].
  - destruct l2 as [|z l2]; [symmetry; apply string_append_nil_r|reflexivity].
  - change (String.concat "" ((x :: y :: l1) ++ l2))
      with (x +:+ "" +:+ String.concat "" ((y :: l1) ++ l2)).
    rewrite IH.
    change (String.concat "" (x :: y :: l1))
      with (x +:+ "" +:+ String.concat "" (y :: l1)).
    now rewrite !string_append_assoc.
Qed.

Lemma to_str_app (p k : Path.t) :
  p <> [] ->
  Path.to_str (p ++ k)
  = Path.to_str p +:+ String.concat "" (List.map (fun c => "/" +:+ c) k).
Proof.
  intros Hne. destruct p as [|c p]; [congruence|].
  unfold Path.to_str. cbn [app]. now rewrite <- concat_empty_app, <- List.map_app.
Qed.

(** Whatever the sandbox accepts passes the check of the endpoints. *)
Lemma api_check_inside (root p : Path.t) : root `prefix_of` p -> api_check root p = true.
Proof.
  intros [k ->]. unfold api_check, PyStr.startswith.
  destruct root as [|c root].
  - destruct k as [|d k]; [reflexivity|]. cbn [app].
    unfold Path.to_str.
    destruct k as [|e k].
    + exact (prefix_append "/" d).
    + exact (prefix_append "/"
               (d +:+ "" +:+ String.concat "" (List.map (fun c => "/" +:+ c) (e :: k)))).
  - rewrite to_str_app by discriminate. apply prefix_append.
Qed.

Lemma mkdir_then_open_ok (w : World) (p : Path.t) (content : string) :
  no_file_above w (Path.parent p) ->
  Fs.stat w p <> Some Dir ->
  (run! Fs.mkdir_parents (Path.parent p) in Fs.open_write p content) w
  = (Returned tt,
     with_files (with_action (with_action w (FsMkdir (Path.parent p)))
                             (FsOpenWrite p content))
                (<[p := File content]> (Fs.mkdirs (Path.parent p) (fsmap w)))).
Proof.
  intros Hnf Hnd.
  assert (Hpne : p <> []) by (intros E; rewrite E in Hnd; now apply Hnd).
  destruct (mkdir_parents_cases (Path.parent p) w) as [[e He]|Hmk].
  { exfalso. revert He. unfold Fs.mkdir_parents, bind, log, get, raise. simpl.
    replace (existsb _ (Path.parents (Path.parent p))) with false.
    2:{ symmetry. apply not_true_is_false. intros Hex.
        apply existsb_exists in Hex as (q & Hq & Hf).
        rewrite stat_with_action in Hf.
        rewrite (Hnf q (parents_are_prefixes _ _ Hq)) in Hf. discriminate. }
    rewrite stat_with_action, (Hnf (Path.parent p)) by reflexivity. discriminate. }
  rewrite (bind_returned _ _ _ _ _ Hmk).
  set (w1 := with_files _ _).
  assert (Hst_p : Fs.stat (with_action w1 (FsOpenWrite p content)) p = Fs.stat w p).
  { rewrite stat_with_action. destruct p as [|c p']; [congruence|].
    unfold Fs.stat. subst w1. cbn [fsmap with_files].
    rewrite mkdirs_lookup. rewrite bool_decide_eq_false_2; [reflexivity|].
    intros [_ Hp]. now apply (not_prefix_of_parent (c :: p')). }
  assert (Hst_par : Fs.stat (with_action w1 (FsOpenWrite p content)) (Path.parent p)
                    = Some Dir).
  { rewrite stat_with_action. destruct (Path.parent p) as [|c q] eqn:Hq; [reflexivity|].
    unfold Fs.stat. subst w1. cbn [fsmap with_files].
    rewrite mkdirs_lookup. rewrite bool_decide_eq_true_2; [reflexivity|].
    split; [discriminate|reflexivity]. }
  unfold Fs.open_write, bind, log, get. simpl.
  rewrite Hst_p, Hst_par. simpl.
  destruct (Fs.stat w p) as [[c|]|]; simpl; try reflexivity. congruence.
Qed.

Section ApiProperties.

Variable http_str : Z -> string -> string.
Variable exn_str : exn -> string.

(** X22. Neither file endpoint ever answers 403.  The [HTTPException]
    carrying it is raised inside the [try] whose handler catches every
    exception, so a path that fails the check is answered with 400, and the
    world is left as it was.  [update_file_content] answers 200, 400, 404 or
    500, [get_file_content] 200, 400 or 404. *)
Theorem file_endpoints_never_forbidden (sessions : gmap string Session)
        (session_id path content : string) (w : World) :
  In (status_of (fst (update_file_content http_str exn_str sessions session_id path
                                          content w)))
     [200; 400; 404; 500]
  /\ In (status_of (fst (get_file_content http_str exn_str sessions session_id path w)))
        [200; 400; 404]
  /\ (is_Some (sessions !! session_id) ->
      api_check (Path.resolve (project_root w session_id)) (resolved w session_id path)
      = false ->
      update_file_content http_str exn_str sessions session_id path content w
      = (HTTPException 400 ("Invalid file path: " +:+ http_str 403 denied), w)
      /\ get_file_content http_str exn_str sessions session_id path w
         = (HTTPException 400 ("Invalid file path: " +:+ http_str 403 denied), w)).
Proof.
  unfold update_file_content, get_file_content. fold (resolved w session_id path).
  set (p := resolved w session_id path).
  destruct (sessions !! session_id) as [s|].
  2:{ simpl. split; [tauto|]. split; [tauto|]. intros [x Hx]. discriminate. }
  destruct (api_check _ p) eqn:Hc; cbn [negb].
  - split; [|split; [|intros _ Hf; discriminate]].
    + destruct (bind _ _ w) as [[u|e] w']; simpl; tauto.
    + destruct (Fs.exists_ p w) as [[[|]|e] w1]; [|simpl; tauto|simpl; tauto].
      destruct (Fs.is_file_node (Fs.stat w1 p)) eqn:Hf; cbn [negb]; [|simpl; tauto].
      assert (Hr : exists c w2, Fs.open_read p w1 = (Returned c, w2)).
      { cbv [Fs.open_read bind log get ret raise]. rewrite stat_with_action.
        destruct (Fs.stat w1 p) as [[c|]|]; try discriminate Hf. eauto. }
      destruct Hr as (c & w2 & ->). simpl. tauto.
  - split; [simpl; tauto|]. split; [simpl; tauto|]. intros _ _. split; reflexivity.
Qed.

(** X23. What the agent wrote can be fetched: for a known session, after a
    successful [write_file], [get_file_content] for the same path answers
    with the content written, its line endings read as line feeds, and with
    the length of what it answers.  A content that holds no carriage return
    is served as it was written. *)
Theorem written_file_is_served (sessions : gmap string Session) (w : World)
        (sid path content : string) :
  is_Some (sessions !! sid) ->
  bound w sid ->
  inside w sid path ->
  no_file_above w (Path.parent (resolved w sid path)) ->
  Fs.stat w (resolved w sid path) <> Some Dir ->
  fst (get_file_content http_str exn_str sessions sid path
                        (snd (write_file path content w)))
  = Answer (mkFileBody path (Fs.universal_newlines content)
                       (PyStr.len (Fs.universal_newlines content)) sid)
  /\ (no_cr content = true ->
      fst (get_file_content http_str exn_str sessions sid path
                            (snd (write_file path content w)))
      = Answer (mkFileBody path content (PyStr.len content) sid)).
Proof.
  intros [s Hs] Hb Hin Hnf Hnd.
  assert (H : fst (get_file_content http_str exn_str sessions sid path
                                    (snd (write_file path content w)))
              = Answer (mkFileBody path (Fs.universal_newlines content)
                                   (PyStr.len (Fs.universal_newlines content)) sid)).
  { rewrite (write_file_ok w sid path content Hb Hin Hnf Hnd). cbn [snd].
    set (p := resolved w sid path) in *.
    set (w1 := written w p path content).
    assert (HB : same_binding w w1) by apply written_binding.
    unfold get_file_content. rewrite Hs.
    fold (resolved w1 sid path).
    rewrite (resolved_same_binding _ _ _ _ HB), (project_root_same_binding _ _ _ HB).
    fold p. rewrite (api_check_inside (Path.resolve (project_root w sid)) p Hin).
    cbn [negb].
    assert (Hp : p <> []) by (intros E; rewrite E in Hnd; now apply Hnd).
    assert (Hst : Fs.stat w1 p = Some (File content)).
    { destruct p as [|c p']; [congruence|]. unfold Fs.stat. subst w1.
      rewrite written_files. apply lookup_insert_eq. }
    cbv [Fs.exists_ bind log get ret].
    change (Fs.stat (with_action w1 (FsExists p)) p) with (Fs.stat w1 p).
    rewrite Hst. rewrite bool_decide_eq_true_2 by eauto.
    cbn [Fs.is_file_node negb].
    cbv [Fs.open_read bind log get ret].
    change (Fs.stat (with_action (with_action w1 (FsExists p)) (FsOpenRead p)) p)
      with (Fs.stat w1 p).
    rewrite Hst. reflexivity. }
  split; [exact H|].
  intros Hcr. rewrite H. apply universal_newlines_id in Hcr. now rewrite Hcr.
Qed.

End ApiProperties.

Lemma written_file_is_served_witness :
  fst (get_file_content (fun _ d => d) (fun _ => "") one_session "s1" "src/app.py"
                        (snd (write_file "src/app.py" crlf_text w_notes)))
  = Answer (mkFileBody "src/app.py" ("one" +:+ newline +:+ "two") 7 "s1")
  /\ (no_cr crlf_text = true ->
      fst (get_file_content (fun _ d => d) (fun _ => "") one_session "s1" "src/app.py"
                            (snd (write_file "src/app.py" crlf_text w_notes)))
      = Answer (mkFileBody "src/app.py" crlf_text (PyStr.len crlf_text) "s1")).
Proof.
  apply (written_file_is_served (fun _ d => d) (fun _ => "") one_session w_notes "s1"
           "src/app.py" crlf_text).
  - eexists. reflexivity.
  - split; [reflexivity|discriminate].
  - apply (bool_decide_eq_true_1 _). vm_compute. reflexivity.
  - apply no_file_above_check. vm_compute. reflexivity.
  - vm_compute. discriminate.
Defined.

Lemma to_str_nonempty (p : Path.t) :
  p <> [] -> Path.to_str p = String.concat "" (List.map (fun c => "/" +:+ c) p).
Proof. destruct p; [congruence|reflexivity]. Qed.

Lemma concat_empty_cons (y : string) (l : list string) :
  String.concat "" (y :: l) = y +:+ String.concat "" l.
Proof. destruct l; [symmetry; apply string_append_nil_r|reflexivity]. Qed.

Lemma append_eq_self (s x : string) : s +:+ x = s -> x = "".
Proof.
  induction s as [|c s IH]; intros H; [exact H|].
  change (String c (s +:+ x) = String c s) in H. injection H as H. now apply IH.
Qed.

(** The check of the endpoints compares texts: a directory beside the
    project root whose name starts with the name of the root passes it. *)
Lemma api_check_sibling (base rest : Path.t) (seg x : string) :
  api_check (base ++ [seg]) (base ++ (seg +:+ x) :: rest) = true.
Proof.
  unfold api_check, PyStr.startswith.
  rewrite !to_str_nonempty by (destruct base; discriminate).
  rewrite !List.map_app, !concat_empty_app. cbn [List.map].
  rewrite !concat_empty_cons. cbn [String.concat].
  rewrite string_append_nil_r.
  set (A := String.concat "" (List.map (fun c => "/" +:+ c) base)).
  set (T := String.concat "" (List.map (fun c => "/" +:+ c) rest)).
  assert (E : A +:+ ("/" +:+ (seg +:+ x)) +:+ T
              = (A +:+ ("/" +:+ seg)) +:+ (x +:+ T)).
  { rewrite (string_append_assoc A ("/" +:+ seg) (x +:+ T)). f_equal.
    change (String "/" ((seg +:+ x) +:+ T) = String "/" (seg +:+ (x +:+ T))).
    f_equal. apply string_append_assoc. }
  rewrite E. apply prefix_append.
Qed.

Section ApiReach.

Variable http_str : Z -> string -> string.
Variable exn_str : exn -> string.

(** X24. The check of [update_file_content] is on the text of the paths,
    not on their components: a path that resolves into a directory beside
    the project root whose name merely begins with the session identifier
    is outside the sandbox of the tools, yet the endpoint accepts it and
    writes the file there. *)
Theorem update_reaches_sibling_directory (sessions : gmap string Session) (w : World)
        (sid path content : string) (base rest : Path.t) (seg x : string) :
  is_Some (sessions !! sid) ->
  Path.resolve (project_root w sid) = base ++ [seg] ->
  resolved w sid path = base ++ (seg +:+ x) :: rest ->
  x <> "" ->
  no_file_above w (Path.parent (resolved w sid path)) ->
  Fs.stat w (resolved w sid path) <> Some Dir ->
  ~ inside w sid path
  /\ exists w',
      update_file_content http_str exn_str sessions sid path content w
      = (Answer (mkFileBody path "File updated successfully" (PyStr.len content) sid), w')
      /\ fsmap w' !! resolved w sid path = Some (File content).
Proof.
  intros [s Hs] Hroot Hfile Hx Hnf Hnd. split.
  - unfold inside. rewrite Hroot, Hfile. intros [k Hk].
    rewrite <- app_assoc in Hk. apply app_inv_head in Hk.
    injection Hk as Hk _. now apply Hx, (append_eq_self seg).
  - assert (Hc : api_check (base ++ [seg]) (resolved w sid path) = true)
      by (rewrite Hfile; apply api_check_sibling).
    unfold update_file_content. rewrite Hs. cbv zeta.
    fold (resolved w sid path). rewrite Hroot, Hc. cbn [negb].
    rewrite (mkdir_then_open_ok w _ content Hnf Hnd).
    eexists. split; [reflexivity|]. simpl. apply lookup_insert_eq.
Qed.

End ApiReach.

Lemma update_reaches_sibling_directory_witness :
  ~ inside w_notes "s1" "../s1-old/notes.txt"
  /\ exists w',
      update_file_content (fun _ d => d) (fun _ => "") one_session "s1"
                          "../s1-old/notes.txt" "x" w_notes
      = (Answer (mkFileBody "../s1-old/notes.txt" "File updated successfully" 1 "s1"), w')
      /\ fsmap w' !! resolved w_notes "s1" "../s1-old/notes.txt" = Some (File "x").
Proof.
  apply (update_reaches_sibling_directory (fun _ d => d) (fun _ => "") one_session
           w_notes "s1" "../s1-old/notes.txt" "x"
           ["srv"; "app"; "generated_project"] ["notes.txt"] "s1" "-old").
  - eexists. reflexivity.
  - reflexivity.
  - reflexivity.
  - discriminate.
  - apply no_file_above_check. vm_compute. reflexivity.
  - vm_compute. discriminate.
Defined.

(** ** The name of the archive *)

Lemma substring_length_le (m : nat) : forall s, (String.length (String.substring 0 m s) <= m)%nat.
Proof.
  induction m as [|m IH]; intros s; destruct s as [|c s]; simpl; try lia.
  specialize (IH s). lia.
Qed.

Lemma str_filter_length_le f s : (String.length (str_filter f s) <= String.length s)%nat.
Proof.
  induction s as [|c s IH]; simpl; [lia|]. destruct (f c); simpl; lia.
Qed.

Lemma str_filter_all f s : str_all f (str_filter f s) = true.
Proof.
  induction s as [|c s IH]; simpl; [reflexivity|].
  destruct (f c) eqn:Hc; simpl; [now rewrite Hc|assumption].
Qed.

Lemma rstrip_length_le s : (String.length (PyStr.rstrip s) <= String.length s)%nat.
Proof.
  induction s as [|c s IH]; [simpl; lia|].
  cbn [PyStr.rstrip]. destruct (PyStr.rstrip s) as [|d r].
  - destruct (PyStr.isspace c); simpl; lia.
  - simpl in *. lia.
Qed.

Lemma rstrip_all f s : str_all f s = true -> str_all f (PyStr.rstrip s) = true.
Proof.
  induction s as [|c s IH]; intros H; [reflexivity|].
  simpl in H. apply andb_true_iff in H as [Hc Hs]. specialize (IH Hs).
  cbn [PyStr.rstrip]. destruct (PyStr.rstrip s) as [|d r].
  - destruct (PyStr.isspace c); simpl; [reflexivity|now rewrite Hc].
  - change (f c && str_all f (String d r) = true). now rewrite Hc.
Qed.

Lemma rstrip_no_trailing_space s :
  PyStr.rstrip s <> "" -> ends_nonspace (PyStr.rstrip s) = true.
Proof.
  induction s as [|c s IH]; intros H; [now simpl in H|].
  cbn [PyStr.rstrip] in *. destruct (PyStr.rstrip s) as [|d r].
  - destruct (PyStr.isspace c) eqn:Hc; [congruence|]. simpl. now rewrite Hc.
  - change (ends_nonspace (String d r) = true). apply IH. discriminate.
Qed.

Lemma string_length_append (a b : string) :
  String.length (a +:+ b) = (String.length a + String.length b)%nat.
Proof.
  induction a as [|c a IH]; [reflexivity|].
  change (S (String.length (a +:+ b)) = S (String.length a + String.length b)).
  now rewrite IH.
Qed.

(** X25. The name given to the archive, for every prompt and whatever
    [isalnum] is: it is never empty, has at most 50 characters, and either
    is the default name or consists of kept characters only (alphanumeric,
    blank, hyphen, underscore) and does not end in white space.  The file
    name is that name, an underscore, the first eight characters of the
    session identifier and [.zip]. *)
Theorem zip_name_shape (isalnum : ascii -> bool) (prompt session_id : string) :
  zip_clean_name isalnum prompt <> ""
  /\ (String.length (zip_clean_name isalnum prompt) <= 50)%nat
  /\ (zip_clean_name isalnum prompt = "generated_project"
      \/ (str_all (kept isalnum) (zip_clean_name isalnum prompt) = true
          /\ ends_nonspace (zip_clean_name isalnum prompt) = true))
  /\ (String.length (zip_filename isalnum prompt session_id) <= 63)%nat.
Proof.
  unfold zip_filename, zip_clean_name.
  set (clean := PyStr.rstrip (str_filter (kept isalnum) (String.substring 0 50 prompt))).
  assert (Hlen : (String.length clean <= 50)%nat).
  { subst clean. pose proof (rstrip_length_le
                               (str_filter (kept isalnum) (String.substring 0 50 prompt))).
    pose proof (str_filter_length_le (kept isalnum) (String.substring 0 50 prompt)).
    pose proof (substring_length_le 50 prompt). lia. }
  assert (Hall : str_all (kept isalnum) clean = true).
  { subst clean. apply rstrip_all, str_filter_all. }
  assert (Hname : forall n, (String.length n <= 50)%nat ->
            (String.length (n +:+ "_" +:+ String.substring 0 8 session_id +:+ ".zip")
             <= 63)%nat).
  { intros n Hn. rewrite !string_length_append.
    pose proof (substring_length_le 8 session_id). simpl. lia. }
  destruct clean as [|c r] eqn:E; cbn [PyStr.truthy].
  - repeat split; [discriminate|simpl; lia|now left|apply Hname; simpl; lia].
  - repeat split; [discriminate|exact Hlen| |now apply Hname].
    right. split; [exact Hall|]. rewrite <- E. subst clean.
    apply rstrip_no_trailing_space. rewrite E. discriminate.
Qed.
